(** * MultiAgentMCPNavigator: the plan -> validate -> execute -> judge -> record pipeline

    A shallow embedding of [orchestrai/workflow.py], [orchestrai/tool_runner.py],
    [orchestrai/mcp_tools.py], [orchestrai/metrics.py], [orchestrai/schemas.py],
    [orchestrai/cli.py] and [eval/judge.py].

    Conventions of the embedding.
    - Python [str] is [string]; the text functions below are exact on ASCII
      text (code points below 128), which is the range the regular
      expressions of the source are written for.
    - A Python [dict] whose iteration order is observable is an association
      list in insertion order. The order of a [set] is not fixed by the
      language: [list(set(l))] is a field of [Env], known to hold the
      elements of [l] once each.
    - [print] calls write to the terminal only and are left out.
    - Exceptions are values of [exn], all of them subclasses of
      [Exception]; a function that can raise returns a [result].
    - Library calls (the language model, the crews, the tools, pydantic's
      JSON decoding, [json.dumps], [repr], the clock) are the fields of the
      class [Env]; the definitions hold for every instance of it.
    - [print_summary] is [get_stats] followed by prints. Of the command
      shell in [orchestrai/cli.py] the loop of [main] is embedded, on the
      lines that [input] gives it. The loading of the tool servers, the
      construction of the agents and the weather server are not part of
      the embedding. *)

From Stdlib Require Import String Ascii List ZArith Lia Bool PeanoNat Sorted Permutation.
From Stdlib Require Import Floats DecimalString QArith.
Import ListNotations.
Local Open Scope string_scope.
Local Open Scope list_scope.
Local Open Scope nat_scope.
Local Set Warnings "-abstract-large-number".

(* ------------------------------------------------------------------ *)
(** ** Python text primitives *)

Module PyStr.

Definition code (c : ascii) : nat := nat_of_ascii c.

(** [str.isspace] on one ASCII character: TAB..CR, FS..US and SPACE. *)
Definition isspace (c : ascii) : bool :=
  let n := code c in
  ((9 <=? n) && (n <=? 13)) || ((28 <=? n) && (n <=? 32)).

Definition isupper (c : ascii) : bool :=
  let n := code c in (65 <=? n) && (n <=? 90).

Definition islower (c : ascii) : bool :=
  let n := code c in (97 <=? n) && (n <=? 122).

Definition isdigit (c : ascii) : bool :=
  let n := code c in (48 <=? n) && (n <=? 57).

Definition lower_char (c : ascii) : ascii :=
  if isupper c then ascii_of_nat (code c + 32) else c.

Definition upper_char (c : ascii) : ascii :=
  if islower c then ascii_of_nat (code c - 32) else c.

Definition chars (s : string) : list ascii := list_ascii_of_string s.
Definition text (l : list ascii) : string := string_of_list_ascii l.

(** [s.lower()] *)
Definition lower (s : string) : string := text (map lower_char (chars s)).

(** [s.title()]: a cased character is upper-cased after an uncased one and
    lower-cased after a cased one. *)
Fixpoint title_from (previous_is_cased : bool) (l : list ascii) : list ascii :=
  match l with
  | [] => []
  | c :: l' =>
      if islower c then
        (if previous_is_cased then c else upper_char c) :: title_from true l'
      else if isupper c then
        (if previous_is_cased then lower_char c else c) :: title_from true l'
      else c :: title_from false l'
  end.

Definition title (s : string) : string := text (title_from false (chars s)).

Fixpoint lstrip_chars (l : list ascii) : list ascii :=
  match l with
  | c :: l' => if isspace c then lstrip_chars l' else l
  | [] => []
  end.

Definition rstrip_chars (l : list ascii) : list ascii :=
  rev (lstrip_chars (rev l)).

(** [s.strip()] *)
Definition strip (s : string) : string :=
  text (rstrip_chars (lstrip_chars (chars s))).

(** [s.split()]: the maximal runs of non-space characters. *)
Fixpoint split_from (cur : list ascii) (l : list ascii) : list string :=
  match l with
  | [] => match cur with [] => [] | _ => [text (rev cur)] end
  | c :: l' =>
      if isspace c then
        match cur with
        | [] => split_from [] l'
        | _ => text (rev cur) :: split_from [] l'
        end
      else split_from (c :: cur) l'
  end.

Definition split (s : string) : list string := split_from [] (chars s).

(** [s.split(sep)] for a one-character separator: empty pieces are kept. *)
Fixpoint split_on_from (sep : ascii) (cur : list ascii) (l : list ascii) : list string :=
  match l with
  | [] => [text (rev cur)]
  | c :: l' =>
      if Ascii.eqb c sep then text (rev cur) :: split_on_from sep [] l'
      else split_on_from sep (c :: cur) l'
  end.

Definition split_on (sep : ascii) (s : string) : list string :=
  split_on_from sep [] (chars s).

Fixpoint prefix_chars (p l : list ascii) : bool :=
  match p, l with
  | [], _ => true
  | a :: p', b :: l' => Ascii.eqb a b && prefix_chars p' l'
  | _ :: _, [] => false
  end.

(** [s.startswith(p)] *)
Definition startswith (s p : string) : bool := prefix_chars (chars p) (chars s).

Fixpoint infix_chars (p l : list ascii) : bool :=
  prefix_chars p l ||
  match l with
  | [] => false
  | _ :: l' => infix_chars p l'
  end.

(** [p in s] *)
Definition contains (p s : string) : bool := infix_chars (chars p) (chars s).

(** [len(s)] *)
Definition len (s : string) : nat := String.length s.

(** [s[:n]] for [n >= 0] *)
Definition take (n : nat) (s : string) : string := text (firstn n (chars s)).

(** [s[n:]] for [n >= 0] *)
Definition drop (n : nat) (s : string) : string := text (skipn n (chars s)).

(** [s.strip(c)] for a one-character set *)
Fixpoint lstrip_char (c : ascii) (l : list ascii) : list ascii :=
  match l with
  | x :: l' => if Ascii.eqb x c then lstrip_char c l' else l
  | [] => []
  end.

Definition strip_char (c : ascii) (s : string) : string :=
  text (rev (lstrip_char c (rev (lstrip_char c (chars s))))).

(** [sep.join(l)] *)
Fixpoint join (sep : string) (l : list string) : string :=
  match l with
  | [] => ""
  | [x] => x
  | x :: l' => x ++ sep ++ join sep l'
  end.

(** [s.isdigit()] *)
Definition isdigit_str (s : string) : bool :=
  match chars s with
  | [] => false
  | l => forallb isdigit l
  end.

End PyStr.

(* ------------------------------------------------------------------ *)
(** ** The fragment of Python's [re] the source uses

    A backtracking matcher with [re]'s priorities: alternatives left to
    right, greedy repetition longest first, lazy repetition shortest first.
    [re.search] returns the match at the leftmost start. *)

Module Re.

Inductive regex : Type :=
| Eps                                   (* the empty pattern *)
| Cls (p : ascii -> bool)               (* one character of a class *)
| Seq (r1 r2 : regex)
| Alt (r1 r2 : regex)                   (* r1|r2 *)
| Star (greedy : bool) (r : regex)      (* r* and r*? *)
| Grp (i : nat) (r : regex)             (* capturing group number i *)
| Bol                                   (* ^ *)
| Eol                                   (* $ *)
| WordB.                                (* \b *)

Definition Chr (c : ascii) : regex := Cls (Ascii.eqb c).
(** a letter under [re.IGNORECASE] *)
Definition ChrI (c : ascii) : regex :=
  Cls (fun x => Ascii.eqb (PyStr.lower_char x) (PyStr.lower_char c)).
Definition Plus (greedy : bool) (r : regex) : regex := Seq r (Star greedy r).
Definition Opt (greedy : bool) (r : regex) : regex :=
  if greedy then Alt r Eps else Alt Eps r.
Definition seqs (l : list regex) : regex := fold_right Seq Eps l.
Fixpoint alts (l : list regex) : regex :=
  match l with
  | [] => Cls (fun _ => false)
  | [r] => r
  | r :: l' => Alt r (alts l')
  end.
Definition Lit (s : string) : regex := seqs (map Chr (PyStr.chars s)).
Definition LitI (s : string) : regex := seqs (map ChrI (PyStr.chars s)).

(** character classes *)
Definition space : ascii -> bool := PyStr.isspace.               (* \s *)
Definition word (c : ascii) : bool :=                            (* \w *)
  PyStr.islower c || PyStr.isupper c || PyStr.isdigit c || Ascii.eqb c "_".
Definition a_z : ascii -> bool := PyStr.islower.                 (* [a-z] *)
Definition negate (p : ascii -> bool) (c : ascii) : bool := negb (p c).

(** A position in the subject: the character before it, the text after it,
    and its index. *)
Record cursor : Type := { before : option ascii; rest : list ascii; pos : nat }.

Definition groups : Type := list (nat * list ascii).

Definition advance (c : cursor) : option (ascii * cursor) :=
  match rest c with
  | [] => None
  | x :: l => Some (x, {| before := Some x; rest := l; pos := S (pos c) |})
  end.

Definition is_word_opt (o : option ascii) : bool :=
  match o with Some c => word c | None => false end.

Definition at_boundary (c : cursor) : bool :=
  xorb (is_word_opt (before c)) (is_word_opt (hd_error (rest c))).

(** [$] without [re.MULTILINE]: the end, or just before a final newline. *)
Definition at_end (c : cursor) : bool :=
  match rest c with
  | [] => true
  | [x] => Ascii.eqb x "010"
  | _ => false
  end.

Section Run.
Context {R : Type}.

(** [r*] and [r*?], [body] matching [r]: at most [n] more rounds, each of
    which must move forward (a round that matched the empty text ends the
    repetition). *)
Fixpoint star_loop (body : cursor -> groups -> (cursor -> groups -> option R) -> option R)
    (greedy : bool) (k : cursor -> groups -> option R)
    (n : nat) (c : cursor) (g : groups) {struct n} : option R :=
  match n with
  | O => k c g
  | S n' =>
      let again :=
        body c g (fun c' g' =>
          if pos c <? pos c' then star_loop body greedy k n' c' g' else None) in
      if greedy then
        match again with
        | Some x => Some x
        | None => k c g
        end
      else
        match k c g with
        | Some x => Some x
        | None => again
        end
  end.

(** [run r c g k]: match [r] at [c] with the groups [g] set so far, then
    continue with [k]; [None] makes the matcher backtrack. *)
Fixpoint run (r : regex) (c : cursor) (g : groups)
    (k : cursor -> groups -> option R) {struct r} : option R :=
  match r with
  | Eps => k c g
  | Cls p =>
      match advance c with
      | Some (x, c') => if p x then k c' g else None
      | None => None
      end
  | Seq r1 r2 => run r1 c g (fun c' g' => run r2 c' g' k)
  | Alt r1 r2 =>
      match run r1 c g k with
      | Some x => Some x
      | None => run r2 c g k
      end
  | Star greedy r' =>
      star_loop (run r') greedy k (S (List.length (rest c))) c g
  | Grp i r' =>
      run r' c g (fun c' g' =>
        k c' ((i, firstn (pos c' - pos c) (rest c)) :: g'))
  | Bol => if pos c =? 0 then k c g else None
  | Eol => if at_end c then k c g else None
  | WordB => if at_boundary c then k c g else None
  end.

End Run.

(** A match object: [m.start()], [m.end()] and the groups. *)
Record match_obj : Type := { m_start : nat; m_end : nat; m_groups : groups }.

Fixpoint lookup_group (i : nat) (g : groups) : option (list ascii) :=
  match g with
  | [] => None
  | (j, t) :: g' => if i =? j then Some t else lookup_group i g'
  end.

(** [m.group(i)] ([None] when the group took no part in the match) *)
Definition group (i : nat) (m : match_obj) : option string :=
  option_map PyStr.text (lookup_group i (m_groups m)).

Definition match_at (r : regex) (c : cursor) : option match_obj :=
  run r c [] (fun c' g => Some {| m_start := pos c; m_end := pos c'; m_groups := g |}).

Fixpoint search_from (r : regex) (prev : option ascii) (l : list ascii) (p : nat)
    : option match_obj :=
  match match_at r {| before := prev; rest := l; pos := p |} with
  | Some m => Some m
  | None =>
      match l with
      | [] => None
      | x :: l' => search_from r (Some x) l' (S p)
      end
  end.

(** [re.search(r, s)] *)
Definition search (r : regex) (s : string) : option match_obj :=
  search_from r None (PyStr.chars s) 0.

(** [re.sub(r, '', s)]: every non-overlapping match, leftmost first, is
    deleted. With the empty replacement an empty match deletes nothing, so
    at each position the first non-empty match in priority order counts. *)
Fixpoint delete_from (fuel : nat) (r : regex) (prev : option ascii)
    (l : list ascii) (p : nat) : list ascii :=
  match fuel with
  | O => l
  | S fuel' =>
      let c := {| before := prev; rest := l; pos := p |} in
      match run r c [] (fun c' _ => if pos c <? pos c' then Some c' else None) with
      | Some c' => delete_from fuel' r (before c') (rest c') (pos c')
      | None =>
          match l with
          | [] => []
          | x :: l' => x :: delete_from fuel' r (Some x) l' (S p)
          end
      end
  end.

Definition sub_empty (r : regex) (s : string) : string :=
  let l := PyStr.chars s in
  PyStr.text (delete_from (S (List.length l)) r None l 0).

End Re.

(* ------------------------------------------------------------------ *)
(** ** [orchestrai/workflow.py]: parameter extraction *)

Import Re.

(** [\b(?:in|for)\s+([a-z]+(?:\s+[a-z]+)*?)(?:\s+weather|$|\?|,)] *)
Definition city_after_in_for : regex :=
  seqs [ WordB; Alt (Lit "in") (Lit "for"); Plus true (Cls space);
         Grp 1 (Seq (Plus true (Cls a_z))
                    (Star false (Seq (Plus true (Cls space)) (Plus true (Cls a_z)))));
         alts [ Seq (Plus true (Cls space)) (Lit "weather"); Eol; Chr "?"; Chr "," ] ].

(** [\b([a-z]+(?:\s+[a-z]+)?)\s+weather] *)
Definition city_before_weather : regex :=
  seqs [ WordB;
         Grp 1 (Seq (Plus true (Cls a_z))
                    (Opt true (Seq (Plus true (Cls space)) (Plus true (Cls a_z)))));
         Plus true (Cls space); Lit "weather" ].

(** [m.group(1).strip().title()] of a search *)
Definition titled_group (r : regex) (subject : string) : option string :=
  match search r subject with
  | Some m =>
      match group 1 m with
      | Some t => Some (PyStr.title (PyStr.strip t))
      | None => None
      end
  | None => None
  end.

Definition first_char_isupper (w : string) : bool :=
  match w with
  | String c _ => PyStr.isupper c
  | EmptyString => false
  end.

(** Pattern 3: the loop over [enumerate(words)]. *)
Fixpoint capitalized_word (words : list string) : option string :=
  match words with
  | [] => None
  | w :: rest =>
      if first_char_isupper w && (2 <? PyStr.len w) then
        match rest with
        | next :: _ =>
            if first_char_isupper next then Some (w ++ " " ++ next)%string else Some w
        | [] => Some w
        end
      else capitalized_word rest
  end.

Definition city_map : list (string * string) :=
  [ ("nyc", "New York"); ("sf", "San Francisco"); ("la", "Los Angeles") ].

Fixpoint abbreviation (table : list (string * string)) (text_lower : string) : option string :=
  match table with
  | [] => None
  | (abbr, full_name) :: table' =>
      if PyStr.contains abbr text_lower then Some full_name
      else abbreviation table' text_lower
  end.

Definition default_city : string := "New York".

Definition extract_city (text : string) : string :=
  let text_lower := PyStr.lower text in
  match titled_group city_after_in_for text_lower with
  | Some city => city
  | None =>
      match titled_group city_before_weather text_lower with
      | Some city => city
      | None =>
          match capitalized_word (PyStr.split text) with
          | Some city => city
          | None =>
              match abbreviation city_map text_lower with
              | Some city => city
              | None => default_city
              end
          end
      end
  end.


(* ------------------------------------------------------------------ *)
(** ** Exceptions and results *)

(** The exceptions of the pipeline, all subclasses of [Exception]. *)
Inductive exn : Type :=
| KeyError (arg : string)
| TypeError (msg : string)
| ValueError (msg : string)
| OverflowError (msg : string)
| RuntimeError (msg : string)
| ValidationError (model input : string)   (* pydantic: [input] does not validate as [model] *)
| Exception (msg : string).                (* any other exception, with its text *)

Inductive result (A : Type) : Type :=
| Ok (a : A)
| Raise (e : exn).
Arguments Ok {A} a.
Arguments Raise {A} e.

(** [f] on what [r] returned; an exception of [r] goes on. *)
Definition and_then {A B : Type} (r : result A) (f : A -> result B) : result B :=
  match r with
  | Ok a => f a
  | Raise e => Raise e
  end.

(* ------------------------------------------------------------------ *)
(** ** Python numbers: [int], [float] and [statistics.mean]

    [float] is IEEE binary64, here the Standard Library's [spec_float] at
    precision 53. [int / int] and [float(int)] are correctly rounded, and
    raise [OverflowError] when the rounded value is beyond the largest
    [float]. *)

Module PyNum.

Definition float : Type := spec_float.

Definition float_of_int (z : Z) : float := binary_normalize prec emax z 0 false.

Definition exact (z : Z) : float :=
  match z with
  | Z0 => S754_zero false
  | Zpos p => S754_finite false p 0
  | Zneg p => S754_finite true p 0
  end.

(** The quotient of two [int]s, [b] not 0, rounded once; an infinity when
    it is beyond the largest [float]. *)
Definition truediv (a b : Z) : float := SFdiv prec emax (exact a) (exact b).

Definition is_finite (f : float) : bool :=
  match f with
  | S754_zero _ | S754_finite _ _ _ => true
  | _ => false
  end.

(** [a / b] on two [int]s, [b] not 0 *)
Definition int_truediv (a b : Z) : result float :=
  let q := truediv a b in
  if is_finite q then Ok q
  else Raise (OverflowError "integer division result too large for a float").

(** [float(z)], as the arithmetic of an [int] with a [float] converts *)
Definition to_float (z : Z) : result float :=
  let f := float_of_int z in
  if is_finite f then Ok f
  else Raise (OverflowError "int too large to convert to float").

Definition fsub (x y : float) : float := SFsub prec emax x y.

(** the literal [0.5] *)
Definition half : float := binary_normalize prec emax 1 (-1) false.

Inductive num : Type :=
| Int (z : Z)
| Float (f : float).

(** [x - y]: an [int] is converted for a [float] on the other side. *)
Definition sub (x y : num) : result num :=
  match x, y with
  | Int a, Int b => Ok (Int (a - b))
  | Int a, Float g => and_then (to_float a) (fun f => Ok (Float (fsub f g)))
  | Float f, Int b => and_then (to_float b) (fun g => Ok (Float (fsub f g)))
  | Float f, Float g => Ok (Float (fsub f g))
  end.

(** [x > 0.5]; an [int] is compared with a [float] by value. *)
Definition gt_half (x : num) : bool :=
  match x with
  | Int a => (1 <=? a)%Z
  | Float f => SFltb half f
  end.

(** [x < -0.5] *)
Definition lt_minus_half (x : num) : bool :=
  match x with
  | Int a => (a <=? -1)%Z
  | Float f => SFltb f (SFopp half)
  end.

Definition sum (data : list Z) : Z := fold_right Z.add 0%Z data.

(** [StatisticsError], a subclass of [ValueError], as [mean] raises it *)
Definition StatisticsError : exn := ValueError "mean requires at least one data point".

(** [statistics.mean(data)] on [int]s: the exact mean as a fraction, given
    back as an [int] when it is one and otherwise as the [float] of the
    fraction, which is its numerator divided by its denominator. *)
Definition mean (data : list Z) : result num :=
  match data with
  | [] => Raise StatisticsError
  | _ =>
      let total := sum data in
      let n := Z.of_nat (List.length data) in
      let g := Z.gcd total n in
      let numerator := (total / g)%Z in
      let denominator := (n / g)%Z in
      if (denominator =? 1)%Z then Ok (Int numerator)
      else and_then (int_truediv numerator denominator) (fun f => Ok (Float f))
  end.

(** [x * y] on two [float]s *)
Definition fmul (x y : float) : float := SFmul prec emax x y.

(** [f.as_integer_ratio()] of a finite [float], as
    [mantissa * 2 ** exponent] *)
Definition mantissa (f : float) : Z :=
  match f with
  | S754_finite false m _ => Zpos m
  | S754_finite true m _ => Zneg m
  | _ => 0%Z
  end.

Definition exponent (f : float) : Z :=
  match f with
  | S754_finite _ _ e => e
  | _ => 0%Z
  end.

(** [statistics.mean(data)] on [float]s: the exact sum of the data as a
    fraction, divided by their number; the [float] of that fraction is its
    numerator divided by its denominator. When a data point is an infinity
    or a NaN the result is the [float] sum of those points divided by the
    number of data. *)
Definition mean_float (data : list float) : result float :=
  match data with
  | [] => Raise StatisticsError
  | _ =>
      let n := Z.of_nat (List.length data) in
      match filter (fun f => negb (is_finite f)) data with
      | [] =>
          let low := fold_right Z.min 0%Z (map exponent data) in
          let total :=
            fold_right Z.add 0%Z
              (map (fun f => (mantissa f * 2 ^ (exponent f - low))%Z) data) in
          int_truediv total (n * 2 ^ (- low))
      | special =>
          Ok (SFdiv prec emax
                (fold_left (SFadd prec emax) special (S754_zero false))
                (float_of_int n))
      end
  end.

(** [sum(flags) / len(flags) * 100] for a list of [bool] *)
Definition success_rate (flags : list bool) : float :=
  fmul (truediv (Z.of_nat (List.length (filter (fun b => b) flags)))
                (Z.of_nat (List.length flags)))
       (float_of_int 100).

End PyNum.

(** [l[start:stop]] with Python's reading of negative and out-of-range
    bounds; [None] is an omitted bound. *)
Definition slice_index (n : Z) (i : Z) : Z :=
  let j := if (i <? 0)%Z then (i + n)%Z else i in
  Z.max 0 (Z.min n j).

Definition py_slice {A : Type} (l : list A) (start stop : option Z) : list A :=
  let n := Z.of_nat (List.length l) in
  let a := match start with Some i => slice_index n i | None => 0%Z end in
  let b := match stop with Some i => slice_index n i | None => n end in
  firstn (Z.to_nat (b - a)) (skipn (Z.to_nat a) l).

(* ------------------------------------------------------------------ *)
(** ** Python values shared by the modules *)

(** A [dict] with [str] keys, in insertion order. *)
Section Dict.
Context {V : Type}.

Fixpoint dict_get (k : string) (d : list (string * V)) : option V :=
  match d with
  | [] => None
  | (k', v) :: d' => if String.eqb k k' then Some v else dict_get k d'
  end.

(** [k in d] *)
Definition dict_has (k : string) (d : list (string * V)) : bool :=
  match dict_get k d with Some _ => true | None => false end.

(** [d[k] = v]: a present key keeps its place, a new key goes last. *)
Fixpoint dict_set (k : string) (v : V) (d : list (string * V)) : list (string * V) :=
  match d with
  | [] => [(k, v)]
  | (k', v') :: d' =>
      if String.eqb k k' then (k', v) :: d' else (k', v') :: dict_set k v d'
  end.

Definition dict_keys (d : list (string * V)) : list string := map fst d.

End Dict.

(** JSON-like values passed to a tool. *)
#[warnings="-register-all"]
Inductive value : Type :=
| VStr (s : string)
| VInt (z : Z)
| VDict (d : list (string * value)).

Definition args : Type := list (string * value).

Definition nl : string := String "010" "".
Definition dquote : string := String "034" "".
Definition cat (l : list string) : string := String.concat "" l.

(** [str(z)] for an [int] *)
Definition str_int (z : Z) : string := DecimalString.NilZero.string_of_int (Z.to_int z).

(** [sorted(l)] on [str]s: a stable insertion sort by code points. *)
Fixpoint insert_sorted (x : string) (l : list string) : list string :=
  match l with
  | [] => [x]
  | y :: l' => if String.ltb x y then x :: l else y :: insert_sorted x l'
  end.

Definition sorted (l : list string) : list string :=
  fold_left (fun acc x => insert_sorted x acc) l [].

(** [x in l] *)
Definition mem (x : string) (l : list string) : bool := existsb (String.eqb x) l.

(** The elements of [l], each once, in the order of first occurrence: the
    keys of a [dict] filled from [l]. *)
Fixpoint dedup (l : list string) : list string :=
  match l with
  | [] => []
  | x :: l' => x :: filter (fun y => negb (String.eqb x y)) (dedup l')
  end.

(** The value of a text of decimal digits. *)
Definition int_of_digits (s : string) : Z :=
  fold_left (fun n c => (10 * n + Z.of_nat (PyStr.code c - 48))%Z) (PyStr.chars s) 0%Z.

(** [int(s)] on a text of decimal digits: CPython refuses a text of more
    than 4300 digits ([sys.get_int_max_str_digits()]). *)
Definition int_of_str (s : string) : result Z :=
  if 4300 <? PyStr.len s then
    Raise (ValueError
             (cat ["Exceeds the limit (4300 digits) for integer string conversion: value has ";
                   str_int (Z.of_nat (PyStr.len s));
                   " digits; use sys.set_int_max_str_digits() to increase the limit"]))
  else Ok (int_of_digits s).

(* ------------------------------------------------------------------ *)
(** ** [orchestrai/schemas.py] *)

Module schemas.

Record PlanStep : Type := {
  step_id : Z;
  action : string;
  tools : list string;
  success_criteria : string
}.

Record TaskPlan : Type := {
  goal : string;
  assumptions : list string;
  steps : list PlanStep;          (* [min_length=1] is checked by validation *)
  risks : list string
}.

End schemas.

(* ------------------------------------------------------------------ *)
(** ** [eval/judge.py]: the score schema *)

Module judge.

Record JudgeScore : Type := {
  success : Z;
  plan_quality : Z;
  reasoning_quality : Z;
  notes : string
}.

(** [Field(..., ge=0, le=5)] *)
Definition ge_le (lo hi v : Z) : bool := ((lo <=? v) && (v <=? hi))%Z.

Definition constraints (j : JudgeScore) : bool :=
  ge_le 0 5 (success j) && ge_le 0 5 (plan_quality j) && ge_le 0 5 (reasoning_quality j).

End judge.

(* ------------------------------------------------------------------ *)
(** ** [orchestrai/metrics.py]: entries, goal types and the trend *)

Module metrics.

Record MetricEntry : Type := {
  timestamp : string;
  goal : string;
  goal_type : string;
  success_score : Z;
  plan_score : Z;
  reasoning_score : Z;
  execution_time_seconds : PyNum.float;
  completed : bool;
  errors : list string;
  tools_used : list string
}.

Definition any_in (words : list string) (s : string) : bool :=
  existsb (fun w => PyStr.contains w s) words.

Definition infer_goal_type (goal : string) : string :=
  let goal_lower := PyStr.lower goal in
  if any_in ["weather"; "temperature"; "forecast"] goal_lower then "weather"
  else if any_in ["search"; "find"; "look"] goal_lower then "search"
  else if any_in ["issue"; "repo"; "github"; "pull"] goal_lower then "github"
  else "other".

(** [MetricsTracker._calculate_trend(entries, window)] *)
Definition _calculate_trend (entries : list MetricEntry) (window : Z) : result string :=
  if (Z.of_nat (List.length entries) <? window * 2)%Z then Ok "insufficient_data"
  else
    let recent := py_slice entries (Some (- window)%Z) None in
    let previous := py_slice entries (Some (- (window * 2))%Z) (Some (- window)%Z) in
    and_then (PyNum.mean (map success_score recent)) (fun recent_avg =>
    and_then (PyNum.mean (map success_score previous)) (fun previous_avg =>
    and_then (PyNum.sub recent_avg previous_avg) (fun diff =>
    if PyNum.gt_half diff then Ok "improving"
    else if PyNum.lt_minus_half diff then Ok "declining"
    else Ok "stable"))).

(** [MetricsTracker._goal_type_breakdown(entries)] *)
Definition _goal_type_breakdown (entries : list MetricEntry) : list (string * Z) :=
  fold_left
    (fun breakdown e =>
       dict_set (goal_type e)
         (match dict_get (goal_type e) breakdown with Some n => n | None => 0 end + 1)%Z
         breakdown)
    entries [].

(** The dict of statistics that [get_stats] returns. *)
Record Stats : Type := {
  total_runs : Z;
  success_rate : PyNum.float;
  avg_success_score : PyNum.num;
  avg_plan_score : PyNum.num;
  avg_reasoning_score : PyNum.num;
  avg_execution_time : PyNum.float;
  goal_type_breakdown : list (string * Z);
  recent_trend : string
}.

(** What [get_stats] returns: the dict with the one key \x22error\x22, or the
    statistics. *)
Inductive stats : Type :=
| stats_error (error : string)
| stats_summary (s : Stats).

(** [entries[-last_n:]] under [if last_n:] *)
Definition last_entries (entries : list MetricEntry) (last_n : option Z)
    : list MetricEntry :=
  match last_n with
  | Some n => if (n =? 0)%Z then entries else py_slice entries (Some (- n)%Z) None
  | None => entries
  end.

(** [MetricsTracker.get_stats(last_n)] from the point where [load_all] has
    given [entries] *)
Definition get_stats_from (entries : list MetricEntry) (last_n : option Z) : result stats :=
  let entries := last_entries entries last_n in
  match entries with
  | [] => Ok (stats_error "No metrics available")
  | _ =>
      let success_scores := map success_score entries in
      let plan_scores := map plan_score entries in
      let reasoning_scores := map reasoning_score entries in
      let exec_times := map execution_time_seconds entries in
      and_then (PyNum.mean success_scores) (fun avg_success =>
      and_then (PyNum.mean plan_scores) (fun avg_plan =>
      and_then (PyNum.mean reasoning_scores) (fun avg_reasoning =>
      and_then (PyNum.mean_float exec_times) (fun avg_time =>
      and_then (_calculate_trend entries 5) (fun trend =>
      Ok (stats_summary
            {| total_runs := Z.of_nat (List.length entries);
               success_rate := PyNum.success_rate (map completed entries);
               avg_success_score := avg_success;
               avg_plan_score := avg_plan;
               avg_reasoning_score := avg_reasoning;
               avg_execution_time := avg_time;
               goal_type_breakdown := _goal_type_breakdown entries;
               recent_trend := trend |}))))))
  end.

End metrics.

(** [ExecutionResult] of [orchestrai/schemas.py], with the [outputs] dict
    that [run_orchestration] fills. *)
Module execution.

Record Outputs : Type := {
  plan : schemas.TaskPlan;
  research : string;
  judge_score : judge.JudgeScore;     (* outputs["judge"] *)
  tool_results : list (string * string);
  execution_time : PyNum.float
}.

Record ExecutionResult : Type := {
  goal : string;
  completed : bool;
  outputs : Outputs;
  errors : list string;
  final_answer : string
}.

End execution.

(* ------------------------------------------------------------------ *)
(** ** What the pipeline calls and does not define

    [World] is everything outside the process: the tool servers, the
    language model, the clock. A library call that talks to it takes the
    world and gives the next one back. *)

Class Env : Type := {
  World : Type;
  (** [repr(s)] of a [str] *)
  py_repr : string -> string;
  (** [list(set(l))] on [str]s: the elements of [l], each once, in the
      order of the set's hash table, which differs from process to process *)
  list_set : list string -> list string;
  list_set_elements : forall l, Permutation (list_set l) (dedup l);
  (** [str(e)] of pydantic's [ValidationError] for a model and an input *)
  ValidationError_str : string -> string -> string;
  (** [llm.invoke(prompt).content] of the judge's model *)
  llm_invoke : string -> World -> result string * World;
  (** [str(JudgeScore.model_json_schema())] *)
  JudgeScore_schema : string;
  (** pydantic's reading of a JSON text as the four fields of [JudgeScore]
      ([int], [int], [int], [str]), before the [ge] and [le] constraints;
      [None] when the text is no JSON object with such fields *)
  JudgeScore_fields : string -> option judge.JudgeScore;
  (** [str(plan)] of the plan's [model_dump()] *)
  TaskPlan_dump_str : schemas.TaskPlan -> string;
  (** [json.dumps(asdict(entry))] *)
  json_dumps : metrics.MetricEntry -> string;
  (** [MetricEntry] built from the keys of [json.loads(line)] *)
  json_loads : string -> result metrics.MetricEntry;
  (** [str(crew.kickoff())] of the planner crew and of the executor crew,
      for the description of their task *)
  planner_kickoff : string -> World -> result string * World;
  executor_kickoff : string -> World -> result string * World;
  (** [time.time()] and [datetime.now().isoformat()] *)
  time_time : World -> PyNum.float * World;
  now_isoformat : World -> string * World;
  (** [str(TaskPlan.model_json_schema())] and [plan.model_dump_json(indent=2)] *)
  TaskPlan_schema : string;
  TaskPlan_dump_json : schemas.TaskPlan -> string;
  (** pydantic's reading of a JSON text as the fields of [TaskPlan], before
      the [min_length] constraint *)
  TaskPlan_fields : string -> option schemas.TaskPlan
}.

(* ------------------------------------------------------------------ *)
(** ** The pipeline *)

Section Pipeline.

Context {E : Env}.

(** [repr(l)] of a list of [str] *)
Definition repr_list (l : list string) : string :=
  cat ["["; PyStr.join ", " (map py_repr l); "]"].

(** [str(e)] *)
Definition str_exn (e : exn) : string :=
  match e with
  | KeyError arg => py_repr arg
  | TypeError msg | ValueError msg | OverflowError msg | RuntimeError msg
  | Exception msg => msg
  | ValidationError model input => ValidationError_str model input
  end.

(** *** The state of one process and its monad *)

(** One [runner.call]: the tool, the arguments and what came back. *)
Record Call : Type := {
  call_tool : string;
  call_args : args;
  call_result : result string
}.

Record State : Type := {
  world : World;
  calls : list Call;                (* every [runner.call], oldest first *)
  prompts : list string;            (* every prompt sent by the judge, oldest first *)
  storage : option string           (* data/metrics.jsonl; [None]: no such file *)
}.

Definition with_world (st : State) (w : World) : State :=
  {| world := w; calls := calls st; prompts := prompts st; storage := storage st |}.

Definition M (A : Type) : Type := State -> result A * State.

Definition ret {A : Type} (a : A) : M A := fun st => (Ok a, st).
Definition raise {A : Type} (e : exn) : M A := fun st => (Raise e, st).
Definition bind {A B : Type} (c : M A) (f : A -> M B) : M B :=
  fun st =>
    match c st with
    | (Ok a, st') => f a st'
    | (Raise e, st') => (Raise e, st')
    end.
(** [try: c  except Exception as e: handler(e)] *)
Definition try_except {A : Type} (c : M A) (handler : exn -> M A) : M A :=
  fun st =>
    match c st with
    | (Ok a, st') => (Ok a, st')
    | (Raise e, st') => handler e st'
    end.
Definition of_result {A : Type} (r : result A) : M A := fun st => (r, st).
(** a call into the world *)
Definition external {A : Type} (f : World -> result A * World) : M A :=
  fun st =>
    let (r, w) := f (world st) in (r, with_world st w).

Notation "x <- c1 ;; c2" := (bind c1 (fun x => c2))
  (at level 61, c1 at next level, right associativity).

(** *** [orchestrai/tool_runner.py] and [get_tool_names] *)

(** A LangChain tool: its name, and what [ainvoke] and [invoke] do when it
    has them. A result is taken as its [str(...)]. *)
Record Tool : Type := {
  name : string;
  ainvoke : option (args -> World -> result string * World);
  invoke : option (args -> World -> result string * World)
}.

Record ToolRunner : Type := {
  runner_tools : list Tool;
  by_name : list (string * Tool)
}.

(** [ToolRunner.__init__] *)
Definition ToolRunner_init (tools : list Tool) : ToolRunner :=
  {| runner_tools := tools;
     by_name :=
       fold_left
         (fun d t => if String.eqb (name t) "" then d else dict_set (name t) t d)
         tools [] |}.

Definition list_tools (runner : ToolRunner) : list string :=
  sorted (dict_keys (by_name runner)).

(** [ToolRunner.call], before it is logged *)
Definition call_body (runner : ToolRunner) (tool_name : string) (a : args) : M string :=
  match dict_get tool_name (by_name runner) with
  | None =>
      raise (KeyError (cat ["Tool '"; tool_name; "' not found. Available: ";
                            repr_list (list_tools runner)]))
  | Some tool =>
      let a' :=
        match dict_get "city" a with
        | Some city =>
            if String.eqb tool_name "get_weather" then
              [("location", VDict [("city", city); ("state", VStr ""); ("country", VStr "US")])]
            else a
        | None => a
        end in
      match ainvoke tool with
      | Some f => external (f a')
      | None =>
          match invoke tool with
          | Some f => external (f a')
          | None => raise (TypeError (cat ["Tool '"; tool_name; "' is not invokable"]))
          end
      end
  end.

Definition log_call (entry : Call) (st : State) : State :=
  {| world := world st; calls := calls st ++ [entry];
     prompts := prompts st; storage := storage st |}.

(** [await runner.call(tool_name, args)], entered in the log of calls with
    what it gave. *)
Definition call (runner : ToolRunner) (tool_name : string) (a : args) : M string :=
  fun st =>
    let (r, st') := call_body runner tool_name a st in
    (r, log_call {| call_tool := tool_name; call_args := a; call_result := r |} st').

(** [get_tool_names(tools)]: [sorted({tool.name for tool in tools})] *)
Definition get_tool_names (tools : list Tool) : list string :=
  sorted (dedup (map name tools)).

(** [filter_tools(tools, allow)] of [orchestrai/mcp_tools.py]: the tools
    whose name contains one of the texts of [allow] *)
Definition filter_tools (tools : list Tool) (allow : list string) : list Tool :=
  filter (fun t => existsb (fun a => PyStr.contains a (name t)) allow) tools.

(** *** [execute_plan_tools]: the arguments of each tool *)

Definition repo_char (c : ascii) : bool :=        (* [a-zA-Z0-9_-] *)
  PyStr.islower c || PyStr.isupper c || PyStr.isdigit c
  || Ascii.eqb c "_" || Ascii.eqb c "-".
Definition quote (c : ascii) : bool :=            (* [\x22\'], \x22 being the double quote *)
  Ascii.eqb c "034" || Ascii.eqb c "'".
Definition owner_repo : regex :=                  (* [a-zA-Z0-9_-]+/[a-zA-Z0-9_-]+ *)
  seqs [ Plus true (Cls repo_char); Chr "/"; Plus true (Cls repo_char) ].
Definition spaces : regex := Plus true (Cls space).   (* \s+ *)

(** [(?:in|for)\s+(?:repo\s+)?([a-zA-Z0-9_-]+/[a-zA-Z0-9_-]+)] *)
Definition repo_in_for : regex :=
  seqs [ Alt (Lit "in") (Lit "for"); spaces; Opt true (Seq (Lit "repo") spaces);
         Grp 1 owner_repo ].

(** [(?:in|for|from)\s+(?:repo\s+)?([a-zA-Z0-9_-]+/[a-zA-Z0-9_-]+)] *)
Definition repo_in_for_from : regex :=
  seqs [ alts [Lit "in"; Lit "for"; Lit "from"]; spaces;
         Opt true (Seq (Lit "repo") spaces); Grp 1 owner_repo ].

(** [[\x22\']([^\x22\']+)[\x22\']] *)
Definition quoted_text : regex :=
  seqs [ Cls quote; Grp 1 (Plus true (Cls (negate quote))); Cls quote ].

(** [(?:issue|titled|called|named)\s+[\x22\']?([^\x22\']+?)[\x22\']?(?:\s+(?:in|for|repo)|$)]
    with [re.IGNORECASE] *)
Definition title_after_keyword : regex :=
  seqs [ alts [LitI "issue"; LitI "titled"; LitI "called"; LitI "named"]; spaces;
         Opt true (Cls quote); Grp 1 (Plus false (Cls (negate quote)));
         Opt true (Cls quote);
         Alt (Seq spaces (alts [LitI "in"; LitI "for"; LitI "repo"])) Eol ].

(** [create\s+(?:a\s+)?(?:github\s+)?issue\s+(?:about|for|on|titled)?\s*]
    with [re.IGNORECASE] *)
Definition create_issue_phrase : regex :=
  seqs [ LitI "create"; spaces; Opt true (Seq (LitI "a") spaces);
         Opt true (Seq (LitI "github") spaces); LitI "issue"; spaces;
         Opt true (alts [LitI "about"; LitI "for"; LitI "on"; LitI "titled"]);
         Star true (Cls space) ].

(** [\s*(?:and\s+)?(?:in|for)\s+repo\s+[a-zA-Z0-9_-]+/[a-zA-Z0-9_-]+] *)
Definition in_repo_phrase : regex :=
  seqs [ Star true (Cls space); Opt true (Seq (Lit "and") spaces);
         Alt (Lit "in") (Lit "for"); spaces; Lit "repo"; spaces; owner_repo ].

(** [^\s*(?:and|then)\s+] with [re.IGNORECASE] *)
Definition leading_connector : regex :=
  seqs [ Bol; Star true (Cls space); Alt (LitI "and") (LitI "then"); spaces ].

(** [(?:file|path)\s+([^\s]+)] *)
Definition file_path : regex :=
  seqs [ Alt (Lit "file") (Lit "path"); spaces; Grp 1 (Plus true (Cls (negate space))) ].

(** [match.group(1) if match else default] *)
Definition group1_or (r : regex) (subject default : string) : string :=
  match search r subject with
  | Some m => match group 1 m with Some t => t | None => default end
  | None => default
  end.

Definition default_repo : string := "deepmehta27/mcp-navigator-test".

(** [owner, repo = repo_full.split('/')] *)
Definition unpack_owner_repo (repo_full : string) : result (string * string) :=
  match PyStr.split_on "/" repo_full with
  | [owner; repo] => Ok (owner, repo)
  | _ :: _ :: _ :: _ => Raise (ValueError "too many values to unpack (expected 2)")
  | l =>
      Raise (ValueError (cat ["not enough values to unpack (expected 2, got ";
                              str_int (Z.of_nat (List.length l)); ")"]))
  end.

(** Priority 3: the three [re.sub] calls. *)
Definition without_boilerplate (title : string) : string :=
  let title := sub_empty create_issue_phrase title in
  let title := PyStr.strip (sub_empty in_repo_phrase title) in
  PyStr.strip (sub_empty leading_connector title).

(** The title of [create_issue], by priority: quoted text, the text after a
    keyword, the goal without its boilerplate. *)
Definition issue_title (user_goal : string) : string :=
  match search quoted_text user_goal with
  | Some m => match group 1 m with Some t => t | None => user_goal end
  | None =>
      match search title_after_keyword user_goal with
      | Some m =>
          match group 1 m with Some t => PyStr.strip t | None => user_goal end
      | None => without_boilerplate user_goal
      end
  end.

Definition truncation_marker : string := cat [nl; nl; "... (truncated)"].

(** The body of [create_issue], from the results collected so far. *)
Definition issue_section (entry : string * string) : string :=
  let (tool_name_prev, result_data) := entry in
  if String.eqb tool_name_prev "create_issue" then ""
  else
    let result_str :=
      if 2000 <? PyStr.len result_data
      then (PyStr.take 2000 result_data ++ truncation_marker)%string
      else result_data in
    cat ["### Results from `"; tool_name_prev; "`"; nl; nl;
         "```"; nl; result_str; nl; "```"; nl; nl].

Definition issue_body (user_goal : string) (results : list (string * string)) : string :=
  match results with
  | [] => cat ["**Issue created via MCP Navigator**"; nl; nl; "**Request:** "; user_goal]
  | _ =>
      cat ["## Automated Issue Summary"; nl; nl;
           "**Generated from:** "; user_goal; nl; nl;
           "---"; nl; nl;
           cat (map issue_section results)]
  end.

Definition generic_github (tool_name : string) : bool :=
  existsb (PyStr.startswith tool_name) ["create_"; "list_"; "get_"; "update_"; "search_"]
  && existsb (fun x => PyStr.contains x tool_name) ["issue"; "repo"; "pull"; "branch"].

(** The branch of [tool_name]: the arguments its [runner.call] receives, or
    the exception raised before the call. *)
Definition tool_args (tool_name user_goal : string) (results : list (string * string))
    : result args :=
  if String.eqb tool_name "tavily_search" then
    Ok [("query", VStr user_goal); ("max_results", VInt 10)]
  else if String.eqb tool_name "get_weather" then
    Ok [("city", VStr (extract_city user_goal))]
  else if String.eqb tool_name "create_issue" then
    match unpack_owner_repo (group1_or repo_in_for user_goal default_repo) with
    | Raise e => Raise e
    | Ok (owner, repo) =>
        let title := issue_title user_goal in
        let body := issue_body user_goal results in
        Ok [("owner", VStr owner); ("repo", VStr repo);
            ("title", VStr (if String.eqb title "" then user_goal else title));
            ("body", VStr body)]
    end
  else if String.eqb tool_name "list_issues" then
    match unpack_owner_repo (group1_or repo_in_for_from user_goal default_repo) with
    | Raise e => Raise e
    | Ok (owner, repo) =>
        Ok [("owner", VStr owner); ("repo", VStr repo);
            ("perPage", VInt 100); ("state", VStr "all")]
    end
  else if String.eqb tool_name "get_file_contents" then
    match unpack_owner_repo (group1_or repo_in_for_from user_goal default_repo) with
    | Raise e => Raise e
    | Ok (owner, repo) =>
        Ok [("owner", VStr owner); ("repo", VStr repo);
            ("path", VStr (group1_or file_path user_goal "README.md"))]
    end
  else if String.eqb tool_name "create_or_update_file" then
    match unpack_owner_repo (group1_or repo_in_for user_goal default_repo) with
    | Raise e => Raise e
    | Ok (owner, repo) =>
        Ok [("owner", VStr owner); ("repo", VStr repo);
            ("path", VStr (group1_or file_path user_goal "test.txt"));
            ("content", VStr (cat ["Updated via MCP Navigator: "; user_goal]));
            ("message", VStr "Update from MCP Navigator")]
    end
  else if generic_github tool_name then
    match search repo_in_for_from user_goal with
    | Some m =>
        match unpack_owner_repo (match group 1 m with Some t => t | None => "" end) with
        | Raise e => Raise e
        | Ok (owner, repo) => Ok [("owner", VStr owner); ("repo", VStr repo)]
        end
    | None => Ok []
    end
  else Ok [].

(** *** [execute_plan_tools] *)

(** [result_str[:2000] if len(result_str) > 2000 else result_str] *)
Definition stored (result_str : string) : string :=
  if 2000 <? PyStr.len result_str then PyStr.take 2000 result_str else result_str.

Definition error_msg (e : exn) : string := cat ["Error: "; str_exn e].

(** The [try] statement for one tool not yet in [results]. *)
Definition execute_tool (runner : ToolRunner) (user_goal : string)
    (results : list (string * string)) (tool_name : string)
    : M (list (string * string)) :=
  try_except
    (a <- of_result (tool_args tool_name user_goal results) ;;
     result_str <- call runner tool_name a ;;
     ret (dict_set tool_name (stored result_str) results))
    (fun e => ret (dict_set tool_name (error_msg e) results)).

(** [for tool_name in step.tools] *)
Fixpoint execute_step_tools (runner : ToolRunner) (user_goal : string)
    (tool_names : list string) (results : list (string * string))
    : M (list (string * string)) :=
  match tool_names with
  | [] => ret results
  | tool_name :: rest =>
      if dict_has tool_name results then
        execute_step_tools runner user_goal rest results
      else
        results' <- execute_tool runner user_goal results tool_name ;;
        execute_step_tools runner user_goal rest results'
  end.

(** [for step in plan.steps] *)
Fixpoint execute_steps (runner : ToolRunner) (user_goal : string)
    (steps : list schemas.PlanStep) (results : list (string * string))
    : M (list (string * string)) :=
  match steps with
  | [] => ret results
  | step :: rest =>
      match schemas.tools step with
      | [] => execute_steps runner user_goal rest results
      | tool_names =>
          results' <- execute_step_tools runner user_goal tool_names results ;;
          execute_steps runner user_goal rest results'
      end
  end.

Definition execute_plan_tools (plan : schemas.TaskPlan) (runner : ToolRunner)
    (user_goal : string) : M (list (string * string)) :=
  execute_steps runner user_goal (schemas.steps plan) [].

(** *** [eval/judge.py]: [judge_run] *)

(** [JudgeScore.model_validate_json(raw)] *)
Definition JudgeScore_model_validate_json (raw : string) : result judge.JudgeScore :=
  match JudgeScore_fields raw with
  | Some j => if judge.constraints j then Ok j else Raise (ValidationError "JudgeScore" raw)
  | None => Raise (ValidationError "JudgeScore" raw)
  end.

Definition invoke_llm (prompt : string) : M string :=
  fun st =>
    external (llm_invoke prompt)
      {| world := world st; calls := calls st;
         prompts := prompts st ++ [prompt]; storage := storage st |}.

Definition judge_prompt (goal : string) (plan : schemas.TaskPlan) (final_answer : string)
    (trace : option string) : string :=
  cat [ "You are a strict evaluator for a multi-agent tool orchestration system."; nl;
        "Score from 0 to 5 (integers) for each category:"; nl;
        "- success: does the final answer satisfy the goal?"; nl;
        "- plan_quality: is the plan step-by-step, realistic, and correctly scoped?"; nl;
        "- tool_use_quality: are the selected tools appropriate and used sensibly?"; nl; nl;
        "Return ONLY valid JSON that matches this schema exactly:"; nl;
        JudgeScore_schema; nl; nl;
        "GOAL:"; nl; goal; nl; nl;
        "PLAN (JSON):"; nl; TaskPlan_dump_str plan; nl; nl;
        "FINAL ANSWER:"; nl; final_answer; nl; nl;
        match trace with
        | Some t => if String.eqb t "" then "" else cat ["TRACE:"; nl; PyStr.take 6000 t; nl]
        | None => ""
        end ].

Definition fix_prompt (raw : string) : string :=
  cat [ "Return ONLY valid JSON for this schema. No markdown, no prose."; nl;
        JudgeScore_schema; nl; nl;
        "Original response:"; nl; raw ].

Definition judge_run (goal : string) (plan : schemas.TaskPlan) (final_answer : string)
    (trace : option string) : M judge.JudgeScore :=
  raw <- invoke_llm (judge_prompt goal plan final_answer trace) ;;
  match JudgeScore_model_validate_json raw with
  | Ok score => ret score
  | Raise (ValidationError _ _) =>
      raw2 <- invoke_llm (fix_prompt raw) ;;
      of_result (JudgeScore_model_validate_json raw2)
  | Raise e => raise e
  end.

(** *** [orchestrai/metrics.py]: [MetricsTracker.log] and [load_all] *)

(** [open(path, "a")] then [f.write(text)] *)
Definition append_text (text : string) : M unit :=
  fun st =>
    (Ok tt, {| world := world st; calls := calls st; prompts := prompts st;
               storage := Some (match storage st with
                                | Some content => content ++ text
                                | None => text
                                end)%string |}).

Definition log (entry : metrics.MetricEntry) : M unit :=
  append_text (json_dumps entry ++ nl).

(** The lines of a text file as [for line in f] gives them: each ends with
    its newline; CR and CR LF are read as a newline. *)
Fixpoint lines_from (after_cr : bool) (cur : list ascii) (l : list ascii) : list string :=
  match l with
  | [] => match cur with [] => [] | _ => [PyStr.text (rev cur)] end
  | c :: l' =>
      if Ascii.eqb c "010" then
        if after_cr then lines_from false cur l'
        else PyStr.text (rev (c :: cur)) :: lines_from false [] l'
      else if Ascii.eqb c "013" then
        PyStr.text (rev ("010"%char :: cur)) :: lines_from true [] l'
      else lines_from false (c :: cur) l'
  end.

Definition file_lines (content : string) : list string :=
  lines_from false [] (PyStr.chars content).

Fixpoint load_lines (lines : list string) : result (list metrics.MetricEntry) :=
  match lines with
  | [] => Ok []
  | line :: rest =>
      if String.eqb (PyStr.strip line) "" then load_lines rest
      else
        match json_loads line with
        | Raise e => Raise e
        | Ok entry =>
            match load_lines rest with
            | Raise e => Raise e
            | Ok entries => Ok (entry :: entries)
            end
        end
  end.

Definition load_all : M (list metrics.MetricEntry) :=
  fun st =>
    match storage st with
    | None => (Ok [], st)
    | Some content => (load_lines (file_lines content), st)
    end.

(** [MetricsTracker.get_stats(last_n)] *)
Definition get_stats (last_n : option Z) : M metrics.stats :=
  entries <- load_all ;;
  of_result (metrics.get_stats_from entries last_n).

(** *** [run_orchestration] *)

Definition clock {A : Type} (f : World -> A * World) : M A :=
  external (fun w => let (a, w') := f w in (Ok a, w')).

(** [TaskPlan.model_validate_json(raw)] *)
Definition TaskPlan_model_validate_json (raw : string) : result schemas.TaskPlan :=
  match TaskPlan_fields raw with
  | Some plan =>
      match schemas.steps plan with
      | [] => Raise (ValidationError "TaskPlan" raw)
      | _ => Ok plan
      end
  | None => Raise (ValidationError "TaskPlan" raw)
  end.

Definition plan_description (allowed_tools user_goal : string) : string :=
  cat [ "You are the Task Planner."; nl; nl;
        "Create a task plan for the following goal."; nl; nl;
        "CRITICAL RULES (VIOLATION = FAILURE):"; nl;
        "1. Return ONLY valid JSON"; nl;
        "2. JSON MUST match this schema exactly:"; nl;
        TaskPlan_schema; nl; nl;
        "3. You may ONLY use tool names from this list:"; nl;
        allowed_tools; nl; nl;
        "TOOL SELECTION RULES:"; nl;
        "- For web searches: Use 'tavily_search' (reliable, fast)"; nl;
        "- For weather: Use 'get_weather'"; nl;
        "- For GitHub: Use 'create_issue', 'list_issues', 'create_or_update_file'"; nl;
        "- Prefer simple, single-step solutions"; nl; nl;
        "**MULTI-TOOL RULES:**"; nl;
        "- Each step should have EXACTLY ONE tool"; nl;
        "- If you need data from Tool A to use in Tool B, create TWO steps:"; nl;
        "  Step 1: Use Tool A to gather data"; nl;
        "  Step 2: Use Tool B with the data from Step 1"; nl;
        "- NEVER combine tools that depend on each other in the same step"; nl;
        "- Example: 'search then create issue' = 2 steps, NOT 1 step"; nl; nl;
        "DO NOT invent tools."; nl;
        "DO NOT use generic terms like 'browser', 'internet', or 'API'."; nl;
        "If no tool is needed for a step, omit the tools field."; nl; nl;
        "Goal: "; user_goal ].

(** The planner's text without its code fence. *)
Definition sanitize (raw_plan : string) : string :=
  let raw_plan := PyStr.strip raw_plan in
  if PyStr.startswith raw_plan "```" then
    let raw_plan := PyStr.strip (PyStr.strip_char "`" raw_plan) in
    if PyStr.startswith (PyStr.lower raw_plan) "json"
    then PyStr.strip (PyStr.drop 4 raw_plan)
    else raw_plan
  else raw_plan.

Definition invalid_plan_message (e : exn) (raw_plan : string) : string :=
  cat [ "Planner produced invalid TaskPlan."; nl; nl;
        "Validation error:"; nl; str_exn e; nl; nl;
        "Raw output:"; nl; raw_plan ].

(** [try: TaskPlan.model_validate_json(raw_plan)  except ValidationError] *)
Definition parse_plan (raw_plan : string) : result schemas.TaskPlan :=
  match TaskPlan_model_validate_json raw_plan with
  | Ok task_plan => Ok task_plan
  | Raise (ValidationError model input) =>
      Raise (RuntimeError (invalid_plan_message (ValidationError model input) raw_plan))
  | Raise e => Raise e
  end.

Definition invalid_tool_message (tool : string) (step_id : Z) (allowed : list string)
    (task_plan : schemas.TaskPlan) : string :=
  cat [ nl; "VALIDATION FAILED: Planner used invalid tool '"; tool;
        "' in step "; str_int step_id; "."; nl;
        "Allowed tools: "; repr_list (sorted allowed); nl; nl;
        "Full plan:"; nl; TaskPlan_dump_json task_plan ].

(** The tool-name loops of [run_orchestration] (its lines 336 to 343);
    [allowed] lists the elements of the set. *)
Fixpoint validate_step_tools (task_plan : schemas.TaskPlan) (allowed : list string)
    (step : schemas.PlanStep) (tool_names : list string) : result unit :=
  match tool_names with
  | [] => Ok tt
  | tool :: rest =>
      if mem tool allowed then validate_step_tools task_plan allowed step rest
      else Raise (RuntimeError
                    (invalid_tool_message tool (schemas.step_id step) allowed task_plan))
  end.

Fixpoint validate_steps (task_plan : schemas.TaskPlan) (allowed : list string)
    (steps : list schemas.PlanStep) : result unit :=
  match steps with
  | [] => Ok tt
  | step :: rest =>
      match validate_step_tools task_plan allowed step (schemas.tools step) with
      | Ok _ => validate_steps task_plan allowed rest
      | Raise e => Raise e
      end
  end.

Definition validate_tools (task_plan : schemas.TaskPlan) (allowed : list string)
    : result unit :=
  validate_steps task_plan allowed (schemas.steps task_plan).

Definition research_output (user_goal : string) : string :=
  cat [ "{"; dquote; "query"; dquote; ": "; dquote; user_goal; dquote; ", ";
        dquote; "findings"; dquote; ": [], ";
        dquote; "notes"; dquote; ": "; dquote;
        "Skipped - using tool results directly"; dquote; "}" ].

Definition exec_description (task_plan : schemas.TaskPlan)
    (tool_results : list (string * string)) (user_goal : string) : string :=
  cat [ "You are the Action Executor."; nl; nl;
        "You MUST use the tool results below to complete the user's goal."; nl; nl;
        "Task Plan:"; nl; TaskPlan_dump_json task_plan; nl; nl;
        match tool_results with
        | [] => ""
        | _ =>
            cat [ nl; "**Tool Execution Results:**"; nl;
                  cat (map (fun entry : string * string =>
                              cat [ nl; fst entry; ":"; nl; snd entry; nl ])
                           tool_results) ]
        end;
        nl; "**CRITICAL INSTRUCTIONS:**"; nl;
        "1. Synthesize ALL tool results above into a coherent answer"; nl;
        "2. If multiple steps were executed, combine the results logically"; nl;
        "3. For example, if you searched for repos AND created an issue:"; nl;
        "   - Extract repo names/URLs from search results"; nl;
        "   - Format them into a summary"; nl;
        "   - Confirm the issue was created with that summary"; nl;
        "4. DO NOT just say 'task completed' - provide specific details"; nl;
        "5. Show what data was found and what action was taken"; nl; nl;
        "Original user goal: "; user_goal ].

(** The executor's [try] statement: the answer text, [execution_succeeded]
    and [execution_errors]. *)
Definition run_executor (description : string) : M (string * bool * list string) :=
  try_except
    (raw_exec <- external (executor_kickoff description) ;;
     ret (raw_exec, true, []))
    (fun e => ret (cat ["Execution failed: "; str_exn e], false, [str_exn e])).

Definition run_orchestration (user_goal : string) (tools : list Tool)
    : M execution.ExecutionResult :=
  start_time <- clock time_time ;;
  let runner := ToolRunner_init tools in
  let allowed_tools := PyStr.join ", " (get_tool_names tools) in
  (* 1. create plan *)
  raw_plan <- external (planner_kickoff (plan_description allowed_tools user_goal)) ;;
  let raw_plan := sanitize raw_plan in
  (* 2. validate plan (hard gate) *)
  task_plan <- of_result (parse_plan raw_plan) ;;
  let allowed := get_tool_names tools in
  _ <- of_result (validate_tools task_plan allowed) ;;
  (* 3. execute all tools in plan *)
  tool_results <- execute_plan_tools task_plan runner user_goal ;;
  (* 5. run executor (with tool results) *)
  answer <- run_executor (exec_description task_plan tool_results user_goal) ;;
  let '(raw_exec, execution_succeeded, execution_errors) := answer in
  (* 6. evaluate with judge *)
  score <- judge_run user_goal task_plan raw_exec None ;;
  end_time <- clock time_time ;;
  let execution_time := PyNum.fsub end_time start_time in
  let tools_used := list_set (concat (map schemas.tools (schemas.steps task_plan))) in
  now <- clock now_isoformat ;;
  _ <- log {| metrics.timestamp := now;
              metrics.goal := user_goal;
              metrics.goal_type := metrics.infer_goal_type user_goal;
              metrics.success_score := judge.success score;
              metrics.plan_score := judge.plan_quality score;
              metrics.reasoning_score := judge.reasoning_quality score;
              metrics.execution_time_seconds := execution_time;
              metrics.completed := execution_succeeded;
              metrics.errors := execution_errors;
              metrics.tools_used := tools_used |} ;;
  ret {| execution.goal := user_goal;
         execution.completed := execution_succeeded;
         execution.outputs :=
           {| execution.plan := task_plan;
              execution.research := research_output user_goal;
              execution.judge_score := score;
              execution.tool_results := tool_results;
              execution.execution_time := execution_time |};
         execution.errors := execution_errors;
         execution.final_answer := raw_exec |}.

(** *** [orchestrai/cli.py]: the loop of [main] *)

(** What the loop does with one line of input. *)
Inductive command : Type :=
| Skip                                (* empty input: [continue] *)
| Exit
| Help
| Clear
| Metrics (last_n : option Z)         (* [metrics.print_summary(last_n)] *)
| Run (user_input : string).          (* [run_orchestration(user_input, tools)] *)

(** [int(parts[1]) if len(parts) > 1 and parts[1].isdigit() else None] *)
Definition metrics_argument (parts : list string) : result (option Z) :=
  match parts with
  | _ :: part :: _ =>
      if PyStr.isdigit_str part then
        match int_of_str part with
        | Ok n => Ok (Some n)
        | Raise e => Raise e
        end
      else Ok None
  | _ => Ok None
  end.

(** The command of one line, [line] being what [input] returned. *)
Definition read_command (line : string) : result command :=
  let user_input := PyStr.strip line in
  if String.eqb user_input "" then Ok Skip
  else
    let cmd := PyStr.lower user_input in
    if String.eqb cmd "exit" then Ok Exit
    else if String.eqb cmd "help" then Ok Help
    else if String.eqb cmd "clear" then Ok Clear
    else if PyStr.startswith cmd "metrics" then
      match metrics_argument (PyStr.split user_input) with
      | Ok last_n => Ok (Metrics last_n)
      | Raise e => Raise e
      end
    else Ok (Run user_input).

(** The [while True] loop of [main], for the loaded [tools] and the lines
    that [input] gives; when no line is left [input] raises [EOFError] and
    the loop ends. An exception of a run is caught inside the loop; any
    other one ends [main]. *)
Fixpoint main_loop (tools : list Tool) (lines : list string) : M unit :=
  match lines with
  | [] => ret tt
  | line :: rest =>
      match read_command line with
      | Raise e => raise e
      | Ok Exit => ret tt
      | Ok Skip | Ok Help | Ok Clear => main_loop tools rest
      | Ok (Metrics last_n) =>
          _ <- get_stats last_n ;;
          main_loop tools rest
      | Ok (Run user_input) =>
          _ <- try_except
                 (_ <- run_orchestration user_input tools ;; ret tt)
                 (fun _ => ret tt) ;;
          main_loop tools rest
      end
  end.

End Pipeline.

(* ------------------------------------------------------------------ *)
(** ** A small outside world

    An instance of [Env] for running the pipeline on examples. The world is
    a script: each call that asks the outside for a text (the planner, a
    tool, the executor, the judge's model) takes the next answer of the
    script. The decoders read a toy syntax: a plan is "plan:" followed by
    tool names, one step for each; a judge response is three digits. *)

Module demo.

Definition next (w : list (result string)) : result string * list (result string) :=
  match w with
  | r :: w' => (r, w')
  | [] => (Raise (Exception "no answer left"), [])
  end.

Fixpoint steps_of (n : Z) (names : list string) : list schemas.PlanStep :=
  match names with
  | [] => []
  | x :: rest =>
      {| schemas.step_id := n; schemas.action := x; schemas.tools := [x];
         schemas.success_criteria := "done" |} :: steps_of (n + 1) rest
  end.

Definition plan_fields (raw : string) : option schemas.TaskPlan :=
  if PyStr.startswith raw "plan:" then
    Some {| schemas.goal := raw; schemas.assumptions := [];
            schemas.steps := steps_of 1 (PyStr.split (PyStr.drop 5 raw));
            schemas.risks := [] |}
  else None.

Definition digit (c : ascii) : Z := Z.of_nat (PyStr.code c - 48).

Definition judge_fields (raw : string) : option judge.JudgeScore :=
  match PyStr.chars raw with
  | [a; b; c] =>
      if PyStr.isdigit a && PyStr.isdigit b && PyStr.isdigit c then
        Some {| judge.success := digit a; judge.plan_quality := digit b;
                judge.reasoning_quality := digit c; judge.notes := "" |}
      else None
  | _ => None
  end.

Definition dumps (entry : metrics.MetricEntry) : string :=
  cat [ "{goal: "; metrics.goal entry;
        ", success_score: "; str_int (metrics.success_score entry);
        ", completed: "; if metrics.completed entry then "true" else "false";
        ", errors: ["; PyStr.join ", " (metrics.errors entry); "]}" ].

Definition entry (goal : string) (score : Z) (ok : bool) : metrics.MetricEntry :=
  {| metrics.timestamp := "2026-01-01T00:00:00"; metrics.goal := goal;
     metrics.goal_type := metrics.infer_goal_type goal;
     metrics.success_score := score; metrics.plan_score := score;
     metrics.reasoning_score := score;
     metrics.execution_time_seconds := S754_zero false;
     metrics.completed := ok; metrics.errors := []; metrics.tools_used := [] |}.

(** The two entries the toy decoder knows. *)
Definition first_entry : metrics.MetricEntry := entry "Weather in Paris" 5 true.
Definition second_entry : metrics.MetricEntry := entry "List issues for a/b" 2 false.

Definition loads (line : string) : result metrics.MetricEntry :=
  if String.eqb line (dumps first_entry ++ nl) then Ok first_entry
  else if String.eqb line (dumps second_entry ++ nl) then Ok second_entry
  else Raise (ValueError "Expecting value").

#[global] Instance env : Env := {|
  World := list (result string);
  py_repr := fun s => cat ["'"; s; "'"];
  list_set := fun l => rev (dedup l);
  list_set_elements := fun l => Permutation_sym (Permutation_rev (dedup l));
  ValidationError_str := fun model input => cat ["1 validation error for "; model];
  llm_invoke := fun _ => next;
  JudgeScore_schema := "{...}";
  JudgeScore_fields := judge_fields;
  TaskPlan_dump_str := schemas.goal;
  json_dumps := dumps;
  json_loads := loads;
  planner_kickoff := fun _ => next;
  executor_kickoff := fun _ => next;
  time_time := fun w => (S754_zero false, w);
  now_isoformat := fun w => ("2026-01-01T00:00:00", w);
  TaskPlan_schema := "{...}";
  TaskPlan_dump_json := schemas.goal;
  TaskPlan_fields := plan_fields
|}.

Definition tool (tool_name : string) : Tool :=
  {| name := tool_name; ainvoke := Some (fun _ => next); invoke := None |}.

Definition tools : list Tool := [tool "get_weather"; tool "tavily_search"].

(** The process at its start, the world holding [script]. *)
Definition start (script : list (result string)) : State :=
  {| world := script; calls := []; prompts := []; storage := None |}.

Definition state (w : list (result string)) (made : list Call) (sent : list string)
    (file : option string) : State :=
  {| world := w; calls := made; prompts := sent; storage := file |}.

(** The plan the toy decoder reads from "plan:" and [names]. *)
Definition plan_of (names : list string) : schemas.TaskPlan :=
  {| schemas.goal := cat ["plan: "; PyStr.join " " names]; schemas.assumptions := [];
     schemas.steps := steps_of 1 names; schemas.risks := [] |}.

(** A plan of three steps, the third naming the tool of the first. *)
Definition weather_twice : schemas.TaskPlan :=
  {| schemas.goal := "Weather in Paris"; schemas.assumptions := [];
     schemas.steps := steps_of 1 ["get_weather"; "tavily_search"; "get_weather"];
     schemas.risks := [] |}.

(** A text of 2001 characters. *)
Definition long_text : string := PyStr.text (repeat "a"%char 2001).

Definition scored (success : Z) : metrics.MetricEntry :=
  {| metrics.timestamp := ""; metrics.goal := ""; metrics.goal_type := "other";
     metrics.success_score := success; metrics.plan_score := 0;
     metrics.reasoning_score := 0; metrics.execution_time_seconds := S754_zero false;
     metrics.completed := true; metrics.errors := []; metrics.tools_used := [] |}.

(** A weather tool that answers with the city it is asked for. *)
Definition echo_city (a : args) (w : list (result string))
    : result string * list (result string) :=
  (Ok match dict_get "location" a with
      | Some (VDict location) =>
          match dict_get "city" location with
          | Some (VStr city) => city
          | _ => "no city"
          end
      | _ => "no location"
      end, w).

Definition station : Tool :=
  {| name := "get_weather"; ainvoke := Some echo_city; invoke := None |}.

End demo.

(* ================================================================== *)
(** * The words of the statements *)

Section Vocabulary.
Context {E : Env}.

(** ** The trend *)

Definition spec_mean (l : list Z) : Q := Qmake (PyNum.sum l) (Pos.of_nat (List.length l)).

Definition in_range (e : metrics.MetricEntry) : Prop :=
  (0 <= metrics.success_score e <= 5)%Z.

Definition recent_scores (entries : list metrics.MetricEntry) : list Z :=
  map metrics.success_score (skipn (List.length entries - 5) entries).

Definition previous_scores (entries : list metrics.MetricEntry) : list Z :=
  map metrics.success_score (firstn 5 (skipn (List.length entries - 10) entries)).

Definition trend_label (diff : PyNum.num) : string :=
  if PyNum.gt_half diff then "improving"
  else if PyNum.lt_minus_half diff then "declining"
  else "stable".

(** [mean] of five scores that add up to [total] *)
Definition mean5 (total : Z) : result PyNum.num :=
  let g := Z.gcd total 5 in
  if (5 / g =? 1)%Z then Ok (PyNum.Int (total / g))
  else and_then (PyNum.int_truediv (total / g) (5 / g)) (fun f => Ok (PyNum.Float f)).

(** The trend for five scores that add up to [a] after five that add up
    to [b]. *)
Definition label5 (a b : Z) : result string :=
  and_then (mean5 a) (fun recent_avg =>
  and_then (mean5 b) (fun previous_avg =>
  and_then (PyNum.sub recent_avg previous_avg) (fun diff =>
  Ok (trend_label diff)))).

Definition exact_label (a b : Z) : string :=
  if (5 <? 2 * (a - b))%Z then "improving"
  else if (2 * (a - b) <? -5)%Z then "declining"
  else "stable".

Definition upto (n : nat) : list Z := map Z.of_nat (seq 0 n).

(** ** The matcher *)

(** [derives r c g c' g']: [r] can match from [c] to [c'], taking the
    groups from [g] to [g']. *)
Inductive derives : regex -> cursor -> groups -> cursor -> groups -> Prop :=
| d_eps c g : derives Eps c g c g
| d_cls p c g x c' :
    advance c = Some (x, c') -> p x = true -> derives (Cls p) c g c' g
| d_seq r1 r2 c g c1 g1 c2 g2 :
    derives r1 c g c1 g1 -> derives r2 c1 g1 c2 g2 -> derives (Seq r1 r2) c g c2 g2
| d_alt_l r1 r2 c g c' g' : derives r1 c g c' g' -> derives (Alt r1 r2) c g c' g'
| d_alt_r r1 r2 c g c' g' : derives r2 c g c' g' -> derives (Alt r1 r2) c g c' g'
| d_star_stop b r c g : derives (Star b r) c g c g
| d_star_step b r c g c1 g1 c2 g2 :
    derives r c g c1 g1 -> derives (Star b r) c1 g1 c2 g2 ->
    derives (Star b r) c g c2 g2
| d_grp i r c g c' g' :
    derives r c g c' g' ->
    derives (Grp i r) c g c' ((i, firstn (pos c' - pos c) (rest c)) :: g')
| d_bol c g : derives Bol c g c g
| d_eol c g : derives Eol c g c g
| d_wordb c g : derives WordB c g c g.

(** ** Tool calls *)

(** The tool names of a plan in the order the loops meet them. *)
Definition plan_tools (plan : schemas.TaskPlan) : list string :=
  concat (map schemas.tools (schemas.steps plan)).

(** What [execute_plan_tools] stores for a call that gave [r]. *)
Definition entry_of (r : result string) : string :=
  match r with
  | Ok result_str => stored result_str
  | Raise e => error_msg e
  end.

(** [st'] differs from [st] by the world and by the calls [new]. *)
Definition after_calls (st : State) (new : list Call) (st' : State) : Prop :=
  calls st' = calls st ++ new /\ prompts st' = prompts st /\ storage st' = storage st.

(** ** The judge *)

(** [st] after the judge sent the prompts [ps], the world being [w]. *)
Definition asked (st : State) (ps : list string) (w : World) : State :=
  {| world := w; calls := calls st; prompts := prompts st ++ ps; storage := storage st |}.

Definition scores_in_range (score : judge.JudgeScore) : Prop :=
  (0 <= judge.success score <= 5)%Z
  /\ (0 <= judge.plan_quality score <= 5)%Z
  /\ (0 <= judge.reasoning_quality score <= 5)%Z.

(** ** The stages of a run *)

(** The run got a plan: the clock was read, the planner answered [raw],
    and its text without the fence parsed as [task_plan]. *)
Definition planned (user_goal : string) (tools : list Tool) (st : State)
    (start_time : PyNum.float) (task_plan : schemas.TaskPlan) (st2 : State) : Prop :=
  exists w1 raw w2,
    time_time (world st) = (start_time, w1)
    /\ planner_kickoff
         (plan_description (PyStr.join ", " (get_tool_names tools)) user_goal) w1
       = (Ok raw, w2)
    /\ parse_plan (sanitize raw) = Ok task_plan
    /\ st2 = with_world st w2.

(** The run got as far as the executor: the plan passed the gate and the
    tools gave [tool_results]. *)
Definition dispatched (user_goal : string) (tools : list Tool) (st : State)
    (start_time : PyNum.float) (task_plan : schemas.TaskPlan)
    (tool_results : list (string * string)) (st3 : State) : Prop :=
  exists st2,
    planned user_goal tools st start_time task_plan st2
    /\ validate_tools task_plan (get_tool_names tools) = Ok tt
    /\ execute_plan_tools task_plan (ToolRunner_init tools) user_goal st2
       = (Ok tool_results, st3).

(** The file after one more line. *)
Definition appended (old : option string) (line : string) : option string :=
  Some (match old with Some content => content ++ line | None => line end)%string.

(** The steps of [run_orchestration] after the judge. *)
Definition record_run (user_goal : string) (start_time : PyNum.float)
    (task_plan : schemas.TaskPlan) (tool_results : list (string * string))
    (raw_exec : string) (execution_succeeded : bool) (execution_errors : list string)
    (score : judge.JudgeScore) : M execution.ExecutionResult :=
  bind (clock time_time) (fun end_time =>
  let execution_time := PyNum.fsub end_time start_time in
  let tools_used := list_set (concat (map schemas.tools (schemas.steps task_plan))) in
  bind (clock now_isoformat) (fun now =>
  bind (log {| metrics.timestamp := now;
               metrics.goal := user_goal;
               metrics.goal_type := metrics.infer_goal_type user_goal;
               metrics.success_score := judge.success score;
               metrics.plan_score := judge.plan_quality score;
               metrics.reasoning_score := judge.reasoning_quality score;
               metrics.execution_time_seconds := execution_time;
               metrics.completed := execution_succeeded;
               metrics.errors := execution_errors;
               metrics.tools_used := tools_used |}) (fun _ =>
  ret {| execution.goal := user_goal;
         execution.completed := execution_succeeded;
         execution.outputs :=
           {| execution.plan := task_plan;
              execution.research := research_output user_goal;
              execution.judge_score := score;
              execution.tool_results := tool_results;
              execution.execution_time := execution_time |};
         execution.errors := execution_errors;
         execution.final_answer := raw_exec |}))).

(** ** The metrics log *)

(** [tracker.log(entry)] for each entry in turn *)
Fixpoint log_each (entries : list metrics.MetricEntry) : M unit :=
  match entries with
  | [] => ret tt
  | entry :: rest => bind (log entry) (fun _ => log_each rest)
  end.

Definition line_break (c : ascii) : bool := Ascii.eqb c "010" || Ascii.eqb c "013".

(** The encoding of [entry] is one line that is not blank and decodes to
    [entry]: what [json.dumps] and [json.loads] give for the fields of a
    [MetricEntry] (text, integers, a finite float, a boolean, lists of
    text). *)
Definition round_trips (entry : metrics.MetricEntry) : Prop :=
  Forall (fun c => line_break c = false) (PyStr.chars (json_dumps entry))
  /\ PyStr.strip (json_dumps entry ++ nl) <> ""
  /\ json_loads (json_dumps entry ++ nl) = Ok entry.

(** The file is empty or ends with a newline. *)
Definition complete_lines (content : string) : Prop :=
  content = "" \/ exists body, content = (body ++ nl)%string.

Definition content_of (file : option string) : string :=
  match file with Some content => content | None => "" end.

Definition line_of (entry : metrics.MetricEntry) : string :=
  (json_dumps entry ++ nl)%string.

(** [line.strip()] is not empty. *)
Definition not_blank (line : string) : bool := negb (String.eqb (PyStr.strip line) "").

(** ** Statistics *)

(** The number of [entries] whose goal type is [t]. *)
Definition count_type (t : string) (entries : list metrics.MetricEntry) : Z :=
  Z.of_nat (List.length (filter (fun e => String.eqb (metrics.goal_type e) t) entries)).

(** ** Patterns and names *)

(** No capturing group occurs in [r]. *)
Fixpoint groupless (r : regex) : bool :=
  match r with
  | Grp _ _ => false
  | Seq r1 r2 | Alt r1 r2 => groupless r1 && groupless r2
  | Star _ r' => groupless r'
  | _ => true
  end.

(** The character before the cursor once [t] has been read. *)
Fixpoint last_read (prev : option ascii) (t : list ascii) : option ascii :=
  match t with
  | [] => prev
  | x :: t' => last_read (Some x) t'
  end.

(** A non-empty text of the characters [a-zA-Z0-9_-]. *)
Definition repo_name (s : string) : Prop :=
  s <> "" /\ Forall (fun c => repo_char c = true) (PyStr.chars s).

(** The three backticks of a code fence. *)
Definition fence : list ascii := ["`"; "`"; "`"]%char.

(** [a] comes before [b] in the order of [sorted]. *)
Definition before_in_order (a b : string) : Prop := String.ltb a b = true.

(** ** The result and the entry of a run *)

(** The [MetricEntry] that [run_orchestration] logs. *)
Definition logged_entry (user_goal : string) (task_plan : schemas.TaskPlan)
    (score : judge.JudgeScore) (execution_time : PyNum.float)
    (execution_succeeded : bool) (execution_errors : list string) (now : string)
    : metrics.MetricEntry :=
  {| metrics.timestamp := now;
     metrics.goal := user_goal;
     metrics.goal_type := metrics.infer_goal_type user_goal;
     metrics.success_score := judge.success score;
     metrics.plan_score := judge.plan_quality score;
     metrics.reasoning_score := judge.reasoning_quality score;
     metrics.execution_time_seconds := execution_time;
     metrics.completed := execution_succeeded;
     metrics.errors := execution_errors;
     metrics.tools_used := list_set (plan_tools task_plan) |}.

(** The [ExecutionResult] that [run_orchestration] returns. *)
Definition returned_result (user_goal : string) (task_plan : schemas.TaskPlan)
    (tool_results : list (string * string)) (score : judge.JudgeScore)
    (execution_time : PyNum.float) (raw_exec : string)
    (execution_succeeded : bool) (execution_errors : list string)
    : execution.ExecutionResult :=
  {| execution.goal := user_goal;
     execution.completed := execution_succeeded;
     execution.outputs :=
       {| execution.plan := task_plan;
          execution.research := research_output user_goal;
          execution.judge_score := score;
          execution.tool_results := tool_results;
          execution.execution_time := execution_time |};
     execution.errors := execution_errors;
     execution.final_answer := raw_exec |}.

(** ** The command shell *)

(** The line is read as the metrics command. *)
Definition is_metrics_command (line : string) : bool :=
  PyStr.startswith (PyStr.lower (PyStr.strip line)) "metrics".

(** ** The tool calls of a run *)

(** The results once the calls [made] are stored, [results] being there
    before: [results[tool_name] = result] for each call in turn. *)
Definition results_after (results : list (string * string)) (made : list Call)
    : list (string * string) :=
  fold_left (fun d c => dict_set (call_tool c) (entry_of (call_result c)) d) made results.

End Vocabulary.

(* ================================================================== *)
(** * Facts *)

(** ** The text primitives and the matcher on examples, as Python reads them *)

Example text_primitives :
  PyStr.title "ab cD'e f1g  x-ray" = "Ab Cd'E F1G  X-Ray"
  /\ PyStr.split (cat ["  a"; String "009" ""; "b "; String "028" ""; " c"; nl])
     = ["a"; "b"; "c"]
  /\ PyStr.strip (cat [nl; "  a b "; String "031" ""]) = "a b"
  /\ PyStr.strip_char "`" (cat ["```json"; nl; "{}"; nl; "```"]) = cat ["json"; nl; "{}"; nl]
  /\ PyStr.split_on "/" "Ab/cd" = ["Ab"; "cd"]
  /\ PyStr.split_on "/" "/" = [""; ""]
  /\ sorted ["b"; "a"; "c"; "ab"; "B"; "a"] = ["B"; "a"; "a"; "ab"; "b"; "c"]
  /\ str_int (-120) = "-120"
  /\ str_int 0 = "0".
Proof. repeat split; vm_compute; reflexivity. Qed.

Example repository_names :
  group1_or repo_in_for "issues for repo  my-org/my_repo/sub now" default_repo
  = "my-org/my_repo"
  /\ group1_or repo_in_for_from "info from repo/x in a/b" default_repo = "repo/x"
  /\ group1_or repo_in_for_from "list everything" default_repo
     = "deepmehta27/mcp-navigator-test"
  /\ group1_or file_path "Get file a/b.txt from my-username/my-repo" "README.md" = "a/b.txt".
Proof. repeat split; vm_compute; reflexivity. Qed.

(** ** City extraction *)

Lemma extract_city_follows_rules (text : string) :
  let text_lower := PyStr.lower text in
  (forall city, titled_group city_after_in_for text_lower = Some city ->
     extract_city text = city)
  /\ (titled_group city_after_in_for text_lower = None ->
      forall city, titled_group city_before_weather text_lower = Some city ->
        extract_city text = city)
  /\ (titled_group city_after_in_for text_lower = None ->
      titled_group city_before_weather text_lower = None ->
      forall city, capitalized_word (PyStr.split text) = Some city ->
        extract_city text = city)
  /\ (titled_group city_after_in_for text_lower = None ->
      titled_group city_before_weather text_lower = None ->
      capitalized_word (PyStr.split text) = None ->
      forall city, abbreviation city_map text_lower = Some city ->
        extract_city text = city)
  /\ (titled_group city_after_in_for text_lower = None ->
      titled_group city_before_weather text_lower = None ->
      capitalized_word (PyStr.split text) = None ->
      abbreviation city_map text_lower = None ->
      extract_city text = default_city).
Proof.
  intro text_lower. unfold extract_city. fold text_lower.
  repeat split; intros;
    repeat match goal with
           | H : ?x = _ |- context [match ?x with _ => _ end] => rewrite H
           end; reflexivity.
Qed.

(** C6, as the code has it. The rules are tried in the order (a) "in/for X"
    before "weather", the end, "?" or ",", (b) "X weather", (c) the first
    capitalized word of more than two characters, joined with the next word
    when that is capitalized too, (d) the abbreviation table, (e) "New York";
    the first that applies gives the city, (a) and (b) in title case.
    "Weather in New York" gives "New York" by rule (a), and "nyc" gives
    "New York" by rule (d), no earlier rule applying to it. *)
Theorem extract_city_rule_order :
  (forall text : string,
     let text_lower := PyStr.lower text in
     let rule_a := titled_group city_after_in_for text_lower in
     let rule_b := titled_group city_before_weather text_lower in
     let rule_c := capitalized_word (PyStr.split text) in
     let rule_d := abbreviation city_map text_lower in
     (forall city, rule_a = Some city -> extract_city text = city)
     /\ (rule_a = None -> forall city, rule_b = Some city -> extract_city text = city)
     /\ (rule_a = None -> rule_b = None ->
         forall city, rule_c = Some city -> extract_city text = city)
     /\ (rule_a = None -> rule_b = None -> rule_c = None ->
         forall city, rule_d = Some city -> extract_city text = city)
     /\ (rule_a = None -> rule_b = None -> rule_c = None -> rule_d = None ->
         extract_city text = "New York"))
  /\ (titled_group city_after_in_for (PyStr.lower "Weather in New York") = Some "New York"
      /\ extract_city "Weather in New York" = "New York")
  /\ (titled_group city_after_in_for (PyStr.lower "nyc") = None
      /\ titled_group city_before_weather (PyStr.lower "nyc") = None
      /\ capitalized_word (PyStr.split "nyc") = None
      /\ abbreviation city_map (PyStr.lower "nyc") = Some "New York"
      /\ extract_city "nyc" = "New York").
Proof.
  split; [|split].
  - intro text. exact (extract_city_follows_rules text).
  - split; vm_compute; reflexivity.
  - repeat split; vm_compute; reflexivity.
Qed.

(** On "nyc weather" rule (b) applies, so the abbreviation table is not
    reached and the city is "Nyc". On "Hi there" the capitalized word has
    two characters only, so rule (c) passes it over. *)
Lemma extract_city_nyc_weather :
  titled_group city_after_in_for (PyStr.lower "nyc weather") = None
  /\ titled_group city_before_weather (PyStr.lower "nyc weather") = Some "Nyc"
  /\ extract_city "nyc weather" = "Nyc"
  /\ extract_city "nyc weather" <> "New York"
  /\ capitalized_word (PyStr.split "Hi there") = None
  /\ extract_city "Hi there" = "New York".
Proof.
  repeat split; try (vm_compute; reflexivity). vm_compute. discriminate.
Qed.

(** The matcher on more subjects, as Python's [re] reads them. *)
Example search_spans :
  map (fun subject =>
         option_map (fun m => (m_start m, m_end m, group 1 m))
                    (search city_after_in_for subject))
      [ "weather in new york"; "what's the weather in san francisco?";
        "the weather for paris, france"; "in in weather"; "show weather" ]
  = [ Some (8, 19, Some "new york"); Some (19, 36, Some "san francisco");
      Some (12, 22, Some "paris"); Some (0, 13, Some "in"); None ]
  /\ map (fun subject =>
            option_map (fun m => (m_start m, m_end m, group 1 m))
                       (search city_before_weather subject))
         [ "nyc weather"; "what's the weather in san francisco?";
           "the weather for paris, france"; "rainfall weather in"; "nyc" ]
     = [ Some (0, 11, Some "nyc"); Some (5, 18, Some "s the");
         Some (0, 11, Some "the"); Some (0, 16, Some "rainfall"); None ].
Proof. split; vm_compute; reflexivity. Qed.

Example issue_titles :
  map issue_title
      [ "Create an issue in owner/repo titled 'Bug fix needed'";
        "create a github issue about flaky tests and in repo me/proj";
        "please open issue Fix the build for repo a/b";
        "Search and create an issue called summary in a-b/c_d" ]
  = [ "Bug fix needed"; "about flaky tests and"; "Fix the build"; "called summary" ]
  /\ map without_boilerplate
         [ "create a github issue about flaky tests and in repo me/proj";
           "make a ticket and then in repo a/b"; "Create Issue  on  stuff" ]
     = [ "flaky tests"; "make a ticket and then"; "stuff" ].
Proof. split; vm_compute; reflexivity. Qed.

(** ** The trend *)

Lemma py_slice_tail {A : Type} (l : list A) (w : Z) :
  (0 < w <= Z.of_nat (List.length l))%Z ->
  py_slice l (Some (- w)%Z) None = skipn (List.length l - Z.to_nat w) l.
Proof.
  intros Hw. unfold py_slice, slice_index.
  replace (- w <? 0)%Z with true by (symmetry; apply Z.ltb_lt; lia).
  rewrite Z.min_r, Z.max_r by lia.
  replace (Z.to_nat (- w + Z.of_nat (List.length l))) with (List.length l - Z.to_nat w) by lia.
  apply firstn_all2. rewrite length_skipn. lia.
Qed.

Lemma py_slice_middle {A : Type} (l : list A) (w : Z) :
  (0 < w)%Z -> (w * 2 <= Z.of_nat (List.length l))%Z ->
  py_slice l (Some (- (w * 2))%Z) (Some (- w)%Z)
  = firstn (Z.to_nat w) (skipn (List.length l - Z.to_nat (w * 2)) l).
Proof.
  intros Hw Hl. unfold py_slice, slice_index.
  replace (- (w * 2) <? 0)%Z with true by (symmetry; apply Z.ltb_lt; lia).
  replace (- w <? 0)%Z with true by (symmetry; apply Z.ltb_lt; lia).
  rewrite !Z.min_r, !Z.max_r by lia.
  f_equal; [ | f_equal ]; lia.
Qed.

Lemma mean_of_five (l : list Z) :
  List.length l = 5 -> PyNum.mean l = mean5 (PyNum.sum l).
Proof.
  intro H. destruct l as [|x l]; [discriminate|].
  unfold PyNum.mean, mean5. rewrite H. reflexivity.
Qed.

(** What [mean] and [-] can raise. *)
Lemma int_truediv_raises (a b : Z) (e : exn) :
  PyNum.int_truediv a b = Raise e ->
  e = OverflowError "integer division result too large for a float".
Proof.
  unfold PyNum.int_truediv. destruct (PyNum.is_finite _); intro H; now inversion H.
Qed.

Lemma mean_raises (l : list Z) (e : exn) :
  PyNum.mean l = Raise e ->
  (l = [] /\ e = PyNum.StatisticsError)
  \/ (l <> [] /\ e = OverflowError "integer division result too large for a float").
Proof.
  destruct l as [|x l]; simpl.
  - intro H. inversion H. now left.
  - destruct (_ =? 1)%Z; [discriminate|].
    destruct (PyNum.int_truediv _ _) eqn:Hd; [discriminate|].
    simpl. intro H. inversion H; subst. right. split; [discriminate|].
    now apply int_truediv_raises in Hd.
Qed.

Lemma sub_raises (x y : PyNum.num) (e : exn) :
  PyNum.sub x y = Raise e -> e = OverflowError "int too large to convert to float".
Proof.
  destruct x as [a|f], y as [b|g]; simpl; try discriminate;
    unfold PyNum.to_float; destruct (PyNum.is_finite _); simpl; intro H; now inversion H.
Qed.

Lemma sum_bounds (l : list Z) :
  Forall (fun z => 0 <= z <= 5)%Z l ->
  (0 <= PyNum.sum l <= 5 * Z.of_nat (List.length l))%Z.
Proof.
  induction 1 as [|z l Hz _ IH]; simpl PyNum.sum; simpl List.length; lia.
Qed.

Lemma in_upto (n : nat) (z : Z) : (0 <= z < Z.of_nat n)%Z -> In z (upto n).
Proof.
  intro H. unfold upto. apply in_map_iff. exists (Z.to_nat z).
  split; [lia|]. apply in_seq. lia.
Qed.

Lemma label_table :
  forallb (fun a =>
    forallb (fun b =>
      match label5 a b with
      | Ok label => String.eqb label (exact_label a b)
      | Raise _ => false
      end)
    (upto 26)) (upto 26) = true.
Proof. vm_compute. reflexivity. Qed.

Lemma label_exact (a b : Z) :
  (0 <= a <= 25)%Z -> (0 <= b <= 25)%Z -> label5 a b = Ok (exact_label a b).
Proof.
  intros Ha Hb. pose proof label_table as T.
  rewrite forallb_forall in T. specialize (T a (in_upto 26 a ltac:(lia))).
  rewrite forallb_forall in T. specialize (T b (in_upto 26 b ltac:(lia))).
  destruct (label5 a b) as [label|e]; [|discriminate].
  apply String.eqb_eq in T. now subst.
Qed.

Lemma trend_short (entries : list metrics.MetricEntry) :
  List.length entries < 10 -> metrics._calculate_trend entries 5 = Ok "insufficient_data".
Proof.
  intro H. unfold metrics._calculate_trend.
  replace (Z.of_nat (List.length entries) <? 5 * 2)%Z with true; [reflexivity|].
  symmetry. apply Z.ltb_lt. lia.
Qed.

Lemma trend_means (entries : list metrics.MetricEntry) :
  10 <= List.length entries ->
  metrics._calculate_trend entries 5
  = and_then (PyNum.mean (recent_scores entries)) (fun recent_avg =>
    and_then (PyNum.mean (previous_scores entries)) (fun previous_avg =>
    and_then (PyNum.sub recent_avg previous_avg) (fun diff =>
    Ok (trend_label diff)))).
Proof.
  intro Hlen. unfold metrics._calculate_trend.
  replace (Z.of_nat (List.length entries) <? 5 * 2)%Z with false
    by (symmetry; apply Z.ltb_ge; lia).
  rewrite py_slice_tail by lia.
  rewrite py_slice_middle by lia.
  change (Z.to_nat 5) with 5. change (Z.to_nat (5 * 2)) with 10.
  fold (recent_scores entries). fold (previous_scores entries).
  destruct (PyNum.mean (recent_scores entries)) as [x|]; [|reflexivity].
  destruct (PyNum.mean (previous_scores entries)) as [y|]; [|reflexivity].
  simpl. destruct (PyNum.sub x y) as [d|]; [|reflexivity].
  simpl. unfold trend_label.
  destruct (PyNum.gt_half d); [reflexivity|].
  now destruct (PyNum.lt_minus_half d).
Qed.

Lemma trend_unfold (entries : list metrics.MetricEntry) :
  10 <= List.length entries ->
  metrics._calculate_trend entries 5
  = label5 (PyNum.sum (recent_scores entries)) (PyNum.sum (previous_scores entries)).
Proof.
  intro Hlen. rewrite trend_means by exact Hlen.
  rewrite (mean_of_five (recent_scores entries)), (mean_of_five (previous_scores entries)).
  - reflexivity.
  - unfold previous_scores. rewrite length_map, length_firstn, length_skipn. lia.
  - unfold recent_scores. rewrite length_map, length_skipn. lia.
Qed.

Lemma trend_label_cases (diff : PyNum.num) :
  trend_label diff = "improving" \/ trend_label diff = "declining"
  \/ trend_label diff = "stable".
Proof.
  unfold trend_label. destruct (PyNum.gt_half diff); [now left|].
  destruct (PyNum.lt_minus_half diff); [right; now left | right; now right].
Qed.

(** With ten entries or more the trend is one of the three labels, or the
    [OverflowError] of a mean or of the difference. *)
Lemma trend_outcomes (entries : list metrics.MetricEntry) :
  10 <= List.length entries ->
  (forall label, metrics._calculate_trend entries 5 = Ok label ->
     label = "improving" \/ label = "declining" \/ label = "stable")
  /\ (forall e, metrics._calculate_trend entries 5 = Raise e ->
        e = OverflowError "integer division result too large for a float"
        \/ e = OverflowError "int too large to convert to float").
Proof.
  intro Hlen. rewrite trend_means by exact Hlen.
  assert (Hr : recent_scores entries <> []).
  { intro H. apply (f_equal (@List.length Z)) in H. unfold recent_scores in H.
    rewrite length_map, length_skipn in H. cbn [List.length] in H. lia. }
  assert (Hp : previous_scores entries <> []).
  { intro H. apply (f_equal (@List.length Z)) in H. unfold previous_scores in H.
    rewrite length_map, length_firstn, length_skipn in H. cbn [List.length] in H. lia. }
  destruct (PyNum.mean (recent_scores entries)) as [x|e1] eqn:H1.
  2: { split; [discriminate|]. simpl. intros e H. inversion H; subst.
       destruct (mean_raises _ _ H1) as [[Hnil _]|[_ He]]; [contradiction | now left]. }
  destruct (PyNum.mean (previous_scores entries)) as [y|e2] eqn:H2.
  2: { split; [discriminate|]. simpl. intros e H. inversion H; subst.
       destruct (mean_raises _ _ H2) as [[Hnil _]|[_ He]]; [contradiction | now left]. }
  simpl. destruct (PyNum.sub x y) as [d|e3] eqn:H3; simpl.
  - split; [|discriminate]. intros label H. inversion H. apply trend_label_cases.
  - split; [discriminate|]. intros e H. inversion H; subst. right.
    now apply sub_raises in H3.
Qed.

Lemma recent_previous_range (entries : list metrics.MetricEntry) :
  10 <= List.length entries ->
  Forall in_range (skipn (List.length entries - 10) entries) ->
  List.length (recent_scores entries) = 5
  /\ List.length (previous_scores entries) = 5
  /\ Forall (fun z => 0 <= z <= 5)%Z (recent_scores entries)
  /\ Forall (fun z => 0 <= z <= 5)%Z (previous_scores entries).
Proof.
  intros Hlen Hall. unfold recent_scores, previous_scores.
  replace (List.length entries - 5) with (5 + (List.length entries - 10)) by lia.
  rewrite <- skipn_skipn.
  set (last10 := skipn (List.length entries - 10) entries) in *.
  assert (Hl : List.length last10 = 10) by (unfold last10; rewrite length_skipn; lia).
  rewrite !length_map, length_skipn, length_firstn, Hl.
  repeat split; try reflexivity.
  - apply Forall_map. rewrite Forall_forall in *. intros e He.
    apply Hall. rewrite <- (firstn_skipn 5 last10). apply in_or_app. now right.
  - apply Forall_map. rewrite Forall_forall in *. intros e He.
    apply Hall. rewrite <- (firstn_skipn 5 last10). apply in_or_app. now left.
Qed.

Lemma spec_diff_cases (r p : list Z) :
  List.length r = 5 -> List.length p = 5 ->
  let a := PyNum.sum r in
  let b := PyNum.sum p in
  let diff := (spec_mean r - spec_mean p)%Q in
  ((1 # 2 < diff)%Q <-> (5 < 2 * (a - b))%Z)
  /\ ((diff < - (1 # 2))%Q <-> (2 * (a - b) < -5)%Z).
Proof.
  intros Hr Hp a b diff. unfold diff, spec_mean. rewrite Hr, Hp.
  fold a b. change (Pos.of_nat 5) with 5%positive.
  unfold Qlt, Qminus, Qplus, Qopp. simpl Qnum. simpl Qden. lia.
Qed.

(** C5. Fewer than ten entries give "insufficient_data". With ten or more
    the trend compares [mean] of the success scores of the last five
    entries with [mean] of the five before, in Python's arithmetic:
    "improving" when the difference is above 0.5, "declining" when it is
    below -0.5, "stable" otherwise. For scores from 0 to 5 this is the
    comparison of the exact means: more than 1/2 above, more than 1/2
    below, or neither. Scores 5,5,5,5,5,1,1,1,1,1 give "declining". For
    scores of any size the result is one of the three labels, never
    "insufficient_data", unless a mean or the difference is beyond the
    floats, which raises [OverflowError]. *)
Theorem calculate_trend_classification (entries : list metrics.MetricEntry) :
  (List.length entries < 10 ->
     metrics._calculate_trend entries 5 = Ok "insufficient_data")
  /\ (10 <= List.length entries ->
      Forall in_range (skipn (List.length entries - 10) entries) ->
      let diff := (spec_mean (recent_scores entries)
                   - spec_mean (previous_scores entries))%Q in
      ((1 # 2 < diff)%Q -> metrics._calculate_trend entries 5 = Ok "improving")
      /\ ((diff < - (1 # 2))%Q -> metrics._calculate_trend entries 5 = Ok "declining")
      /\ ((- (1 # 2) <= diff)%Q -> (diff <= 1 # 2)%Q ->
          metrics._calculate_trend entries 5 = Ok "stable"))
  /\ (map metrics.success_score entries = [5; 5; 5; 5; 5; 1; 1; 1; 1; 1]%Z ->
      metrics._calculate_trend entries 5 = Ok "declining")
  /\ (10 <= List.length entries ->
      metrics._calculate_trend entries 5
      = and_then (PyNum.mean (recent_scores entries)) (fun recent_avg =>
        and_then (PyNum.mean (previous_scores entries)) (fun previous_avg =>
        and_then (PyNum.sub recent_avg previous_avg) (fun diff =>
        Ok (if PyNum.gt_half diff then "improving"
            else if PyNum.lt_minus_half diff then "declining"
            else "stable"))))
      /\ (forall label, metrics._calculate_trend entries 5 = Ok label ->
            label = "improving" \/ label = "declining" \/ label = "stable")
      /\ (forall e, metrics._calculate_trend entries 5 = Raise e ->
            e = OverflowError "integer division result too large for a float"
            \/ e = OverflowError "int too large to convert to float")).
Proof.
  split; [|split; [|split]].
  - apply trend_short.
  - intros Hlen Hall diff.
    destruct (recent_previous_range entries Hlen Hall) as (Hr & Hp & Fr & Fp).
    destruct (spec_diff_cases _ _ Hr Hp) as [Hup Hdown]. fold diff in Hup, Hdown.
    pose proof (sum_bounds _ Fr) as Br. pose proof (sum_bounds _ Fp) as Bp.
    rewrite Hr in Br. rewrite Hp in Bp.
    rewrite trend_unfold by exact Hlen.
    rewrite label_exact by lia. unfold exact_label.
    repeat split.
    + intro H. apply Hup in H.
      replace (5 <? _)%Z with true by (symmetry; apply Z.ltb_lt; lia). reflexivity.
    + intro H. apply Hdown in H.
      replace (5 <? _)%Z with false by (symmetry; apply Z.ltb_ge; lia).
      replace (_ <? -5)%Z with true by (symmetry; apply Z.ltb_lt; lia). reflexivity.
    + intros H1 H2.
      apply Qle_not_lt in H1. apply Qle_not_lt in H2.
      rewrite Hdown in H1. rewrite Hup in H2.
      replace (5 <? _)%Z with false by (symmetry; apply Z.ltb_ge; lia).
      replace (_ <? -5)%Z with false by (symmetry; apply Z.ltb_ge; lia). reflexivity.
  - intro H.
    assert (Hlen : 10 <= List.length entries)
      by (rewrite <- (length_map metrics.success_score), H; simpl; lia).
    assert (Hlen' : List.length entries = 10)
      by (rewrite <- (length_map metrics.success_score), H; reflexivity).
    rewrite trend_unfold by exact Hlen.
    unfold recent_scores, previous_scores. rewrite Hlen'.
    rewrite <- firstn_map, <- !skipn_map, H. vm_compute. reflexivity.
  - intro Hlen. split; [|apply trend_outcomes; exact Hlen].
    apply trend_means. exact Hlen.
Qed.

(** ** The matcher: what a successful match has read *)

Lemma star_loop_sound {R : Type} (r : regex) (greedy : bool)
    (k : cursor -> groups -> option R) (x : R) :
  (forall c g k', run r c g k' = Some x ->
     exists c' g', derives r c g c' g' /\ k' c' g' = Some x) ->
  forall n c g,
    star_loop (run r) greedy k n c g = Some x ->
    exists c' g', derives (Star greedy r) c g c' g' /\ k c' g' = Some x.
Proof.
  intros Hbody. induction n as [|n IH]; intros c g H; simpl in H.
  - exists c, g. split; [constructor | exact H].
  - assert (Hagain :
      run r c g (fun c' g' =>
        if pos c <? pos c' then star_loop (run r) greedy k n c' g' else None) = Some x ->
      exists c' g', derives (Star greedy r) c g c' g' /\ k c' g' = Some x).
    { intro Hr. apply Hbody in Hr. destruct Hr as (c1 & g1 & D1 & K1).
      destruct (pos c <? pos c1); [|discriminate].
      apply IH in K1. destruct K1 as (c2 & g2 & D2 & K2).
      exists c2, g2. split; [eapply d_star_step; eassumption | exact K2]. }
    destruct greedy.
    + destruct (run r c g _) eqn:Hr.
      * inversion H; subst. now apply Hagain.
      * exists c, g. split; [constructor | exact H].
    + destruct (k c g) eqn:Hk.
      * inversion H; subst. exists c, g. split; [constructor | exact Hk].
      * now apply Hagain.
Qed.

Lemma run_sound {R : Type} (r : regex) :
  forall (x : R) c g k,
    run r c g k = Some x ->
    exists c' g', derives r c g c' g' /\ k c' g' = Some x.
Proof.
  induction r as [ | p | r1 IH1 r2 IH2 | r1 IH1 r2 IH2 | b r IH | i r IH | | | ];
    intros x c g k H; cbn [run] in H.
  - exists c, g. split; [constructor | exact H].
  - destruct (advance c) as [[y c']|] eqn:Ha; [|discriminate].
    destruct (p y) eqn:Hp; [|discriminate].
    exists c', g. split; [econstructor; eassumption | exact H].
  - apply IH1 in H. destruct H as (c1 & g1 & D1 & H).
    apply IH2 in H. destruct H as (c2 & g2 & D2 & H).
    exists c2, g2. split; [econstructor; eassumption | exact H].
  - destruct (run r1 c g k) eqn:H1.
    + inversion H; subst. apply IH1 in H1. destruct H1 as (c' & g' & D & K).
      exists c', g'. split; [now apply d_alt_l | exact K].
    + apply IH2 in H. destruct H as (c' & g' & D & K).
      exists c', g'. split; [now apply d_alt_r | exact K].
  - eapply star_loop_sound; [|exact H]. intros c0 g0 k'. apply IH.
  - apply IH in H. destruct H as (c' & g' & D & K).
    eexists _, _. split; [apply d_grp; exact D | exact K].
  - destruct (pos c =? 0); [|discriminate]. exists c, g. split; [constructor | exact H].
  - destruct (at_end c); [|discriminate]. exists c, g. split; [constructor | exact H].
  - destruct (at_boundary c); [|discriminate]. exists c, g. split; [constructor | exact H].
Qed.

Lemma search_from_sound (r : regex) (l : list ascii) :
  forall prev p m,
    search_from r prev l p = Some m ->
    exists c g, derives r c [] (g : cursor) (m_groups m).
Proof.
  induction l as [|x l IH]; intros prev p m H; simpl in H.
  - destruct (match_at r _) eqn:Hm; [|discriminate]. inversion H; subst.
    unfold match_at in Hm. apply run_sound in Hm.
    destruct Hm as (c' & g' & D & K). inversion K; subst. simpl. eauto.
  - destruct (match_at r _) eqn:Hm.
    + inversion H; subst. unfold match_at in Hm. apply run_sound in Hm.
      destruct Hm as (c' & g' & D & K). inversion K; subst. simpl. eauto.
    + eapply IH. exact H.
Qed.

Lemma advance_inv (c c' : cursor) (x : ascii) :
  advance c = Some (x, c') -> rest c = x :: rest c' /\ pos c' = S (pos c).
Proof.
  unfold advance. destruct (rest c) as [|y l] eqn:Hr; [discriminate|].
  intro H. inversion H; subst. simpl. auto.
Qed.

Lemma derives_cls_inv (p : ascii -> bool) c g c' g' :
  derives (Cls p) c g c' g' ->
  exists x, rest c = x :: rest c' /\ p x = true /\ pos c' = S (pos c) /\ g' = g.
Proof.
  intro H. inversion H; subst.
  match goal with Ha : advance _ = _ |- _ => apply advance_inv in Ha; destruct Ha end.
  eauto.
Qed.

Lemma derives_star_cls (greedy : bool) (p : ascii -> bool) c g c' g' :
  derives (Star greedy (Cls p)) c g c' g' ->
  exists t, rest c = t ++ rest c' /\ Forall (fun x => p x = true) t
            /\ pos c' = pos c + List.length t /\ g' = g.
Proof.
  intro H. remember (Star greedy (Cls p)) as r eqn:Hr.
  induction H; try discriminate; inversion Hr; subst.
  - exists []. simpl. auto.
  - apply derives_cls_inv in H. destruct H as (x & R1 & Px & P1 & G1).
    destruct (IHderives2 eq_refl) as (t & R2 & Ft & P2 & G2).
    exists (x :: t). simpl. rewrite R1, R2, P2, P1, G2, G1.
    repeat split; auto; lia.
Qed.

Lemma derives_plus_cls (p : ascii -> bool) c g c' g' :
  derives (Plus true (Cls p)) c g c' g' ->
  exists t, rest c = t ++ rest c' /\ Forall (fun x => p x = true) t
            /\ pos c' = pos c + List.length t /\ g' = g.
Proof.
  intro H. inversion H; subst.
  match goal with
  | H1 : derives (Cls p) _ _ _ _, H2 : derives (Star _ _) _ _ _ _ |- _ =>
      apply derives_cls_inv in H1; destruct H1 as (x & R1 & Px & P1 & G1);
      apply derives_star_cls in H2; destruct H2 as (t & R2 & Ft & P2 & G2)
  end.
  exists (x :: t). simpl. rewrite R1, R2, P2, P1, G2, G1. repeat split; auto; lia.
Qed.

Lemma derives_owner_repo c g c' g' :
  derives owner_repo c g c' g' ->
  exists a b, rest c = (a ++ "/"%char :: b) ++ rest c'
              /\ Forall (fun x => repo_char x = true) a
              /\ Forall (fun x => repo_char x = true) b
              /\ pos c' = pos c + List.length (a ++ "/"%char :: b) /\ g' = g.
Proof.
  unfold owner_repo, seqs. cbn [fold_right]. intro H.
  inversion H as [ | | r1 r2 c0 g0 c1 g1 c2 g2 Da Hrest | | | | | | | | ]; subst. clear H.
  inversion Hrest as [ | | r1 r2 c0 g0 c3 g3 c4 g4 Dslash Hrest' | | | | | | | | ]; subst.
  clear Hrest.
  inversion Hrest' as [ | | r1 r2 c0 g0 c5 g5 c6 g6 Db Heps | | | | | | | | ]; subst.
  clear Hrest'. inversion Heps; subst. clear Heps.
  apply derives_plus_cls in Da. destruct Da as (a & Ra & Fa & Pa & Ga).
  apply derives_plus_cls in Db. destruct Db as (b & Rb & Fb & Pb & Gb).
  apply derives_cls_inv in Dslash. destruct Dslash as (x & Rx & Ex & Px & Gx).
  apply Ascii.eqb_eq in Ex. subst x.
  exists a, b. rewrite Ra, Rx, Rb, Pb, Px, Pa, Gb, Gx, Ga.
  rewrite <- app_assoc. simpl. repeat split; auto.
  rewrite length_app. simpl. lia.
Qed.

Lemma derives_group_owner_repo c g c' g' :
  derives (Grp 1 owner_repo) c g c' g' ->
  exists a b, g' = (1, a ++ "/"%char :: b) :: g
              /\ Forall (fun x => repo_char x = true) a
              /\ Forall (fun x => repo_char x = true) b.
Proof.
  intro H. inversion H; subst.
  match goal with D : derives owner_repo _ _ _ _ |- _ =>
    apply derives_owner_repo in D; destruct D as (a & b & Rr & Fa & Fb & Pp & Gg)
  end.
  exists a, b. subst. rewrite Rr, Pp.
  replace (pos c + List.length (a ++ "/"%char :: b) - pos c)
    with (List.length (a ++ "/"%char :: b) + 0) by lia.
  rewrite firstn_app_2. simpl. rewrite app_nil_r. auto.
Qed.

Lemma derives_last_group (pre : list regex) :
  forall c g c' g',
    derives (seqs (pre ++ [Grp 1 owner_repo])) c g c' g' ->
    exists c1 g1, derives (Grp 1 owner_repo) c1 g1 c' g'.
Proof.
  induction pre as [|r pre IH]; intros c g c' g' H; simpl in H.
  - inversion H; subst.
    match goal with E : derives Eps _ _ _ _ |- _ => inversion E; subst end. eauto.
  - inversion H; subst. eapply IH. eassumption.
Qed.

Lemma split_on_from_plain (sep : ascii) (l : list ascii) :
  Forall (fun x => Ascii.eqb x sep = false) l ->
  forall cur, PyStr.split_on_from sep cur l = [PyStr.text (rev cur ++ l)].
Proof.
  induction 1 as [|x l Hx _ IH]; intro cur; simpl.
  - now rewrite app_nil_r.
  - rewrite Hx, IH. simpl. now rewrite <- app_assoc.
Qed.

Lemma split_on_from_sep (sep : ascii) (a b : list ascii) :
  Forall (fun x => Ascii.eqb x sep = false) a ->
  forall cur,
    PyStr.split_on_from sep cur (a ++ sep :: b)
    = PyStr.text (rev cur ++ a) :: PyStr.split_on_from sep [] b.
Proof.
  induction 1 as [|x l Hx _ IH]; intro cur; simpl.
  - rewrite Ascii.eqb_refl. now rewrite app_nil_r.
  - rewrite Hx, IH. simpl. now rewrite <- app_assoc.
Qed.

Lemma repo_char_not_slash (l : list ascii) :
  Forall (fun x => repo_char x = true) l ->
  Forall (fun x => Ascii.eqb x "/" = false) l.
Proof.
  apply Forall_impl. intros x Hx.
  destruct (Ascii.eqb_spec x "/"); [subst; discriminate | reflexivity].
Qed.

Lemma unpack_owner_repo_ok (a b : list ascii) :
  Forall (fun x => repo_char x = true) a ->
  Forall (fun x => repo_char x = true) b ->
  unpack_owner_repo (PyStr.text (a ++ "/"%char :: b)) = Ok (PyStr.text a, PyStr.text b).
Proof.
  intros Fa Fb. unfold unpack_owner_repo, PyStr.split_on, PyStr.chars, PyStr.text.
  rewrite list_ascii_of_string_of_list_ascii.
  rewrite split_on_from_sep by now apply repo_char_not_slash.
  rewrite split_on_from_plain by now apply repo_char_not_slash.
  reflexivity.
Qed.

Lemma searched_repo_unpacks (pre : list regex) (user_goal : string) (m : match_obj) :
  search (seqs (pre ++ [Grp 1 owner_repo])) user_goal = Some m ->
  exists owner repo t,
    group 1 m = Some t /\ unpack_owner_repo t = Ok (owner, repo).
Proof.
  unfold search. intro H. apply search_from_sound in H.
  destruct H as (c & c' & D). apply derives_last_group in D.
  destruct D as (c1 & g1 & D). apply derives_group_owner_repo in D.
  destruct D as (a & b & Hg & Fa & Fb).
  exists (PyStr.text a), (PyStr.text b), (PyStr.text (a ++ "/"%char :: b)).
  split; [|now apply unpack_owner_repo_ok].
  unfold group. rewrite Hg. reflexivity.
Qed.

Lemma repo_or_default_unpacks (pre : list regex) (user_goal : string) :
  exists owner repo,
    unpack_owner_repo (group1_or (seqs (pre ++ [Grp 1 owner_repo])) user_goal default_repo)
    = Ok (owner, repo).
Proof.
  unfold group1_or.
  destruct (search _ user_goal) as [m|] eqn:Hs.
  - destruct (searched_repo_unpacks _ _ _ Hs) as (o & r & t & Hg & Hu).
    rewrite Hg. eauto.
  - eexists _, _. vm_compute. reflexivity.
Qed.

(** No branch of [execute_plan_tools] raises before its [runner.call]. *)
Lemma tool_args_total (tool_name user_goal : string) (results : list (string * string)) :
  exists a, tool_args tool_name user_goal results = Ok a.
Proof.
  unfold tool_args.
  pose proof (repo_or_default_unpacks
                [Alt (Lit "in") (Lit "for"); spaces; Opt true (Seq (Lit "repo") spaces)]
                user_goal) as (o1 & r1 & H1).
  pose proof (repo_or_default_unpacks
                [alts [Lit "in"; Lit "for"; Lit "from"]; spaces;
                 Opt true (Seq (Lit "repo") spaces)]
                user_goal) as (o2 & r2 & H2).
  change (seqs (_ ++ _)) with repo_in_for in H1.
  change (seqs (_ ++ _)) with repo_in_for_from in H2.
  repeat match goal with
         | |- context [if ?b then _ else _] => destruct b
         end;
    try rewrite H1; try rewrite H2; eauto.
  destruct (search repo_in_for_from user_goal) as [m|] eqn:Hs; [|eauto].
  change repo_in_for_from
    with (seqs ([alts [Lit "in"; Lit "for"; Lit "from"]; spaces;
                 Opt true (Seq (Lit "repo") spaces)] ++ [Grp 1 owner_repo])) in Hs.
  destruct (searched_repo_unpacks _ _ _ Hs) as (o & r & t & Hg & Hu).
  rewrite Hg, Hu. eauto.
Qed.

(** ** Lists of names *)

Lemma mem_true_iff (x : string) (l : list string) : mem x l = true <-> In x l.
Proof.
  unfold mem. rewrite existsb_exists. split.
  - intros (y & Hy & E). apply String.eqb_eq in E. now subst.
  - intro H. exists x. split; [exact H | apply String.eqb_refl].
Qed.

Lemma filter_filter_comm {A : Type} (f g : A -> bool) (l : list A) :
  filter f (filter g l) = filter g (filter f l).
Proof.
  induction l as [|x l IH]; simpl; [reflexivity|].
  destruct (f x) eqn:Hf, (g x) eqn:Hg; simpl; rewrite ?Hf, ?Hg, IH; reflexivity.
Qed.

Lemma filter_filter_and {A : Type} (f g : A -> bool) (l : list A) :
  filter f (filter g l) = filter (fun x => g x && f x) l.
Proof.
  induction l as [|x l IH]; simpl; [reflexivity|].
  destruct (g x); simpl; [destruct (f x)|]; rewrite IH; reflexivity.
Qed.

Lemma filter_drops_rejected (f : string -> bool) (x : string) (l : list string) :
  f x = false ->
  filter f (filter (fun y => negb (String.eqb x y)) l) = filter f l.
Proof.
  intro Hx. induction l as [|y l IH]; simpl; [reflexivity|].
  destruct (String.eqb_spec x y) as [->|Hne]; simpl.
  - now rewrite Hx.
  - destruct (f y); now rewrite IH.
Qed.

Lemma dedup_filter (f : string -> bool) (l : list string) :
  dedup (filter f l) = filter f (dedup l).
Proof.
  induction l as [|x l IH]; simpl; [reflexivity|].
  destruct (f x) eqn:Hx; simpl.
  - rewrite IH. now rewrite filter_filter_comm.
  - rewrite IH. now rewrite filter_drops_rejected.
Qed.

Lemma in_dedup (x : string) (l : list string) : In x (dedup l) <-> In x l.
Proof.
  induction l as [|y l IH]; simpl; [tauto|].
  rewrite filter_In, IH. destruct (String.eqb_spec y x) as [->|Hne]; simpl.
  - tauto.
  - split; [tauto|]. intros [H|H]; [tauto|]. right. now split.
Qed.

Lemma NoDup_filter {A : Type} (f : A -> bool) (l : list A) :
  NoDup l -> NoDup (filter f l).
Proof.
  induction 1 as [|x l Hx _ IH]; simpl; [constructor|].
  destruct (f x); [constructor|]; auto.
  rewrite filter_In. tauto.
Qed.

Lemma NoDup_dedup (l : list string) : NoDup (dedup l).
Proof.
  induction l as [|x l IH]; simpl; constructor.
  - rewrite filter_In. intros [_ H]. now rewrite String.eqb_refl in H.
  - now apply NoDup_filter.
Qed.

Lemma filter_all {A : Type} (f : A -> bool) (l : list A) :
  (forall x, f x = true) -> filter f l = l.
Proof.
  intro H. induction l as [|x l IH]; simpl; [reflexivity|]. now rewrite H, IH.
Qed.

(** ** Dictionaries *)

Lemma dict_has_iff {V : Type} (k : string) (d : list (string * V)) :
  dict_has k d = true <-> In k (dict_keys d).
Proof.
  unfold dict_has. induction d as [|[k' v] d IH]; simpl.
  - split; [discriminate | tauto].
  - destruct (String.eqb_spec k k') as [->|Hne].
    + split; auto.
    + rewrite IH. split; [auto|]. intros [H|H]; [congruence | exact H].
Qed.

Lemma dict_set_fresh {V : Type} (k : string) (v : V) (d : list (string * V)) :
  dict_has k d = false -> dict_set k v d = d ++ [(k, v)].
Proof.
  unfold dict_has. induction d as [|[k' v'] d IH]; simpl; [reflexivity|].
  destruct (String.eqb k k'); [discriminate|]. intro H. now rewrite IH.
Qed.

Lemma dict_get_app {V : Type} (k : string) (v : V) (d d' : list (string * V)) :
  dict_get k d = Some v -> dict_get k (d ++ d') = Some v.
Proof.
  induction d as [|[k' v'] d IH]; simpl; [discriminate|].
  destruct (String.eqb k k'); auto.
Qed.

Lemma dict_get_last {V : Type} (k : string) (v : V) (d : list (string * V)) :
  dict_has k d = false -> dict_get k (d ++ [(k, v)]) = Some v.
Proof.
  unfold dict_has. induction d as [|[k' v'] d IH]; simpl.
  - now rewrite String.eqb_refl.
  - destruct (String.eqb k k'); [discriminate | exact IH].
Qed.

Lemma dict_has_app_one {V : Type} (x k : string) (v : V) (d : list (string * V)) :
  dict_has x (d ++ [(k, v)]) = dict_has x d || String.eqb x k.
Proof.
  unfold dict_has. induction d as [|[k' v'] d IH]; simpl.
  - now destruct (String.eqb x k).
  - destruct (String.eqb x k'); [reflexivity | exact IH].
Qed.

(** ** [execute_plan_tools] *)

Section Execution.
Context {E : Env}.

Lemma call_body_keeps (runner : ToolRunner) (tool_name : string) (a : args) (st : State) :
  after_calls st [] (snd (call_body runner tool_name a st)).
Proof.
  unfold call_body, after_calls, raise, external, with_world.
  destruct (dict_get tool_name (by_name runner)) as [tool|]; simpl.
  - destruct (ainvoke tool) as [f|]; [|destruct (invoke tool) as [f|]]; simpl;
      try (destruct (f _ (world st)); simpl); rewrite app_nil_r; auto.
  - rewrite app_nil_r. auto.
Qed.

Lemma call_logged (runner : ToolRunner) (tool_name : string) (a : args) (st : State) :
  exists r st',
    call runner tool_name a st = (r, st')
    /\ after_calls st [{| call_tool := tool_name; call_args := a; call_result := r |}] st'.
Proof.
  unfold call. pose proof (call_body_keeps runner tool_name a st) as K.
  destruct (call_body runner tool_name a st) as [r st1]. simpl in K.
  exists r, (log_call {| call_tool := tool_name; call_args := a; call_result := r |} st1).
  split; [reflexivity|]. destruct K as (Kc & Kp & Ks).
  unfold after_calls, log_call. simpl. rewrite Kc, app_nil_r. auto.
Qed.

Lemma execute_tool_spec (runner : ToolRunner) (user_goal : string)
    (results : list (string * string)) (tool_name : string) (st : State) :
  exists a r st',
    tool_args tool_name user_goal results = Ok a
    /\ call runner tool_name a st = (r, st')
    /\ execute_tool runner user_goal results tool_name st
       = (Ok (dict_set tool_name (entry_of r) results), st').
Proof.
  destruct (tool_args_total tool_name user_goal results) as (a & Ha).
  destruct (call_logged runner tool_name a st) as (r & st' & Hc & _).
  exists a, r, st'. repeat split; auto.
  unfold execute_tool, try_except, bind, of_result, ret. rewrite Ha, Hc.
  now destruct r.
Qed.

(** The loop over tool names: it never raises; it calls, once and in
    order, the names not yet in [results]; it adds one entry for each and
    leaves the entries it found. *)
Lemma execute_step_tools_spec (runner : ToolRunner) (user_goal : string)
    (tool_names : list string) :
  forall (results : list (string * string)) (st : State),
  exists results' new st',
    execute_step_tools runner user_goal tool_names results st = (Ok results', st')
    /\ after_calls st new st'
    /\ map call_tool new
       = dedup (filter (fun n => negb (dict_has n results)) tool_names)
    /\ dict_keys results' = dict_keys results ++ map call_tool new
    /\ (forall k v, dict_get k results = Some v -> dict_get k results' = Some v)
    /\ (forall c, In c new ->
          dict_get (call_tool c) results' = Some (entry_of (call_result c))).
Proof.
  induction tool_names as [|n ns IH]; intros results st; simpl.
  - exists results, [], st. unfold ret, after_calls. rewrite !app_nil_r.
    repeat split; auto. intros c [].
  - destruct (dict_has n results) eqn:Hn; simpl.
    + exact (IH results st).
    + destruct (execute_tool_spec runner user_goal results n st)
        as (a & r & st1 & Ha & Hc & Hx).
      destruct (call_logged runner n a st) as (r' & st1' & Hc' & (Kc & Kp & Ks)).
      rewrite Hc in Hc'. inversion Hc'; subst r' st1'. clear Hc'.
      unfold bind. rewrite Hx. rewrite dict_set_fresh by exact Hn.
      destruct (IH (results ++ [(n, entry_of r)]) st1)
        as (results' & new & st' & Hrun & (Lc & Lp & Ls) & Hnames & Hkeys & Hkeep & Hnew).
      exists results',
             ({| call_tool := n; call_args := a; call_result := r |} :: new), st'.
      split; [exact Hrun|]. split; [|split; [|split; [|split]]].
      * unfold after_calls. rewrite Lc, Kc, Lp, Kp, Ls, Ks, <- app_assoc. auto.
      * simpl. rewrite Hnames. f_equal.
        rewrite <- dedup_filter, filter_filter_and. f_equal.
        apply filter_ext. intro x. rewrite dict_has_app_one, negb_orb.
        f_equal. f_equal. apply String.eqb_sym.
      * rewrite Hkeys. unfold dict_keys. rewrite map_app, <- app_assoc. reflexivity.
      * intros k v Hk. apply Hkeep. now apply dict_get_app.
      * intros c [<-|Hc0]; [|now apply Hnew].
        simpl. apply Hkeep. now apply dict_get_last.
Qed.

Lemma execute_step_tools_app (runner : ToolRunner) (user_goal : string)
    (xs ys : list string) :
  forall results st,
    execute_step_tools runner user_goal (xs ++ ys) results st
    = bind (execute_step_tools runner user_goal xs results)
           (execute_step_tools runner user_goal ys) st.
Proof.
  induction xs as [|x xs IH]; intros results st; simpl.
  - reflexivity.
  - destruct (dict_has x results); [apply IH|].
    unfold bind.
    destruct (execute_tool runner user_goal results x st) as [[r1|e] st1].
    + rewrite IH. reflexivity.
    + reflexivity.
Qed.

(** The two nested loops are one loop over the plan's names. *)
Lemma execute_steps_flat (runner : ToolRunner) (user_goal : string)
    (steps : list schemas.PlanStep) :
  forall results st,
    execute_steps runner user_goal steps results st
    = execute_step_tools runner user_goal (concat (map schemas.tools steps)) results st.
Proof.
  induction steps as [|step steps IH]; intros results st; [reflexivity|].
  cbn [execute_steps map concat]. rewrite execute_step_tools_app.
  destruct (schemas.tools step) as [|t ts].
  - cbn [execute_step_tools]. unfold bind, ret. apply IH.
  - unfold bind.
    destruct (execute_step_tools runner user_goal (t :: ts) results st) as [[r1|e] st1];
      [apply IH | reflexivity].
Qed.

Lemma execute_steps_app (runner : ToolRunner) (user_goal : string)
    (pre post : list schemas.PlanStep) (results : list (string * string)) (st : State) :
  execute_steps runner user_goal (pre ++ post) results st
  = bind (execute_steps runner user_goal pre results)
         (execute_steps runner user_goal post) st.
Proof.
  rewrite execute_steps_flat, map_app, concat_app, execute_step_tools_app.
  unfold bind. rewrite execute_steps_flat.
  destruct (execute_step_tools _ _ _ results st) as [[r1|e] st1]; [|reflexivity].
  now rewrite execute_steps_flat.
Qed.

Lemma execute_plan_tools_spec (plan : schemas.TaskPlan) (runner : ToolRunner)
    (user_goal : string) (st : State) :
  exists results new st',
    execute_plan_tools plan runner user_goal st = (Ok results, st')
    /\ after_calls st new st'
    /\ map call_tool new = dedup (plan_tools plan)
    /\ dict_keys results = dedup (plan_tools plan)
    /\ (forall c, In c new ->
          dict_get (call_tool c) results = Some (entry_of (call_result c))).
Proof.
  unfold execute_plan_tools. rewrite execute_steps_flat.
  destruct (execute_step_tools_spec runner user_goal (plan_tools plan) [] st)
    as (results & new & st' & Hrun & Hafter & Hnames & Hkeys & _ & Hnew).
  rewrite filter_all in Hnames by reflexivity.
  exists results, new, st'. unfold plan_tools in *. simpl in Hkeys.
  rewrite Hkeys, Hnames. auto.
Qed.

(** C2. [execute_plan_tools] calls each distinct tool of the plan once, in
    the order the plan first names it; the map it returns has these names as
    its keys, in that order; a name met again in a later step is not called
    again and keeps the entry stored for it. *)
Theorem dispatch_first_wins (plan : schemas.TaskPlan) (runner : ToolRunner)
    (user_goal : string) (st : State) :
  exists results new st',
    execute_plan_tools plan runner user_goal st = (Ok results, st')
    /\ calls st' = calls st ++ new
    /\ map call_tool new = dedup (plan_tools plan)
    /\ NoDup (map call_tool new)
    /\ dict_keys results = dedup (plan_tools plan)
    /\ NoDup (dict_keys results)
    /\ (forall pre post, schemas.steps plan = pre ++ post ->
        exists results1 st1 new1 new2,
          execute_steps runner user_goal pre [] st = (Ok results1, st1)
          /\ execute_steps runner user_goal post results1 st1 = (Ok results, st')
          /\ new = new1 ++ new2
          /\ calls st1 = calls st ++ new1
          /\ (forall c, In c new2 -> dict_has (call_tool c) results1 = false)
          /\ (forall k v, dict_get k results1 = Some v -> dict_get k results = Some v)).
Proof.
  destruct (execute_plan_tools_spec plan runner user_goal st)
    as (results & new & st' & Hrun & (Hc & Hp & Hs) & Hnames & Hkeys & Hnew).
  exists results, new, st'.
  split; [exact Hrun|]. split; [exact Hc|]. split; [exact Hnames|].
  split; [rewrite Hnames; apply NoDup_dedup|]. split; [exact Hkeys|].
  split; [rewrite Hkeys; apply NoDup_dedup|].
  intros pre post Hsplit.
  unfold execute_plan_tools in Hrun. rewrite Hsplit, execute_steps_app in Hrun.
  unfold bind in Hrun. rewrite execute_steps_flat in Hrun.
  destruct (execute_step_tools_spec runner user_goal (concat (map schemas.tools pre)) [] st)
    as (results1 & new1 & st1 & Hrun1 & (Hc1 & _) & _).
  rewrite Hrun1 in Hrun. rewrite execute_steps_flat in Hrun.
  destruct (execute_step_tools_spec runner user_goal
              (concat (map schemas.tools post)) results1 st1)
    as (results2 & new2 & st2 & Hrun2 & (Hc2 & _) & Hnames2 & _ & Hkeep2 & _).
  rewrite Hrun2 in Hrun. inversion Hrun; subst results2 st2.
  exists results1, st1, new1, new2. rewrite !execute_steps_flat.
  split; [exact Hrun1|]. split; [exact Hrun2|].
  split; [|split; [exact Hc1|split; [|exact Hkeep2]]].
  - rewrite Hc1, <- app_assoc in Hc2. rewrite Hc in Hc2.
    now apply app_inv_head in Hc2.
  - intros c Hin. apply (in_map call_tool) in Hin. rewrite Hnames2 in Hin.
    apply in_dedup, filter_In in Hin. now apply negb_true_iff.
Qed.

(** C8. [execute_plan_tools] never raises: each distinct tool of the plan
    is called, whatever the calls before it gave, and a call that raised [e]
    leaves the text "Error: " followed by [str(e)] under the tool's name. *)
Theorem tool_failure_is_isolated (plan : schemas.TaskPlan) (runner : ToolRunner)
    (user_goal : string) (st : State) :
  exists results new st',
    execute_plan_tools plan runner user_goal st = (Ok results, st')
    /\ calls st' = calls st ++ new
    /\ map call_tool new = dedup (plan_tools plan)
    /\ (forall c e, In c new -> call_result c = Raise e ->
          dict_get (call_tool c) results = Some (cat ["Error: "; str_exn e]))
    /\ (forall tool_name, In tool_name (plan_tools plan) ->
          exists c, In c new /\ call_tool c = tool_name
                    /\ dict_get tool_name results = Some (entry_of (call_result c))).
Proof.
  destruct (execute_plan_tools_spec plan runner user_goal st)
    as (results & new & st' & Hrun & (Hc & Hp & Hs) & Hnames & Hkeys & Hnew).
  exists results, new, st'. repeat split; auto.
  - intros c e Hin He. rewrite (Hnew c Hin), He. reflexivity.
  - intros tool_name Hin. apply in_dedup in Hin. rewrite <- Hnames in Hin.
    apply in_map_iff in Hin. destruct Hin as (c & Hname & Hin).
    exists c. repeat split; auto. rewrite <- Hname. now apply Hnew.
Qed.

End Execution.

(** ** Text *)

Lemma append_nil_r (s : string) : (s ++ "")%string = s.
Proof. induction s as [|c s IH]; simpl; [reflexivity | now f_equal]. Qed.

Lemma append_assoc (s t u : string) : ((s ++ t) ++ u = s ++ (t ++ u))%string.
Proof. induction s as [|c s IH]; simpl; [reflexivity | now f_equal]. Qed.

Lemma cat_cons (x : string) (l : list string) : cat (x :: l) = (x ++ cat l)%string.
Proof.
  unfold cat. destruct l as [|y l]; simpl; [now rewrite append_nil_r | reflexivity].
Qed.


Lemma cat_app (l1 l2 : list string) : cat (l1 ++ l2) = (cat l1 ++ cat l2)%string.
Proof.
  induction l1 as [|x l1 IH]; [reflexivity|].
  change ((x :: l1) ++ l2) with (x :: (l1 ++ l2)).
  now rewrite !cat_cons, IH, append_assoc.
Qed.

(** ** What is stored for a long result *)

Lemma len_text (l : list ascii) : PyStr.len (PyStr.text l) = List.length l.
Proof. induction l as [|c l IH]; simpl; [reflexivity | now f_equal]. Qed.

Lemma length_chars (s : string) : List.length (PyStr.chars s) = PyStr.len s.
Proof. induction s as [|c s IH]; simpl; [reflexivity | now f_equal]. Qed.

Lemma len_append (s t : string) : PyStr.len (s ++ t) = PyStr.len s + PyStr.len t.
Proof. induction s as [|c s IH]; simpl; [reflexivity | now f_equal]. Qed.

Lemma len_take (n : nat) (s : string) : PyStr.len (PyStr.take n s) = Nat.min n (PyStr.len s).
Proof. unfold PyStr.take. now rewrite len_text, length_firstn, length_chars. Qed.

Lemma take_all (n : nat) (s : string) : PyStr.len s <= n -> PyStr.take n s = s.
Proof.
  intro H. unfold PyStr.take. rewrite firstn_all2 by now rewrite length_chars.
  apply string_of_list_ascii_of_string.
Qed.

(** C7. A result longer than 2000 characters is stored as its first 2000
    characters and nothing more: no marker follows them. A result of at most
    2000 characters is stored as it is. *)
Theorem stored_result_has_no_marker (result_str : string) :
  (PyStr.len result_str <= 2000 -> stored result_str = result_str)
  /\ (2000 < PyStr.len result_str ->
      stored result_str = PyStr.take 2000 result_str
      /\ PyStr.len (stored result_str) = 2000
      /\ stored result_str <> (PyStr.take 2000 result_str ++ truncation_marker)%string).
Proof.
  unfold stored. split; intro H.
  - replace (2000 <? PyStr.len result_str) with false; [reflexivity|].
    symmetry. apply Nat.ltb_ge. exact H.
  - replace (2000 <? PyStr.len result_str) with true
      by (symmetry; apply Nat.ltb_lt; exact H).
    assert (L : PyStr.len (PyStr.take 2000 result_str) = 2000)
      by (rewrite len_take; lia).
    repeat split; [exact L|].
    intro Heq. apply (f_equal PyStr.len) in Heq.
    rewrite len_append, L in Heq.
    change (PyStr.len truncation_marker) with 17 in Heq. lia.
Qed.

(** ** The judge *)

Section Judge.
Context {E : Env}.

Lemma constraints_iff (score : judge.JudgeScore) :
  judge.constraints score = true <-> scores_in_range score.
Proof.
  unfold judge.constraints, judge.ge_le, scores_in_range.
  rewrite !andb_true_iff, !Z.leb_le. tauto.
Qed.

Lemma validate_judge_cases (raw : string) :
  (exists score, JudgeScore_model_validate_json raw = Ok score
                 /\ JudgeScore_fields raw = Some score /\ scores_in_range score)
  \/ (JudgeScore_model_validate_json raw = Raise (ValidationError "JudgeScore" raw)
      /\ forall score, JudgeScore_fields raw = Some score -> ~ scores_in_range score).
Proof.
  unfold JudgeScore_model_validate_json.
  destruct (JudgeScore_fields raw) as [j|].
  - destruct (judge.constraints j) eqn:Hc.
    + left. exists j. rewrite <- constraints_iff. auto.
    + right. split; [reflexivity|]. intros score Hs. inversion Hs; subst.
      rewrite <- constraints_iff. congruence.
  - right. split; [reflexivity | discriminate].
Qed.

Lemma invoke_llm_spec (prompt : string) (st : State) :
  invoke_llm prompt st
  = (fst (llm_invoke prompt (world st)), asked st [prompt] (snd (llm_invoke prompt (world st)))).
Proof.
  unfold invoke_llm, external, with_world, asked. simpl.
  now destruct (llm_invoke prompt (world st)).
Qed.

Lemma asked_twice (st : State) (p q : string) (w w' : World) :
  asked (asked st [p] w) [q] w' = asked st [p; q] w'.
Proof. unfold asked. simpl. now rewrite <- app_assoc. Qed.

(** After a first response that fails validation, the validation of the
    second response is the result. *)
Lemma judge_run_second_response goal plan final_answer trace (st : State)
    raw w e raw2 w2 :
  llm_invoke (judge_prompt goal plan final_answer trace) (world st) = (Ok raw, w) ->
  JudgeScore_model_validate_json raw = Raise e ->
  llm_invoke (fix_prompt raw) w = (Ok raw2, w2) ->
  judge_run goal plan final_answer trace st
  = (JudgeScore_model_validate_json raw2,
     asked st [judge_prompt goal plan final_answer trace; fix_prompt raw] w2).
Proof.
  intros H1 Hv H2.
  unfold judge_run, bind. rewrite invoke_llm_spec, H1. simpl.
  destruct (validate_judge_cases raw) as [(s & Hs & _)|[Hr _]]; [congruence|].
  rewrite Hr, invoke_llm_spec. simpl. rewrite H2. simpl.
  rewrite asked_twice. unfold of_result. reflexivity.
Qed.


End Judge.

(** ** [run_orchestration] *)

Section Orchestration.
Context {E : Env}.

Lemma bind_ok {A B : Type} (c : M A) (f : A -> M B) (st st1 : State) (a : A) :
  c st = (Ok a, st1) -> bind c f st = f a st1.
Proof. intro H. unfold bind. now rewrite H. Qed.

Lemma bind_raise {A B : Type} (c : M A) (f : A -> M B) (st st1 : State) (e : exn) :
  c st = (Raise e, st1) -> bind c f st = (Raise e, st1).
Proof. intro H. unfold bind. now rewrite H. Qed.

Lemma clock_spec {A : Type} (f : World -> A * World) (st : State) (a : A) (w : World) :
  f (world st) = (a, w) -> clock f st = (Ok a, with_world st w).
Proof. intro H. unfold clock, external. now rewrite H. Qed.

Lemma external_spec {A : Type} (f : World -> result A * World) (st : State)
    (r : result A) (w : World) :
  f (world st) = (r, w) -> external f st = (r, with_world st w).
Proof. intro H. unfold external. now rewrite H. Qed.

Lemma record_run_spec user_goal start_time task_plan tool_results raw_exec
    execution_succeeded execution_errors score (st : State) :
  exists res entry st',
    record_run user_goal start_time task_plan tool_results raw_exec
      execution_succeeded execution_errors score st = (Ok res, st')
    /\ storage st' = appended (storage st) (json_dumps entry ++ nl)
    /\ calls st' = calls st /\ prompts st' = prompts st
    /\ metrics.completed entry = execution_succeeded
    /\ metrics.errors entry = execution_errors
    /\ metrics.goal entry = user_goal
    /\ metrics.success_score entry = judge.success score
    /\ execution.completed res = execution_succeeded
    /\ execution.errors res = execution_errors
    /\ execution.final_answer res = raw_exec
    /\ execution.tool_results (execution.outputs res) = tool_results
    /\ execution.plan (execution.outputs res) = task_plan.
Proof.
  unfold record_run, bind, clock, external, log, append_text, ret, with_world.
  destruct (time_time (world st)) as [end_time w1]. simpl.
  destruct (now_isoformat w1) as [now w2]. simpl.
  eexists _, _, _. split; [reflexivity|]. simpl. unfold appended.
  repeat split; reflexivity.
Qed.

(** [run_orchestration] from the executor on. *)
Lemma run_from_executor user_goal tools st start_time task_plan tool_results st3 :
  dispatched user_goal tools st start_time task_plan tool_results st3 ->
  run_orchestration user_goal tools st
  = bind (run_executor (exec_description task_plan tool_results user_goal))
      (fun answer =>
         let '(raw_exec, execution_succeeded, execution_errors) := answer in
         bind (judge_run user_goal task_plan raw_exec None)
           (record_run user_goal start_time task_plan tool_results raw_exec
              execution_succeeded execution_errors)) st3.
Proof.
  intros (st2 & (w1 & raw & w2 & Ht & Hp & Hparse & ->) & Hv & Hx).
  unfold run_orchestration.
  rewrite (bind_ok _ _ _ _ _ (clock_spec _ _ _ _ Ht)).
  rewrite (bind_ok _ _ _ (with_world st w2) raw)
    by (apply (external_spec _ (with_world st w1)); exact Hp).
  unfold of_result at 1. rewrite Hparse.
  rewrite (bind_ok _ _ _ (with_world st w2) task_plan) by reflexivity.
  unfold of_result at 1. rewrite Hv.
  rewrite (bind_ok _ _ _ (with_world st w2) tt) by reflexivity.
  rewrite (bind_ok _ _ _ _ _ Hx). reflexivity.
Qed.

(** [run_orchestration] stopped by the gate. *)
Lemma run_stopped_by_gate user_goal tools st start_time task_plan st2 e :
  planned user_goal tools st start_time task_plan st2 ->
  validate_tools task_plan (get_tool_names tools) = Raise e ->
  run_orchestration user_goal tools st = (Raise e, st2).
Proof.
  intros (w1 & raw & w2 & Ht & Hp & Hparse & ->) Hv.
  unfold run_orchestration.
  rewrite (bind_ok _ _ _ _ _ (clock_spec _ _ _ _ Ht)).
  rewrite (bind_ok _ _ _ (with_world st w2) raw)
    by (apply (external_spec _ (with_world st w1)); exact Hp).
  unfold of_result at 1. rewrite Hparse.
  rewrite (bind_ok _ _ _ (with_world st w2) task_plan) by reflexivity.
  unfold of_result at 1. rewrite Hv.
  now rewrite (bind_raise _ _ _ (with_world st w2) e).
Qed.

(** [run_orchestration] stopped by a plan that does not parse. *)
Lemma run_stopped_by_parse user_goal tools st start_time w1 raw w2 e :
  time_time (world st) = (start_time, w1) ->
  planner_kickoff
    (plan_description (PyStr.join ", " (get_tool_names tools)) user_goal) w1
  = (Ok raw, w2) ->
  parse_plan (sanitize raw) = Raise e ->
  run_orchestration user_goal tools st = (Raise e, with_world st w2).
Proof.
  intros Ht Hp Hparse. unfold run_orchestration.
  rewrite (bind_ok _ _ _ _ _ (clock_spec _ _ _ _ Ht)).
  rewrite (bind_ok _ _ _ (with_world st w2) raw)
    by (apply (external_spec _ (with_world st w1)); exact Hp).
  unfold of_result at 1. rewrite Hparse.
  now rewrite (bind_raise _ _ _ (with_world st w2) e).
Qed.

Lemma run_executor_spec (description : string) (st : State) :
  run_executor description st
  = match executor_kickoff description (world st) with
    | (Ok raw_exec, w) => (Ok (raw_exec, true, []), with_world st w)
    | (Raise e, w) =>
        (Ok (cat ["Execution failed: "; str_exn e], false, [str_exn e]), with_world st w)
    end.
Proof.
  unfold run_executor, try_except, bind, external, ret.
  now destruct (executor_kickoff description (world st)) as [[a|e] w].
Qed.

(** *** The gate *)

Lemma validate_step_tools_cases task_plan allowed step (tool_names : list string) :
  (Forall (fun tool => In tool allowed) tool_names
   /\ validate_step_tools task_plan allowed step tool_names = Ok tt)
  \/ (exists before tool after,
        tool_names = before ++ tool :: after
        /\ Forall (fun t => In t allowed) before
        /\ ~ In tool allowed
        /\ validate_step_tools task_plan allowed step tool_names
           = Raise (RuntimeError
                      (invalid_tool_message tool (schemas.step_id step) allowed task_plan))).
Proof.
  induction tool_names as [|t ts IH]; simpl.
  - left. split; [constructor | reflexivity].
  - destruct (mem t allowed) eqn:Hm.
    + apply mem_true_iff in Hm. destruct IH as [[Hall Hok]|(b & x & a & -> & Hb & Hx & Hr)].
      * left. split; [now constructor | exact Hok].
      * right. exists (t :: b), x, a. repeat split; auto.
    + right. exists [], t, ts. repeat split; auto.
      rewrite <- mem_true_iff. congruence.
Qed.

Lemma validate_steps_cases task_plan allowed (steps : list schemas.PlanStep) :
  (Forall (fun step => Forall (fun tool => In tool allowed) (schemas.tools step)) steps
   /\ validate_steps task_plan allowed steps = Ok tt)
  \/ (exists pre step post before tool after,
        steps = pre ++ step :: post
        /\ schemas.tools step = before ++ tool :: after
        /\ Forall (fun s => Forall (fun t => In t allowed) (schemas.tools s)) pre
        /\ Forall (fun t => In t allowed) before
        /\ ~ In tool allowed
        /\ validate_steps task_plan allowed steps
           = Raise (RuntimeError
                      (invalid_tool_message tool (schemas.step_id step) allowed task_plan))).
Proof.
  induction steps as [|s ss IH]; simpl.
  - left. split; [constructor | reflexivity].
  - destruct (validate_step_tools_cases task_plan allowed s (schemas.tools s))
      as [[Hall Hok]|(b & x & a & Hs & Hb & Hx & Hr)].
    + rewrite Hok.
      destruct IH as [[Hall' Hok']|(pre & step & post & b & x & a & -> & Hs & Hpre & Hb & Hx & Hr)].
      * left. split; [now constructor | exact Hok'].
      * right. exists (s :: pre), step, post, b, x, a. repeat split; auto.
    + rewrite Hr. right. exists [], s, ss, b, x, a. repeat split; auto.
Qed.

(** C1. Validation succeeds exactly when every tool of every step is in the
    allow-list. Otherwise it raises, and the error names the first tool
    outside the list and the [step_id] of its step. A run whose plan fails
    validation ends with that error without any tool call; a run whose plan
    passes goes on to execute the tools of the same plan. *)
Theorem tool_validation_is_a_hard_gate (task_plan : schemas.TaskPlan)
    (allowed : list string) :
  (validate_tools task_plan allowed = Ok tt
   <-> forall step tool,
         In step (schemas.steps task_plan) -> In tool (schemas.tools step) ->
         In tool allowed)
  /\ ((exists step tool,
         In step (schemas.steps task_plan) /\ In tool (schemas.tools step)
         /\ ~ In tool allowed) ->
      exists pre step post before tool after,
        schemas.steps task_plan = pre ++ step :: post
        /\ schemas.tools step = before ++ tool :: after
        /\ ~ In tool allowed
        /\ Forall (fun s => Forall (fun t => In t allowed) (schemas.tools s)) pre
        /\ Forall (fun t => In t allowed) before
        /\ validate_tools task_plan allowed
           = Raise (RuntimeError
                      (invalid_tool_message tool (schemas.step_id step) allowed task_plan))
        /\ exists rest,
             invalid_tool_message tool (schemas.step_id step) allowed task_plan
             = (cat [ nl; "VALIDATION FAILED: Planner used invalid tool '"; tool;
                      "' in step "; str_int (schemas.step_id step) ] ++ rest)%string)
  /\ (forall user_goal tools st start_time st2 e,
        allowed = get_tool_names tools ->
        planned user_goal tools st start_time task_plan st2 ->
        validate_tools task_plan allowed = Raise e ->
        run_orchestration user_goal tools st = (Raise e, st2)
        /\ calls st2 = calls st /\ storage st2 = storage st)
  /\ (forall user_goal tools st start_time st2,
        allowed = get_tool_names tools ->
        planned user_goal tools st start_time task_plan st2 ->
        validate_tools task_plan allowed = Ok tt ->
        exists tool_results new st3,
          dispatched user_goal tools st start_time task_plan tool_results st3
          /\ calls st3 = calls st ++ new
          /\ map call_tool new = dedup (plan_tools task_plan)).
Proof.
  unfold validate_tools.
  split; [|split; [|split]].
  - destruct (validate_steps_cases task_plan allowed (schemas.steps task_plan))
      as [[Hall Hok]|(pre & step & post & b & x & a & Hs & Ht & _ & _ & Hx & Hr)].
    + split; [|auto]. intros _ step tool Hstep Htool.
      rewrite Forall_forall in Hall. specialize (Hall step Hstep).
      rewrite Forall_forall in Hall. now apply Hall.
    + rewrite Hr. split; [discriminate|]. intro Hall. exfalso. apply Hx.
      apply (Hall step x).
      * rewrite Hs. apply in_or_app. right. now left.
      * rewrite Ht. apply in_or_app. right. now left.
  - intros (step0 & tool0 & Hstep & Htool & Hout).
    destruct (validate_steps_cases task_plan allowed (schemas.steps task_plan))
      as [[Hall Hok]|(pre & step & post & b & x & a & Hs & Ht & Hpre & Hb & Hx & Hr)].
    + exfalso. apply Hout. rewrite Forall_forall in Hall. specialize (Hall step0 Hstep).
      rewrite Forall_forall in Hall. now apply Hall.
    + exists pre, step, post, b, x, a. repeat split; auto.
      exists (cat [ "."; nl; "Allowed tools: "; repr_list (sorted allowed); nl; nl;
                    "Full plan:"; nl; TaskPlan_dump_json task_plan ]).
      rewrite <- cat_app. reflexivity.
  - intros user_goal tools st start_time st2 e -> Hplan Hv. split.
    + eapply run_stopped_by_gate; eassumption.
    + destruct Hplan as (w1 & raw & w2 & _ & _ & _ & ->). split; reflexivity.
  - intros user_goal tools st start_time st2 -> Hplan Hv.
    destruct (execute_plan_tools_spec task_plan (ToolRunner_init tools) user_goal st2)
      as (results & new & st3 & Hrun & (Hc & _) & Hnames & _).
    exists results, new, st3. split; [|split; [|exact Hnames]].
    + exists st2. auto.
    + destruct Hplan as (w1 & raw & w2 & _ & _ & _ & ->). exact Hc.
Qed.

(** *** Metrics and errors *)

Lemma run_stopped_by_planner user_goal tools st start_time w1 e w2 :
  time_time (world st) = (start_time, w1) ->
  planner_kickoff
    (plan_description (PyStr.join ", " (get_tool_names tools)) user_goal) w1
  = (Raise e, w2) ->
  run_orchestration user_goal tools st = (Raise e, with_world st w2).
Proof.
  intros Ht Hp. unfold run_orchestration.
  rewrite (bind_ok _ _ _ _ _ (clock_spec _ _ _ _ Ht)).
  now rewrite (bind_raise _ _ _ (with_world st w2) e)
    by (apply (external_spec _ (with_world st w1)); exact Hp).
Qed.

Lemma judge_run_keeps goal plan final_answer trace (st : State) r st' :
  judge_run goal plan final_answer trace st = (r, st') ->
  storage st' = storage st /\ calls st' = calls st.
Proof.
  unfold judge_run, bind. rewrite invoke_llm_spec.
  destruct (llm_invoke _ (world st)) as [[raw|e] w]; simpl.
  - destruct (JudgeScore_model_validate_json raw) as [score|e].
    + unfold ret. intro H. inversion H; subst. auto.
    + assert (Hrepair :
        (let (r0, st0) := invoke_llm (fix_prompt raw) (asked st [judge_prompt goal plan final_answer trace] w) in
         match r0 with
         | Ok a => of_result (JudgeScore_model_validate_json a) st0
         | Raise e0 => (Raise e0, st0)
         end) = (r, st') -> storage st' = storage st /\ calls st' = calls st).
      { rewrite invoke_llm_spec.
        destruct (llm_invoke (fix_prompt raw) _) as [[raw2|e2] w2]; simpl;
          unfold of_result; intro H; inversion H; subst; auto. }
      destruct e; try exact Hrepair; unfold raise; intro H; inversion H; subst; auto.
  - intro H. inversion H; subst. auto.
Qed.

Lemma dispatched_keeps user_goal tools st start_time task_plan tool_results st3 :
  dispatched user_goal tools st start_time task_plan tool_results st3 ->
  storage st3 = storage st
  /\ exists new,
       calls st3 = calls st ++ new
       /\ dict_keys tool_results = map call_tool new
       /\ (forall c, In c new ->
             dict_get (call_tool c) tool_results = Some (entry_of (call_result c))).
Proof.
  intros (st2 & (w1 & raw & w2 & _ & _ & _ & ->) & _ & Hx).
  destruct (execute_plan_tools_spec task_plan (ToolRunner_init tools) user_goal
              (with_world st w2))
    as (results & new & st3' & Hrun & (Hc & _ & Hs) & Hnames & Hkeys & Hnew).
  rewrite Hx in Hrun. inversion Hrun; subst results st3'.
  split; [exact Hs|]. exists new. rewrite Hkeys, Hnames. auto.
Qed.

(** The run from a given answer of the executor on. *)
Lemma run_recorded user_goal tools st start_time task_plan tool_results st3
    raw_exec execution_succeeded execution_errors st4 score st5 :
  dispatched user_goal tools st start_time task_plan tool_results st3 ->
  run_executor (exec_description task_plan tool_results user_goal) st3
  = (Ok (raw_exec, execution_succeeded, execution_errors), st4) ->
  judge_run user_goal task_plan raw_exec None st4 = (Ok score, st5) ->
  exists res entry st',
    run_orchestration user_goal tools st = (Ok res, st')
    /\ storage st' = appended (storage st) (json_dumps entry ++ nl)
    /\ metrics.completed entry = execution_succeeded
    /\ metrics.errors entry = execution_errors
    /\ execution.completed res = execution_succeeded
    /\ execution.errors res = execution_errors
    /\ execution.final_answer res = raw_exec
    /\ execution.tool_results (execution.outputs res) = tool_results.
Proof.
  intros Hd Hexec Hjudge.
  rewrite (run_from_executor _ _ _ _ _ _ _ Hd).
  rewrite (bind_ok _ _ _ _ _ Hexec). cbv beta iota.
  rewrite (bind_ok _ _ _ _ _ Hjudge).
  destruct (record_run_spec user_goal start_time task_plan tool_results raw_exec
              execution_succeeded execution_errors score st5)
    as (res & entry & st' & Hrec & Hst & _ & _ & Hc & He & _ & _ & Hrc & Hre & Hfa & Htr & _).
  exists res, entry, st'. split; [exact Hrec|].
  destruct (dispatched_keeps _ _ _ _ _ _ _ Hd) as [Hs3 _].
  destruct (judge_run_keeps _ _ _ _ _ _ _ Hjudge) as [Hs5 _].
  assert (Hs4 : storage st4 = storage st3).
  { rewrite run_executor_spec in Hexec.
    destruct (executor_kickoff _ (world st3)) as [[a|e] w]; inversion Hexec; reflexivity. }
  rewrite Hst, Hs5, Hs4, Hs3. repeat split; assumption.
Qed.

Lemma run_raise_keeps_storage user_goal tools (st : State) e st' :
  run_orchestration user_goal tools st = (Raise e, st') ->
  storage st' = storage st.
Proof.
  intro H.
  destruct (time_time (world st)) as [start_time w1] eqn:Ht.
  destruct (planner_kickoff
              (plan_description (PyStr.join ", " (get_tool_names tools)) user_goal) w1)
    as [[raw|e1] w2] eqn:Hp.
  2: { rewrite (run_stopped_by_planner _ _ _ _ _ _ _ Ht Hp) in H.
       inversion H; subst. reflexivity. }
  destruct (parse_plan (sanitize raw)) as [task_plan|e1] eqn:Hparse.
  2: { rewrite (run_stopped_by_parse _ _ _ _ _ _ _ _ Ht Hp Hparse) in H.
       inversion H; subst. reflexivity. }
  assert (Hplan : planned user_goal tools st start_time task_plan (with_world st w2))
    by (exists w1, raw, w2; auto).
  destruct (validate_tools task_plan (get_tool_names tools)) as [[]|e1] eqn:Hv.
  2: { rewrite (run_stopped_by_gate _ _ _ _ _ _ _ Hplan Hv) in H.
       inversion H; subst. reflexivity. }
  destruct (execute_plan_tools_spec task_plan (ToolRunner_init tools) user_goal
              (with_world st w2))
    as (results & new & st3 & Hrun & _).
  assert (Hd : dispatched user_goal tools st start_time task_plan results st3)
    by (exists (with_world st w2); auto).
  destruct (run_executor (exec_description task_plan results user_goal) st3)
    as [[[[raw_exec ok] errs]|e1] st4] eqn:Hexec.
  2: { rewrite run_executor_spec in Hexec.
       destruct (executor_kickoff _ (world st3)) as [[a|e2] w]; discriminate. }
  destruct (judge_run user_goal task_plan raw_exec None st4) as [[score|e1] st5] eqn:Hj.
  - destruct (run_recorded _ _ _ _ _ _ _ _ _ _ _ _ _ Hd Hexec Hj)
      as (res & entry & st'' & Hr & _).
    rewrite Hr in H. discriminate.
  - rewrite (run_from_executor _ _ _ _ _ _ _ Hd) in H.
    rewrite (bind_ok _ _ _ _ _ Hexec) in H. cbv beta iota in H.
    rewrite (bind_raise _ _ _ _ _ Hj) in H. inversion H; subst.
    destruct (judge_run_keeps _ _ _ _ _ _ _ Hj) as [Hs5 _].
    destruct (dispatched_keeps _ _ _ _ _ _ _ Hd) as [Hs3 _].
    rewrite run_executor_spec in Hexec.
    destruct (executor_kickoff _ (world st3)) as [[a|e2] w]; inversion Hexec; subst;
      rewrite Hs5; exact Hs3.
Qed.

(** C4. A run that ends in an error leaves the metrics file as it was:
    so when the plan text does not parse, when the plan names a tool
    outside the allow-list, and when the judge's response fails validation
    twice. A run whose executor raises [e], the judge giving a score, ends
    normally with one line appended to the file, for an entry with
    [completed = False] and [errors = [str(e)]]. *)
Theorem fatal_errors_write_no_metric (user_goal : string) (tools : list Tool) (st : State) :
  (forall e st',
     run_orchestration user_goal tools st = (Raise e, st') ->
     storage st' = storage st)
  /\ (forall start_time w1 raw w2 e,
        time_time (world st) = (start_time, w1) ->
        planner_kickoff
          (plan_description (PyStr.join ", " (get_tool_names tools)) user_goal) w1
        = (Ok raw, w2) ->
        TaskPlan_model_validate_json (sanitize raw) = Raise e ->
        exists e' st',
          run_orchestration user_goal tools st = (Raise e', st')
          /\ storage st' = storage st)
  /\ (forall start_time task_plan st2 e,
        planned user_goal tools st start_time task_plan st2 ->
        validate_tools task_plan (get_tool_names tools) = Raise e ->
        run_orchestration user_goal tools st = (Raise e, st2)
        /\ storage st2 = storage st)
  /\ (forall start_time task_plan tool_results st3 raw_exec succeeded errs st4
             raw w e raw2 w2 e2,
        dispatched user_goal tools st start_time task_plan tool_results st3 ->
        run_executor (exec_description task_plan tool_results user_goal) st3
        = (Ok (raw_exec, succeeded, errs), st4) ->
        llm_invoke (judge_prompt user_goal task_plan raw_exec None) (world st4)
        = (Ok raw, w) ->
        JudgeScore_model_validate_json raw = Raise e ->
        llm_invoke (fix_prompt raw) w = (Ok raw2, w2) ->
        JudgeScore_model_validate_json raw2 = Raise e2 ->
        exists st',
          run_orchestration user_goal tools st = (Raise e2, st')
          /\ storage st' = storage st)
  /\ (forall start_time task_plan tool_results st3 e w4 score st5,
        dispatched user_goal tools st start_time task_plan tool_results st3 ->
        executor_kickoff (exec_description task_plan tool_results user_goal) (world st3)
        = (Raise e, w4) ->
        judge_run user_goal task_plan (cat ["Execution failed: "; str_exn e]) None
          (with_world st3 w4) = (Ok score, st5) ->
        exists res entry st',
          run_orchestration user_goal tools st = (Ok res, st')
          /\ storage st' = appended (storage st) (json_dumps entry ++ nl)
          /\ metrics.completed entry = false
          /\ metrics.errors entry = [str_exn e]
          /\ execution.completed res = false
          /\ execution.errors res = [str_exn e]).
Proof.
  split; [|split; [|split; [|split]]].
  - intros e st'. apply run_raise_keeps_storage.
  - intros start_time w1 raw w2 e Ht Hp Hv.
    assert (Hparse : exists e', parse_plan (sanitize raw) = Raise e').
    { unfold parse_plan. rewrite Hv. destruct e; eauto. }
    destruct Hparse as (e' & Hparse).
    exists e', (with_world st w2). split; [|reflexivity].
    eapply run_stopped_by_parse; eassumption.
  - intros start_time task_plan st2 e Hplan Hv.
    pose proof (run_stopped_by_gate _ _ _ _ _ _ _ Hplan Hv) as Hr.
    split; [exact Hr|]. eapply run_raise_keeps_storage. exact Hr.
  - intros start_time task_plan tool_results st3 raw_exec succeeded errs st4
           raw w e raw2 w2 e2 Hd Hexec H1 Hv1 H2 Hv2.
    pose proof (judge_run_second_response _ _ _ _ _ raw w e raw2 w2 H1 Hv1 H2) as Hrepair.
    rewrite Hv2 in Hrepair.
    eexists. split.
    + rewrite (run_from_executor _ _ _ _ _ _ _ Hd).
      rewrite (bind_ok _ _ _ _ _ Hexec). cbv beta iota.
      rewrite (bind_raise _ _ _ _ _ Hrepair). reflexivity.
    + destruct (judge_run_keeps _ _ _ _ _ _ _ Hrepair) as [Hs5 _].
      destruct (dispatched_keeps _ _ _ _ _ _ _ Hd) as [Hs3 _].
      rewrite run_executor_spec in Hexec.
      destruct (executor_kickoff _ (world st3)) as [[a|e3] w3]; inversion Hexec; subst;
        rewrite Hs5; exact Hs3.
  - intros start_time task_plan tool_results st3 e w4 score st5 Hd Hexec Hj.
    assert (Hx : run_executor (exec_description task_plan tool_results user_goal) st3
                 = (Ok (cat ["Execution failed: "; str_exn e], false, [str_exn e]),
                    with_world st3 w4))
      by (rewrite run_executor_spec, Hexec; reflexivity).
    destruct (run_recorded _ _ _ _ _ _ _ _ _ _ _ _ _ Hd Hx Hj)
      as (res & entry & st' & Hr & Hst & Hc & He & Hrc & Hre & _).
    exists res, entry, st'. repeat split; assumption.
Qed.

End Orchestration.

(** ** The metrics log *)

Section MetricsLog.
Context {E : Env}.

Lemma chars_append (s t : string) :
  PyStr.chars (s ++ t) = PyStr.chars s ++ PyStr.chars t.
Proof. induction s as [|c s IH]; simpl; [reflexivity | now f_equal]. Qed.

Lemma lines_from_plain (l more cur : list ascii) :
  Forall (fun c => line_break c = false) l ->
  lines_from false cur (l ++ "010"%char :: more)
  = PyStr.text (rev cur ++ l ++ ["010"%char]) :: lines_from false [] more.
Proof.
  intro H. revert cur. induction H as [|x l Hx _ IH]; intro cur.
  - simpl. reflexivity.
  - unfold line_break in Hx. apply orb_false_iff in Hx. destruct Hx as [H10 H13].
    simpl. rewrite H10, H13, IH. simpl. now rewrite <- app_assoc.
Qed.

Lemma lines_from_split (l more : list ascii) :
  forall (after_cr : bool) (cur : list ascii),
    (after_cr = true -> cur = []) ->
    lines_from after_cr cur (l ++ "010"%char :: more)
    = lines_from after_cr cur (l ++ ["010"%char]) ++ lines_from false [] more.
Proof.
  induction l as [|x l IH]; intros after_cr cur Hinv.
  - simpl. destruct after_cr.
    + rewrite (Hinv eq_refl). reflexivity.
    + reflexivity.
  - simpl. destruct (Ascii.eqb x "010").
    + destruct after_cr; [apply IH; discriminate|].
      rewrite IH by discriminate. reflexivity.
    + destruct (Ascii.eqb x "013").
      * rewrite IH by reflexivity. reflexivity.
      * apply IH. discriminate.
Qed.

Lemma file_lines_append (content more : string) :
  complete_lines content ->
  file_lines (content ++ more) = file_lines content ++ file_lines more.
Proof.
  intros [->|(body & ->)]; [reflexivity|].
  unfold file_lines. rewrite !chars_append. change (PyStr.chars nl) with ["010"%char].
  rewrite <- app_assoc. simpl app. now apply lines_from_split.
Qed.

Lemma file_lines_one (entry : metrics.MetricEntry) :
  round_trips entry -> file_lines (line_of entry) = [line_of entry].
Proof.
  intros (Hline & _). unfold file_lines, line_of. rewrite chars_append.
  change (PyStr.chars nl) with ["010"%char].
  rewrite lines_from_plain by exact Hline. simpl.
  f_equal.
  change (PyStr.chars (json_dumps entry) ++ ["010"%char])
    with (PyStr.chars (json_dumps entry) ++ PyStr.chars nl).
  rewrite <- chars_append. apply string_of_list_ascii_of_string.
Qed.

Lemma load_lines_app (l1 l2 : list string) (a b : list metrics.MetricEntry) :
  load_lines l1 = Ok a -> load_lines l2 = Ok b -> load_lines (l1 ++ l2) = Ok (a ++ b).
Proof.
  revert a. induction l1 as [|x l1 IH]; intros a H1 H2; simpl in *.
  - inversion H1; subst. exact H2.
  - destruct (String.eqb (PyStr.strip x) ""); [now apply IH|].
    destruct (json_loads x) as [entry|e]; [|discriminate].
    destruct (load_lines l1) as [entries|e]; [|discriminate].
    inversion H1; subst. rewrite (IH entries eq_refl H2). reflexivity.
Qed.

Lemma load_one (entry : metrics.MetricEntry) :
  round_trips entry -> load_lines [line_of entry] = Ok [entry].
Proof.
  intros (_ & Hblank & Hload). simpl. fold (line_of entry) in Hblank, Hload.
  destruct (String.eqb_spec (PyStr.strip (line_of entry)) ""); [contradiction|].
  now rewrite Hload.
Qed.

Lemma load_after_lines (entries : list metrics.MetricEntry) :
  Forall round_trips entries ->
  forall content old,
    complete_lines content ->
    load_lines (file_lines content) = Ok old ->
    load_lines (file_lines (content ++ cat (map line_of entries))) = Ok (old ++ entries).
Proof.
  induction 1 as [|entry entries Hentry _ IH]; intros content old Hc Hold.
  - simpl. now rewrite append_nil_r, app_nil_r.
  - cbn [map]. rewrite cat_cons, <- append_assoc.
    change (old ++ entry :: entries) with (old ++ [entry] ++ entries).
    rewrite app_assoc. apply IH.
    + right. exists (content ++ json_dumps entry)%string.
      unfold line_of. now rewrite append_assoc.
    + rewrite file_lines_append by exact Hc.
      apply load_lines_app; [exact Hold|].
      rewrite file_lines_one by exact Hentry. now apply load_one.
Qed.

Lemma log_each_spec (entries : list metrics.MetricEntry) :
  forall st, exists st',
    log_each entries st = (Ok tt, st')
    /\ storage st'
       = match entries with
         | [] => storage st
         | _ => Some (content_of (storage st) ++ cat (map line_of entries))%string
         end
    /\ calls st' = calls st /\ prompts st' = prompts st.
Proof.
  induction entries as [|entry entries IH]; intro st.
  - exists st. simpl. auto.
  - cbn [log_each]. unfold bind, log at 1, append_text at 1.
    match goal with |- context [log_each entries ?s] => destruct (IH s) as (st' & Hr & Hs & Hc & Hp) end.
    exists st'. rewrite Hr. split; [reflexivity|]. simpl in Hs, Hc, Hp.
    split; [|auto]. rewrite Hs. cbn [map]. rewrite cat_cons. fold (line_of entry).
    destruct entries as [|e2 es].
    + simpl. rewrite append_nil_r. now destruct (storage st).
    + destruct (storage st) as [content|]; simpl content_of.
      * unfold line_of at 2. now rewrite <- append_assoc.
      * reflexivity.
Qed.


End MetricsLog.

(** ** Statistics: [_goal_type_breakdown] *)

Lemma dict_get_set {V : Type} (k k' : string) (v : V) (d : list (string * V)) :
  dict_get k (dict_set k' v d) = if String.eqb k k' then Some v else dict_get k d.
Proof.
  induction d as [|[k0 v0] d IH]; simpl.
  - reflexivity.
  - destruct (String.eqb_spec k' k0) as [->|Hne]; simpl.
    + destruct (String.eqb k k0); reflexivity.
    + rewrite IH. destruct (String.eqb_spec k k0) as [->|Hne'].
      * destruct (String.eqb_spec k0 k'); [congruence | reflexivity].
      * reflexivity.
Qed.

Lemma dict_keys_set {V : Type} (k : string) (v : V) (d : list (string * V)) :
  dict_keys (dict_set k v d)
  = if dict_has k d then dict_keys d else dict_keys d ++ [k].
Proof.
  unfold dict_has, dict_keys. induction d as [|[k0 v0] d IH]; simpl; [reflexivity|].
  destruct (String.eqb k k0); simpl; [reflexivity|].
  rewrite IH. now destruct (dict_get k d).
Qed.

Lemma dedup_snoc (l : list string) (x : string) :
  dedup (l ++ [x]) = if mem x l then dedup l else dedup l ++ [x].
Proof.
  induction l as [|y l IH]; simpl; [reflexivity|].
  rewrite IH. unfold mem in *. simpl.
  destruct (String.eqb_spec x y) as [->|Hne]; simpl.
  - destruct (existsb (String.eqb y) l); [reflexivity|].
    rewrite filter_app. simpl. rewrite String.eqb_refl. simpl. now rewrite app_nil_r.
  - destruct (existsb (String.eqb x) l); [reflexivity|].
    rewrite filter_app. simpl.
    destruct (String.eqb_spec y x); [congruence|]. reflexivity.
Qed.

Lemma sum_values_set (k : string) (v : Z) (d : list (string * Z)) :
  PyNum.sum (map snd (dict_set k v d))
  = (PyNum.sum (map snd d)
     - match dict_get k d with Some n => n | None => 0 end + v)%Z.
Proof.
  induction d as [|[k0 v0] d IH]; simpl; [lia|].
  destruct (String.eqb k k0); simpl; [lia|]. rewrite IH. lia.
Qed.

Lemma breakdown_snoc (entries : list metrics.MetricEntry) (e : metrics.MetricEntry) :
  metrics._goal_type_breakdown (entries ++ [e])
  = dict_set (metrics.goal_type e)
      (match dict_get (metrics.goal_type e) (metrics._goal_type_breakdown entries) with
       | Some n => n | None => 0 end + 1)%Z
      (metrics._goal_type_breakdown entries).
Proof. unfold metrics._goal_type_breakdown. now rewrite fold_left_app. Qed.

Lemma count_type_snoc (t : string) entries e :
  count_type t (entries ++ [e])
  = (count_type t entries + if String.eqb (metrics.goal_type e) t then 1 else 0)%Z.
Proof.
  unfold count_type. rewrite filter_app, length_app. simpl.
  destruct (String.eqb (metrics.goal_type e) t); simpl; lia.
Qed.

Lemma count_type_zero (t : string) entries :
  ~ In t (map metrics.goal_type entries) -> count_type t entries = 0%Z.
Proof.
  unfold count_type. induction entries as [|e l IH]; simpl; [reflexivity|].
  intro H. destruct (String.eqb_spec (metrics.goal_type e) t); [tauto|]. apply IH. tauto.
Qed.

Lemma breakdown_get (entries : list metrics.MetricEntry) (t : string) :
  dict_get t (metrics._goal_type_breakdown entries)
  = if mem t (map metrics.goal_type entries) then Some (count_type t entries) else None.
Proof.
  induction entries as [|e l IH] using rev_ind; [reflexivity|].
  rewrite breakdown_snoc, dict_get_set, count_type_snoc, map_app.
  unfold mem in *. rewrite existsb_app. simpl. rewrite orb_false_r.
  destruct (String.eqb_spec t (metrics.goal_type e)) as [->|Hne].
  - rewrite String.eqb_refl, orb_true_r. rewrite IH.
    destruct (existsb _ _) eqn:Hm; [reflexivity|].
    rewrite count_type_zero; [reflexivity|].
    intro Hin. apply mem_true_iff in Hin. unfold mem in Hin. congruence.
  - rewrite orb_false_r, IH.
    destruct (String.eqb_spec (metrics.goal_type e) t); [congruence|].
    now rewrite Z.add_0_r.
Qed.

Lemma breakdown_keys (entries : list metrics.MetricEntry) :
  dict_keys (metrics._goal_type_breakdown entries) = dedup (map metrics.goal_type entries).
Proof.
  induction entries as [|e l IH] using rev_ind; [reflexivity|].
  rewrite breakdown_snoc, dict_keys_set, map_app. cbn [map]. rewrite dedup_snoc, IH.
  unfold dict_has. rewrite breakdown_get. now destruct (mem _ _).
Qed.

Lemma breakdown_total (entries : list metrics.MetricEntry) :
  PyNum.sum (map snd (metrics._goal_type_breakdown entries))
  = Z.of_nat (List.length entries).
Proof.
  induction entries as [|e l IH] using rev_ind; [reflexivity|].
  rewrite breakdown_snoc, sum_values_set, IH, length_app. simpl. lia.
Qed.

(** X1. [_goal_type_breakdown] has one key for each goal type that occurs,
    in the order of first occurrence; the value of a key is the number of
    entries of that type, at least 1; a type that does not occur has no
    key; the values add up to the number of entries. *)
Theorem goal_type_breakdown_counts (entries : list metrics.MetricEntry) :
  let breakdown := metrics._goal_type_breakdown entries in
  dict_keys breakdown = dedup (map metrics.goal_type entries)
  /\ NoDup (dict_keys breakdown)
  /\ (forall e, In e entries ->
        dict_get (metrics.goal_type e) breakdown
        = Some (count_type (metrics.goal_type e) entries)
        /\ (1 <= count_type (metrics.goal_type e) entries)%Z)
  /\ (forall t, dict_get t breakdown = None <-> ~ In t (map metrics.goal_type entries))
  /\ PyNum.sum (map snd breakdown) = Z.of_nat (List.length entries).
Proof.
  intro breakdown. unfold breakdown. split; [apply breakdown_keys|].
  split; [rewrite breakdown_keys; apply NoDup_dedup|].
  split; [|split; [|apply breakdown_total]].
  - intros e He. rewrite breakdown_get.
    assert (Hin : In (metrics.goal_type e) (map metrics.goal_type entries))
      by now apply in_map.
    apply mem_true_iff in Hin. rewrite Hin. split; [reflexivity|].
    unfold count_type.
    assert (In e (filter (fun e0 => String.eqb (metrics.goal_type e0) (metrics.goal_type e))
                    entries)).
    { apply filter_In. split; [exact He | apply String.eqb_refl]. }
    destruct (filter _ entries); [contradiction | simpl; lia].
  - intro t. rewrite breakdown_get. rewrite <- mem_true_iff.
    destruct (mem t _); split; intro H; try discriminate; try congruence.
Qed.

(** ** Statistics: [get_stats] *)

Lemma py_slice_from {A : Type} (l : list A) (a : Z) :
  (0 <= a)%Z -> py_slice l (Some a) None = skipn (Z.to_nat a) l.
Proof.
  intro Ha. unfold py_slice, slice_index.
  replace (a <? 0)%Z with false by (symmetry; apply Z.ltb_ge; lia).
  destruct (Z.le_gt_cases a (Z.of_nat (List.length l))) as [H|H].
  - rewrite Z.min_r, Z.max_r by lia. apply firstn_all2. rewrite length_skipn. lia.
  - rewrite Z.min_l, Z.max_r by lia. rewrite Z.sub_diag. simpl.
    symmetry. apply skipn_all2. lia.
Qed.

Lemma py_slice_last {A : Type} (l : list A) (n : Z) :
  (0 < n)%Z -> py_slice l (Some (- n)%Z) None = skipn (List.length l - Z.to_nat n) l.
Proof.
  intro Hn. destruct (Z.le_gt_cases n (Z.of_nat (List.length l))) as [H|H].
  - apply py_slice_tail. lia.
  - unfold py_slice, slice_index.
    replace (- n <? 0)%Z with true by (symmetry; apply Z.ltb_lt; lia).
    rewrite Z.min_r, Z.max_l by lia.
    replace (List.length l - Z.to_nat n) with 0 by lia. simpl.
    apply firstn_all2. lia.
Qed.

Lemma last_entries_positive entries (n : Z) :
  (0 < n)%Z ->
  metrics.last_entries entries (Some n) = skipn (List.length entries - Z.to_nat n) entries.
Proof.
  intro Hn. unfold metrics.last_entries.
  replace (n =? 0)%Z with false by (symmetry; apply Z.eqb_neq; lia).
  now apply py_slice_last.
Qed.

Lemma last_entries_negative entries (n : Z) :
  (n < 0)%Z -> metrics.last_entries entries (Some n) = skipn (Z.to_nat (- n)) entries.
Proof.
  intro Hn. unfold metrics.last_entries.
  replace (n =? 0)%Z with false by (symmetry; apply Z.eqb_neq; lia).
  apply py_slice_from. lia.
Qed.

Lemma get_stats_from_selected entries last_n :
  metrics.get_stats_from entries last_n = metrics.get_stats_from (metrics.last_entries entries last_n) None.
Proof. reflexivity. Qed.

Lemma mean_float_raises (l : list PyNum.float) (e : exn) :
  PyNum.mean_float l = Raise e ->
  (l = [] /\ e = PyNum.StatisticsError)
  \/ (l <> [] /\ e = OverflowError "integer division result too large for a float").
Proof.
  destruct l as [|x l].
  - simpl. intro H. inversion H. now left.
  - unfold PyNum.mean_float. destruct (filter _ _); [|discriminate].
    intro H. apply int_truediv_raises in H. right. split; [discriminate | exact H].
Qed.

Lemma trend_raises (entries : list metrics.MetricEntry) (e : exn) :
  metrics._calculate_trend entries 5 = Raise e ->
  e = OverflowError "integer division result too large for a float"
  \/ e = OverflowError "int too large to convert to float".
Proof.
  destruct (Nat.lt_ge_cases (List.length entries) 10) as [H|H].
  - rewrite trend_short by exact H. discriminate.
  - apply trend_outcomes. exact H.
Qed.

(** The statistics of a list that is not empty: the summary, or the
    [OverflowError] of a mean or of the trend. *)
Lemma summary_cases (entries : list metrics.MetricEntry) :
  entries <> [] ->
  (exists s, metrics.get_stats_from entries None = Ok (metrics.stats_summary s)
             /\ metrics.total_runs s = Z.of_nat (List.length entries)
             /\ metrics.goal_type_breakdown s = metrics._goal_type_breakdown entries
             /\ metrics._calculate_trend entries 5 = Ok (metrics.recent_trend s))
  \/ (exists msg, metrics.get_stats_from entries None = Raise (OverflowError msg)).
Proof.
  intro Hne. unfold metrics.get_stats_from. cbn [metrics.last_entries].
  destruct entries as [|e0 l0]; [congruence|].
  set (entries := e0 :: l0) in *.
  assert (Hm : forall (f : metrics.MetricEntry -> Z) e,
             PyNum.mean (map f entries) = Raise e -> exists msg, e = OverflowError msg).
  { intros f e H. destruct (mean_raises _ _ H) as [[Hnil _]|[_ ->]]; [discriminate | eauto]. }
  destruct (PyNum.mean (map metrics.success_score entries)) as [a|e] eqn:Ha.
  2: { right. destruct (Hm _ _ Ha) as [msg ->]. now exists msg. }
  destruct (PyNum.mean (map metrics.plan_score entries)) as [b|e] eqn:Hb.
  2: { right. destruct (Hm _ _ Hb) as [msg ->]. now exists msg. }
  destruct (PyNum.mean (map metrics.reasoning_score entries)) as [c|e] eqn:Hc.
  2: { right. destruct (Hm _ _ Hc) as [msg ->]. now exists msg. }
  destruct (PyNum.mean_float (map metrics.execution_time_seconds entries)) as [d|e] eqn:Hd.
  2: { right. destruct (mean_float_raises _ _ Hd) as [[Hnil _]|[_ ->]]; [discriminate|].
       eexists. reflexivity. }
  destruct (metrics._calculate_trend entries 5) as [t|e] eqn:Ht.
  2: { right. destruct (trend_raises _ _ Ht) as [-> | ->]; eexists; reflexivity. }
  left. eexists. split; [reflexivity|]. simpl. auto.
Qed.

Lemma get_stats_from_cases entries last_n :
  (metrics.last_entries entries last_n = []
   /\ metrics.get_stats_from entries last_n = Ok (metrics.stats_error "No metrics available"))
  \/ (metrics.last_entries entries last_n <> []
      /\ ((exists s, metrics.get_stats_from entries last_n = Ok (metrics.stats_summary s)
           /\ metrics.total_runs s = Z.of_nat (List.length (metrics.last_entries entries last_n))
           /\ metrics.goal_type_breakdown s = metrics._goal_type_breakdown (metrics.last_entries entries last_n)
           /\ metrics._calculate_trend (metrics.last_entries entries last_n) 5
              = Ok (metrics.recent_trend s))
          \/ (exists msg, metrics.get_stats_from entries last_n = Raise (OverflowError msg)))).
Proof.
  rewrite get_stats_from_selected.
  destruct (metrics.last_entries entries last_n) as [|e l] eqn:Hl.
  - left. auto.
  - right. split; [discriminate|]. apply summary_cases. discriminate.
Qed.

(** A summary that [get_stats] returned. *)
Lemma get_stats_from_summary entries last_n (s : metrics.Stats) :
  metrics.get_stats_from entries last_n = Ok (metrics.stats_summary s) ->
  metrics.last_entries entries last_n <> []
  /\ metrics.total_runs s = Z.of_nat (List.length (metrics.last_entries entries last_n))
  /\ metrics.goal_type_breakdown s = metrics._goal_type_breakdown (metrics.last_entries entries last_n)
  /\ metrics._calculate_trend (metrics.last_entries entries last_n) 5
     = Ok (metrics.recent_trend s).
Proof.
  intro Hs.
  destruct (get_stats_from_cases entries last_n)
    as [[Hl Hs']|[Hl [(s' & Hs' & H)|[msg Hs']]]]; rewrite Hs in Hs'; inversion Hs'; subst.
  split; [exact Hl | exact H].
Qed.

Lemma skipn_nil_iff {A : Type} (n : nat) (l : list A) :
  skipn n l = [] <-> List.length l <= n.
Proof.
  split; intro H.
  - apply (f_equal (@List.length A)) in H. rewrite length_skipn in H. simpl in H. lia.
  - now apply skipn_all2.
Qed.

Lemma last_entries_nil entries last_n :
  metrics.last_entries entries last_n = []
  <-> entries = []
      \/ exists n, last_n = Some n /\ (n < 0)%Z /\ (Z.of_nat (List.length entries) <= - n)%Z.
Proof.
  destruct last_n as [n|]; cbn [metrics.last_entries].
  - destruct (Z.eqb_spec n 0) as [->|Hn0].
    + split; [auto|]. intros [H|(n & Hn & Hlt & _)]; [exact H|]. inversion Hn; lia.
    + destruct (Z.lt_trichotomy n 0) as [Hn|[Hn|Hn]]; [|lia|].
      * rewrite py_slice_from by lia. rewrite skipn_nil_iff. split.
        -- intro H. right. exists n. split; [reflexivity|]. split; [exact Hn|]. lia.
        -- intros [->|(m & Hm & _ & Hle)]; [simpl; lia|]. inversion Hm; subst. lia.
      * rewrite py_slice_last by lia. rewrite skipn_nil_iff. split.
        -- intro H. left. destruct entries; [reflexivity | cbn [List.length] in H; lia].
        -- intros [->|(m & Hm & Hlt & _)]; [simpl; lia|]. inversion Hm; subst. lia.
  - split; [auto|]. intros [H|(n & Hn & _)]; [exact H | discriminate].
Qed.

Section StatsFacts.
Context {E : Env}.

(** X2. [get_stats] reports \x22No metrics available\x22 exactly when no entry
    is left to count: no entry was loaded, or [last_n] is negative and
    drops them all. It has no other error text. The means and the trend
    never raise [StatisticsError]: the one exception of the statistics is
    the [OverflowError] of a mean or of a difference that is beyond the
    floats. A missing file is read as no entry, and [get_stats] leaves the
    file and the rest of the state as they were. *)
Theorem get_stats_reports_no_metrics (entries : list metrics.MetricEntry)
    (last_n : option Z) (st : State) :
  (metrics.get_stats_from entries last_n = Ok (metrics.stats_error "No metrics available")
   <-> entries = []
       \/ exists n, last_n = Some n /\ (n < 0)%Z
                    /\ (Z.of_nat (List.length entries) <= - n)%Z)
  /\ (forall e, metrics.get_stats_from entries last_n = Raise e ->
        exists msg, e = OverflowError msg)
  /\ (forall error, metrics.get_stats_from entries last_n = Ok (metrics.stats_error error) ->
        error = "No metrics available")
  /\ (storage st = None ->
      get_stats last_n st = (Ok (metrics.stats_error "No metrics available"), st))
  /\ (forall r st', get_stats last_n st = (r, st') -> st' = st).
Proof.
  split; [|split; [|split; [|split]]].
  - rewrite <- last_entries_nil.
    destruct (get_stats_from_cases entries last_n)
      as [[Hl Hs]|[Hl [(s & Hs & _)|[msg Hs]]]];
      rewrite Hs; split; intro H; try reflexivity; try assumption; try discriminate;
      contradiction.
  - intro e.
    destruct (get_stats_from_cases entries last_n)
      as [[Hl Hs]|[Hl [(s & Hs & _)|[msg Hs]]]];
      rewrite Hs; intro H; inversion H. now exists msg.
  - intro error.
    destruct (get_stats_from_cases entries last_n)
      as [[Hl Hs]|[Hl [(s & Hs & _)|[msg Hs]]]];
      rewrite Hs; intro H; inversion H; reflexivity.
  - intro H. unfold get_stats, bind, load_all, of_result. rewrite H.
    rewrite get_stats_from_selected.
    now rewrite (proj2 (last_entries_nil [] last_n)) by (left; reflexivity).
  - intros r st'. unfold get_stats, bind, load_all, of_result.
    destruct (storage st) as [content|].
    + destruct (load_lines (file_lines content)); intro H; now inversion H.
    + intro H; now inversion H.
Qed.

End StatsFacts.

(** X3. With [last_n] above 0 the statistics are those of the last [last_n]
    entries, of all of them when there are fewer; [last_n = 0] is read as
    no [last_n]. A history that is not empty never gives the error dict
    then, and in a summary that comes back [total_runs] is the smaller of
    [last_n] and the number of entries, and the counts of the goal type
    breakdown add up to it. *)
Theorem get_stats_last_n (entries : list metrics.MetricEntry) (n : Z) :
  (0 < n)%Z -> entries <> [] ->
  metrics.get_stats_from entries (Some n)
  = metrics.get_stats_from (skipn (List.length entries - Z.to_nat n) entries) None
  /\ metrics.get_stats_from entries (Some 0%Z) = metrics.get_stats_from entries None
  /\ (forall error,
        metrics.get_stats_from entries (Some n) = Ok (metrics.stats_error error) -> False)
  /\ (forall s,
        metrics.get_stats_from entries (Some n) = Ok (metrics.stats_summary s) ->
        metrics.total_runs s = Z.min n (Z.of_nat (List.length entries))
        /\ PyNum.sum (map snd (metrics.goal_type_breakdown s)) = metrics.total_runs s).
Proof.
  intros Hn Hne.
  split; [|split; [|split]].
  - rewrite get_stats_from_selected. now rewrite last_entries_positive.
  - reflexivity.
  - intros error H.
    destruct (get_stats_from_cases entries (Some n))
      as [[Hl Hs]|[Hl [(s & Hs & _)|[msg Hs]]]]; rewrite Hs in H; try discriminate.
    apply last_entries_nil in Hl. destruct Hl as [Hl|(m & Hm & Hlt & _)]; [contradiction|].
    inversion Hm; lia.
  - intros s Hs. destruct (get_stats_from_summary _ _ _ Hs) as (_ & Ht & Hb & _).
    rewrite Hb, breakdown_total, Ht.
    rewrite last_entries_positive by exact Hn. rewrite length_skipn. split; lia.
Qed.

(** X4. A negative [last_n], which [scripts/view_metrics.py] passes on from
    its command line, does not select the last entries: [entries[-last_n:]]
    then skips the first [-last_n] entries and the statistics are those of
    the rest. *)
Theorem get_stats_negative_last_n (entries : list metrics.MetricEntry) (n : Z) :
  (n < 0)%Z ->
  metrics.get_stats_from entries (Some n)
  = metrics.get_stats_from (skipn (Z.to_nat (- n)) entries) None
  /\ forall s, metrics.get_stats_from entries (Some n) = Ok (metrics.stats_summary s) ->
       metrics.total_runs s = (Z.of_nat (List.length entries) + n)%Z.
Proof.
  intro Hn. split.
  - rewrite get_stats_from_selected. now rewrite last_entries_negative.
  - intros s Hs. destruct (get_stats_from_summary _ _ _ Hs) as (Hl & Ht & _).
    rewrite Ht, last_entries_negative by exact Hn. rewrite length_skipn.
    assert (List.length (skipn (Z.to_nat (- n)) entries) <> 0).
    { rewrite <- last_entries_negative by exact Hn. destruct (metrics.last_entries _ _); [congruence|discriminate]. }
    rewrite length_skipn in H. lia.
Qed.

Lemma trend_tail (old tail : list metrics.MetricEntry) (window : Z) :
  (0 < window)%Z -> Z.of_nat (List.length tail) = (2 * window)%Z ->
  metrics._calculate_trend (old ++ tail) window = metrics._calculate_trend tail window.
Proof.
  intros Hw Hl. unfold metrics._calculate_trend.
  rewrite length_app.
  replace (Z.of_nat (List.length old + List.length tail) <? window * 2)%Z with false
    by (symmetry; apply Z.ltb_ge; lia).
  replace (Z.of_nat (List.length tail) <? window * 2)%Z with false
    by (symmetry; apply Z.ltb_ge; lia).
  rewrite !py_slice_tail by (rewrite ?length_app; lia).
  rewrite !py_slice_middle by (rewrite ?length_app; lia).
  rewrite length_app.
  replace (List.length old + List.length tail - Z.to_nat window)
    with (List.length old + (List.length tail - Z.to_nat window)) by lia.
  replace (List.length old + List.length tail - Z.to_nat (window * 2))
    with (List.length old + (List.length tail - Z.to_nat (window * 2))) by lia.
  rewrite !skipn_app.
  rewrite !(skipn_all2 old) by lia.
  replace (List.length old + _ - List.length old) with (List.length tail - Z.to_nat window) by lia.
  replace (List.length old + _ - List.length old) with (List.length tail - Z.to_nat (window * 2)) by lia.
  reflexivity.
Qed.

Lemma trend_last_ten (entries : list metrics.MetricEntry) (k : nat) :
  10 <= List.length (skipn k entries) ->
  metrics._calculate_trend (skipn k entries) 5 = metrics._calculate_trend entries 5.
Proof.
  intro H. rewrite length_skipn in H.
  rewrite <- (firstn_skipn (List.length entries - 10) entries) at 2.
  rewrite trend_tail; [|lia|rewrite length_skipn; lia].
  rewrite <- (firstn_skipn (List.length entries - k - 10) (skipn k entries)).
  rewrite trend_tail; [|lia|rewrite !length_skipn; lia].
  rewrite skipn_skipn. f_equal. f_equal. lia.
Qed.

(** X6. The trend depends on the last [2 * window] entries only: entries
    logged before them do not change it. *)
Theorem trend_uses_last_entries (old tail : list metrics.MetricEntry) (window : Z) :
  (0 < window)%Z -> Z.of_nat (List.length tail) = (2 * window)%Z ->
  metrics._calculate_trend (old ++ tail) window = metrics._calculate_trend tail window.
Proof. apply trend_tail. Qed.

(** X5. The trend that [get_stats] reports is computed on the selected
    entries: with [last_n] from 1 to 9 it is always \x22insufficient_data\x22,
    whatever the history; with [last_n] of 10 or more it is the trend of
    the whole history. *)
Theorem get_stats_trend_window (entries : list metrics.MetricEntry) (n : Z) (s : metrics.Stats) :
  (0 < n)%Z ->
  metrics.get_stats_from entries (Some n) = Ok (metrics.stats_summary s) ->
  ((n < 10)%Z -> metrics.recent_trend s = "insufficient_data")
  /\ ((10 <= n)%Z -> metrics._calculate_trend entries 5 = Ok (metrics.recent_trend s)).
Proof.
  intros Hn Hs.
  destruct (get_stats_from_summary _ _ _ Hs) as (_ & _ & _ & Ht).
  rewrite last_entries_positive in Ht by exact Hn.
  split; intro Hlt.
  - unfold metrics._calculate_trend in Ht. rewrite length_skipn in Ht.
    replace (Z.of_nat (List.length entries - (List.length entries - Z.to_nat n)) <? 5 * 2)%Z
      with true in Ht by (symmetry; apply Z.ltb_lt; lia).
    now inversion Ht.
  - destruct (Nat.lt_ge_cases (List.length entries) 10) as [H|H].
    + replace (List.length entries - Z.to_nat n) with 0 in Ht by lia. exact Ht.
    + rewrite trend_last_ten in Ht; [exact Ht|]. rewrite length_skipn. lia.
Qed.

(** ** Goal types and cities *)

Lemma chars_text (l : list ascii) : PyStr.chars (PyStr.text l) = l.
Proof. apply list_ascii_of_string_of_list_ascii. Qed.

Lemma text_chars (s : string) : PyStr.text (PyStr.chars s) = s.
Proof. apply string_of_list_ascii_of_string. Qed.

Lemma text_app (a b : list ascii) :
  PyStr.text (a ++ b) = (PyStr.text a ++ PyStr.text b)%string.
Proof. induction a as [|x a IH]; simpl; [reflexivity | now f_equal]. Qed.

Lemma lower_append (s t : string) :
  PyStr.lower (s ++ t) = (PyStr.lower s ++ PyStr.lower t)%string.
Proof.
  unfold PyStr.lower. now rewrite chars_append, map_app, text_app.
Qed.

Lemma prefix_chars_app (p l : list ascii) : PyStr.prefix_chars p (p ++ l) = true.
Proof.
  induction p as [|x p IH]; simpl; [reflexivity|]. now rewrite Ascii.eqb_refl.
Qed.

Lemma infix_chars_app (p a b : list ascii) : PyStr.infix_chars p (a ++ p ++ b) = true.
Proof.
  induction a as [|x a IH]; simpl.
  - assert (H : forall l, PyStr.infix_chars p l
                          = PyStr.prefix_chars p l
                            || match l with [] => false | _ :: l' => PyStr.infix_chars p l' end)
      by (intro l; destruct l; reflexivity).
    now rewrite H, prefix_chars_app.
  - rewrite IH. apply orb_true_r.
Qed.

Lemma contains_middle (p a b : string) : PyStr.contains p (a ++ p ++ b) = true.
Proof.
  unfold PyStr.contains. rewrite !chars_append. apply infix_chars_app.
Qed.

(** X7. A goal that holds one of the words weather, temperature or forecast,
    in any letter case and anywhere in its text, is of type \x22weather\x22,
    whichever words of the other types it also holds. *)
Theorem weather_words_win (before word after : string) :
  In (PyStr.lower word) ["weather"; "temperature"; "forecast"] ->
  metrics.infer_goal_type (before ++ word ++ after) = "weather".
Proof.
  intro Hw. unfold metrics.infer_goal_type.
  replace (metrics.any_in _ _) with true; [reflexivity|].
  symmetry. unfold metrics.any_in. apply existsb_exists.
  exists (PyStr.lower word). split; [exact Hw|].
  rewrite !lower_append. apply contains_middle.
Qed.

Lemma derives_groupless r c g c' g' :
  derives r c g c' g' -> groupless r = true -> g' = g.
Proof.
  induction 1; simpl; intro Hg; try reflexivity; try discriminate.
  - apply andb_prop in Hg. destruct Hg as [H1 H2].
    rewrite (IHderives2 H2). now apply IHderives1.
  - apply andb_prop in Hg. now apply IHderives.
  - apply andb_prop in Hg. now apply IHderives.
  - rewrite (IHderives2 Hg). now apply IHderives1.
Qed.

Lemma derives_reads r c g c' g' :
  derives r c g c' g' ->
  exists t, rest c = t ++ rest c' /\ pos c' = pos c + List.length t.
Proof.
  induction 1; try (exists []; simpl; split; [reflexivity | lia]).
  - apply advance_inv in H. destruct H as [Hr Hp]. exists [x]. simpl. split; [exact Hr | lia].
  - destruct IHderives1 as (t1 & R1 & P1), IHderives2 as (t2 & R2 & P2).
    exists (t1 ++ t2). rewrite R1, R2, P2, P1, length_app, app_assoc. split; [reflexivity | lia].
  - exact IHderives.
  - exact IHderives.
  - destruct IHderives1 as (t1 & R1 & P1), IHderives2 as (t2 & R2 & P2).
    exists (t1 ++ t2). rewrite R1, R2, P2, P1, length_app, app_assoc. split; [reflexivity | lia].
  - exact IHderives.
Qed.

(** What group 1 holds when it is followed by patterns without a group. *)
Lemma derives_group_then (pre post : list regex) (body : regex) :
  groupless (seqs post) = true ->
  forall c g c' g',
    derives (seqs (pre ++ Grp 1 body :: post)) c g c' g' ->
    exists c1 g1 c2, derives body c1 g1 c2 (tl g')
                     /\ hd_error g' = Some (1, firstn (pos c2 - pos c1) (rest c1)).
Proof.
  intro Hpost. induction pre as [|r pre IH]; intros c g c' g' H; simpl in H.
  - inversion H; subst.
    match goal with
    | D1 : derives (Grp 1 body) _ _ _ _, D2 : derives (seqs post) _ _ _ _ |- _ =>
        apply derives_groupless in D2; [|exact Hpost]; subst; inversion D1; subst
    end.
    simpl. eauto.
  - inversion H; subst. eapply IH. eassumption.
Qed.

Lemma lower_not_space (x : ascii) : a_z x = true -> PyStr.isspace x = false.
Proof.
  unfold a_z, PyStr.islower, PyStr.isspace. intro H.
  apply andb_prop in H. destruct H as [H1 H2].
  apply Nat.leb_le in H1.
  replace (PyStr.code x <=? 13) with false by (symmetry; apply Nat.leb_gt; lia).
  replace (PyStr.code x <=? 32) with false by (symmetry; apply Nat.leb_gt; lia).
  now rewrite !andb_false_r.
Qed.

Lemma derives_plus_first (p : ascii -> bool) c g c' g' :
  derives (Plus true (Cls p)) c g c' g' ->
  exists x t, rest c = (x :: t) ++ rest c' /\ p x = true
              /\ Forall (fun y => p y = true) t
              /\ pos c' = pos c + S (List.length t) /\ g' = g.
Proof.
  intro H. inversion H; subst.
  match goal with
  | H1 : derives (Cls p) _ _ _ _, H2 : derives (Star _ _) _ _ _ _ |- _ =>
      apply derives_cls_inv in H1; destruct H1 as (x & R1 & Px & P1 & G1);
      apply derives_star_cls in H2; destruct H2 as (t & R2 & Ft & P2 & G2)
  end.
  exists x, t. simpl. rewrite R1, R2, P2, P1, G2, G1. repeat split; auto; lia.
Qed.

(** A group that starts with a letter. *)
Lemma derives_letter_first (tail : regex) c g c' g' :
  derives (Seq (Plus true (Cls a_z)) tail) c g c' g' ->
  exists x t, firstn (pos c' - pos c) (rest c) = x :: t /\ a_z x = true.
Proof.
  intro H. inversion H; subst.
  match goal with
  | D1 : derives (Plus true (Cls a_z)) _ _ _ _, D2 : derives tail _ _ _ _ |- _ =>
      apply derives_plus_first in D1; destruct D1 as (x & t1 & R1 & Ax & F1 & P1 & _);
      apply derives_reads in D2; destruct D2 as (t2 & R2 & P2)
  end.
  exists x. rewrite R1, P2, P1.
  replace (pos c + S (List.length t1) + List.length t2 - pos c)
    with (S (List.length t1 + List.length t2)) by lia.
  simpl. eauto.
Qed.

Lemma lstrip_keeps (l : list ascii) :
  Exists (fun x => PyStr.isspace x = false) l -> PyStr.lstrip_chars l <> [].
Proof.
  induction 1 as [x l Hx | x l _ IH]; simpl.
  - rewrite Hx. discriminate.
  - destruct (PyStr.isspace x); [exact IH | discriminate].
Qed.

Lemma strip_letter_first (x : ascii) (t : list ascii) :
  PyStr.isspace x = false -> PyStr.strip (PyStr.text (x :: t)) <> "".
Proof.
  intro Hx. unfold PyStr.strip. rewrite chars_text.
  cbn [PyStr.lstrip_chars]. rewrite Hx. unfold PyStr.rstrip_chars.
  assert (H : PyStr.lstrip_chars (rev (x :: t)) <> []).
  { apply lstrip_keeps. apply Exists_exists. exists x. split; [|exact Hx].
    apply in_rev. rewrite rev_involutive. now left. }
  destruct (PyStr.lstrip_chars (rev (x :: t))) as [|y l] eqn:Hl; [congruence|].
  intro Hs. apply (f_equal String.length) in Hs.
  change String.length with PyStr.len in Hs. rewrite len_text in Hs.
  rewrite length_rev in Hs. discriminate.
Qed.

Lemma title_not_empty (s : string) : s <> "" -> PyStr.title s <> "".
Proof.
  destruct s as [|c s]; [congruence|]. intros _. unfold PyStr.title. simpl.
  destruct (PyStr.islower c); [discriminate|].
  destruct (PyStr.isupper c); discriminate.
Qed.

Lemma titled_group_not_empty (pre post : list regex) (tail : regex)
    (subject city : string) :
  groupless (seqs post) = true ->
  titled_group (seqs (pre ++ Grp 1 (Seq (Plus true (Cls a_z)) tail) :: post)) subject
  = Some city ->
  city <> "".
Proof.
  intros Hpost H. unfold titled_group in H.
  destruct (search _ subject) as [m|] eqn:Hs; [|discriminate].
  unfold search in Hs. apply search_from_sound in Hs. destruct Hs as (c & c' & D).
  apply derives_group_then in D; [|exact Hpost].
  destruct D as (c1 & g1 & c2 & D & Hg).
  apply derives_letter_first in D. destruct D as (x & t & Hx & Ax).
  rewrite Hx in Hg. unfold group in H.
  destruct (m_groups m) as [|[i u] gs]; [discriminate|].
  simpl in Hg. inversion Hg; subst. simpl in H. inversion H; subst.
  apply title_not_empty. apply strip_letter_first. now apply lower_not_space.
Qed.

Lemma capitalized_word_not_empty (words : list string) (city : string) :
  capitalized_word words = Some city -> city <> "".
Proof.
  induction words as [|w rest IH]; simpl; [discriminate|].
  destruct (first_char_isupper w) eqn:Hw; simpl; [|exact IH].
  destruct (2 <? PyStr.len w); [|exact IH].
  destruct w as [|a w]; [discriminate|].
  destruct rest as [|next rest']; [intro H; inversion H; discriminate|].
  destruct (first_char_isupper next); intro H; inversion H; discriminate.
Qed.

Lemma extract_city_not_empty (text : string) : extract_city text <> "".
Proof.
  unfold extract_city.
  destruct (titled_group city_after_in_for _) as [city|] eqn:Ha.
  { change city_after_in_for
      with (seqs ([WordB; Alt (Lit "in") (Lit "for"); Plus true (Cls space)]
                  ++ Grp 1 (Seq (Plus true (Cls a_z))
                                (Star false (Seq (Plus true (Cls space)) (Plus true (Cls a_z)))))
                  :: [alts [ Seq (Plus true (Cls space)) (Lit "weather"); Eol; Chr "?"; Chr "," ]]))
      in Ha.
    eapply titled_group_not_empty; [|exact Ha]. reflexivity. }
  destruct (titled_group city_before_weather _) as [city|] eqn:Hb.
  { change city_before_weather
      with (seqs ([WordB]
                  ++ Grp 1 (Seq (Plus true (Cls a_z))
                                (Opt true (Seq (Plus true (Cls space)) (Plus true (Cls a_z)))))
                  :: [Plus true (Cls space); Lit "weather"]))
      in Hb.
    eapply titled_group_not_empty; [|exact Hb]. reflexivity. }
  destruct (capitalized_word _) as [city|] eqn:Hc.
  { eapply capitalized_word_not_empty. exact Hc. }
  destruct (abbreviation city_map _) as [city|] eqn:Hd; [|discriminate].
  unfold city_map in Hd. simpl in Hd.
  repeat match type of Hd with
         | (if ?b then _ else _) = _ => destruct b; [inversion Hd; discriminate|]
         end.
  discriminate.
Qed.

(** X8. [extract_city] never returns the empty text: every rule that
    applies gives a city of at least one character, and the default is
    \x22New York\x22. *)
Theorem extract_city_is_never_empty (text : string) :
  1 <= PyStr.len (extract_city text).
Proof.
  pose proof (extract_city_not_empty text) as H.
  destruct (extract_city text); [congruence | simpl; lia].
Qed.

(** ** The arguments of the GitHub tools *)

Lemma derives_owner_repo_names c g c' g' :
  derives owner_repo c g c' g' ->
  exists a b, rest c = (a ++ "/"%char :: b) ++ rest c'
              /\ a <> [] /\ b <> []
              /\ Forall (fun x => repo_char x = true) a
              /\ Forall (fun x => repo_char x = true) b
              /\ pos c' = pos c + List.length (a ++ "/"%char :: b) /\ g' = g.
Proof.
  unfold owner_repo, seqs. cbn [fold_right]. intro H.
  inversion H as [ | | r1 r2 c0 g0 c1 g1 c2 g2 Da Hrest | | | | | | | | ]; subst. clear H.
  inversion Hrest as [ | | r1 r2 c0 g0 c3 g3 c4 g4 Dslash Hrest' | | | | | | | | ]; subst.
  clear Hrest.
  inversion Hrest' as [ | | r1 r2 c0 g0 c5 g5 c6 g6 Db Heps | | | | | | | | ]; subst.
  clear Hrest'. inversion Heps; subst. clear Heps.
  apply derives_plus_first in Da. destruct Da as (x & a & Ra & Px & Fa & Pa & Ga).
  apply derives_plus_first in Db. destruct Db as (y & b & Rb & Py & Fb & Pb & Gb).
  apply derives_cls_inv in Dslash. destruct Dslash as (z & Rz & Ez & Pz & Gz).
  apply Ascii.eqb_eq in Ez. subst z.
  exists (x :: a), (y :: b). rewrite Ra, Rz, Rb, Pb, Pz, Pa, Gb, Gz, Ga.
  split; [now rewrite <- app_assoc|].
  repeat split; auto; try discriminate.
  rewrite length_app. simpl. lia.
Qed.

Lemma derives_group_owner_repo_names c g c' g' :
  derives (Grp 1 owner_repo) c g c' g' ->
  exists a b, g' = (1, a ++ "/"%char :: b) :: g
              /\ a <> [] /\ b <> []
              /\ Forall (fun x => repo_char x = true) a
              /\ Forall (fun x => repo_char x = true) b.
Proof.
  intro H. inversion H; subst.
  match goal with D : derives owner_repo _ _ _ _ |- _ =>
    apply derives_owner_repo_names in D;
    destruct D as (a & b & Rr & Na & Nb & Fa & Fb & Pp & Gg)
  end.
  exists a, b. subst. rewrite Rr, Pp.
  replace (pos c + List.length (a ++ "/"%char :: b) - pos c)
    with (List.length (a ++ "/"%char :: b) + 0) by lia.
  rewrite firstn_app_2. simpl. rewrite app_nil_r. auto.
Qed.

Lemma repo_name_text (a : list ascii) :
  a <> [] -> Forall (fun x => repo_char x = true) a -> repo_name (PyStr.text a).
Proof.
  intros Ha Fa. split.
  - destruct a; [congruence | discriminate].
  - now rewrite chars_text.
Qed.

Lemma searched_repo_names (pre : list regex) (user_goal : string) (m : match_obj) :
  search (seqs (pre ++ [Grp 1 owner_repo])) user_goal = Some m ->
  exists owner repo t,
    group 1 m = Some t /\ unpack_owner_repo t = Ok (owner, repo)
    /\ repo_name owner /\ repo_name repo.
Proof.
  unfold search. intro H. apply search_from_sound in H.
  destruct H as (c & c' & D). apply derives_last_group in D.
  destruct D as (c1 & g1 & D). apply derives_group_owner_repo_names in D.
  destruct D as (a & b & Hg & Na & Nb & Fa & Fb).
  exists (PyStr.text a), (PyStr.text b), (PyStr.text (a ++ "/"%char :: b)).
  split; [|split; [now apply unpack_owner_repo_ok|split; now apply repo_name_text]].
  unfold group. rewrite Hg. reflexivity.
Qed.

Lemma default_repo_names :
  exists owner repo,
    unpack_owner_repo default_repo = Ok (owner, repo)
    /\ repo_name owner /\ repo_name repo.
Proof.
  exists "deepmehta27", "mcp-navigator-test".
  split; [vm_compute; reflexivity|].
  split; (split; [discriminate|]); simpl; repeat constructor.
Qed.

Lemma repo_or_default_names (pre : list regex) (user_goal : string) :
  exists owner repo,
    unpack_owner_repo (group1_or (seqs (pre ++ [Grp 1 owner_repo])) user_goal default_repo)
    = Ok (owner, repo)
    /\ repo_name owner /\ repo_name repo.
Proof.
  unfold group1_or.
  destruct (search _ user_goal) as [m|] eqn:Hs.
  - destruct (searched_repo_names _ _ _ Hs) as (o & r & t & Hg & Hu & Ho & Hr).
    rewrite Hg. eauto.
  - apply default_repo_names.
Qed.

(** X9. [tool_args] never raises, and the \x22owner\x22 and \x22repo\x22 it passes are
    always well formed: both present or both absent, and when present each
    a non-empty text of the characters [a-zA-Z0-9_-], so without a slash.
    [create_issue], [list_issues], [get_file_contents] and
    [create_or_update_file] always have them. *)
Theorem github_arguments_name_a_repository (tool_name user_goal : string)
    (results : list (string * string)) :
  exists a,
    tool_args tool_name user_goal results = Ok a
    /\ ((dict_get "owner" a = None /\ dict_get "repo" a = None)
        \/ exists owner repo,
             dict_get "owner" a = Some (VStr owner)
             /\ dict_get "repo" a = Some (VStr repo)
             /\ repo_name owner /\ repo_name repo)
    /\ (In tool_name ["create_issue"; "list_issues"; "get_file_contents";
                      "create_or_update_file"] ->
        dict_has "owner" a = true /\ dict_has "repo" a = true).
Proof.
  unfold tool_args.
  pose proof (repo_or_default_names
                [Alt (Lit "in") (Lit "for"); spaces; Opt true (Seq (Lit "repo") spaces)]
                user_goal) as (o1 & r1 & H1 & No1 & Nr1).
  pose proof (repo_or_default_names
                [alts [Lit "in"; Lit "for"; Lit "from"]; spaces;
                 Opt true (Seq (Lit "repo") spaces)]
                user_goal) as (o2 & r2 & H2 & No2 & Nr2).
  change (seqs (_ ++ _)) with repo_in_for in H1.
  change (seqs (_ ++ _)) with repo_in_for_from in H2.
  destruct (String.eqb_spec tool_name "tavily_search") as [->|N1].
  { eexists. split; [reflexivity|]. split; [left; split; reflexivity|].
    intros [H|[H|[H|[H|[]]]]]; discriminate. }
  destruct (String.eqb_spec tool_name "get_weather") as [->|N2].
  { eexists. split; [reflexivity|]. split; [left; split; reflexivity|].
    intros [H|[H|[H|[H|[]]]]]; discriminate. }
  destruct (String.eqb_spec tool_name "create_issue") as [->|N3].
  { rewrite H1. eexists. split; [reflexivity|]. split; [|split; reflexivity].
    right. exists o1, r1. repeat split; assumption || reflexivity || apply No1 || apply Nr1. }
  destruct (String.eqb_spec tool_name "list_issues") as [->|N4].
  { rewrite H2. eexists. split; [reflexivity|]. split; [|split; reflexivity].
    right. exists o2, r2. repeat split; assumption || reflexivity || apply No2 || apply Nr2. }
  destruct (String.eqb_spec tool_name "get_file_contents") as [->|N5].
  { rewrite H2. eexists. split; [reflexivity|]. split; [|split; reflexivity].
    right. exists o2, r2. repeat split; assumption || reflexivity || apply No2 || apply Nr2. }
  destruct (String.eqb_spec tool_name "create_or_update_file") as [->|N6].
  { rewrite H1. eexists. split; [reflexivity|]. split; [|split; reflexivity].
    right. exists o1, r1. repeat split; assumption || reflexivity || apply No1 || apply Nr1. }
  assert (Hnot : In tool_name ["create_issue"; "list_issues"; "get_file_contents";
                               "create_or_update_file"] -> False).
  { intros [H|[H|[H|[H|[]]]]]; congruence. }
  destruct (generic_github tool_name).
  - destruct (search repo_in_for_from user_goal) as [m|] eqn:Hs.
    + change repo_in_for_from
        with (seqs ([alts [Lit "in"; Lit "for"; Lit "from"]; spaces;
                     Opt true (Seq (Lit "repo") spaces)] ++ [Grp 1 owner_repo])) in Hs.
      destruct (searched_repo_names _ _ _ Hs) as (o & r & t & Hg & Hu & No & Nr).
      rewrite Hg, Hu. eexists. split; [reflexivity|]. split; [|intro H; now apply Hnot in H].
      right. exists o, r. repeat split; assumption || reflexivity || apply No || apply Nr.
    + eexists. split; [reflexivity|]. split; [left; split; reflexivity|].
      intro H; now apply Hnot in H.
  - eexists. split; [reflexivity|]. split; [left; split; reflexivity|].
    intro H; now apply Hnot in H.
Qed.

(** ** The title of an issue *)

Lemma star_loop_greedy_step {R : Type}
    (body : cursor -> groups -> (cursor -> groups -> option R) -> option R)
    (k : cursor -> groups -> option R) (n : nat) (c : cursor) (g : groups) :
  star_loop body true k (S n) c g
  = match body c g (fun c' g' =>
            if pos c <? pos c' then star_loop body true k n c' g' else None) with
    | Some x => Some x
    | None => k c g
    end.
Proof. reflexivity. Qed.

Lemma run_cls_step {R : Type} (p : ascii -> bool) (prev : option ascii) (y : ascii)
    (l : list ascii) (ps : nat) (g : groups) (k : cursor -> groups -> option R) :
  run (Cls p) {| before := prev; rest := y :: l; pos := ps |} g k
  = if p y then k {| before := Some y; rest := l; pos := S ps |} g else None.
Proof. reflexivity. Qed.

(** A greedy repetition of a class reads the whole run of its characters
    when the rest of the pattern matches after it. *)
Lemma star_greedy_all {R : Type} (p : ascii -> bool)
    (k : cursor -> groups -> option R) (x : R) (r : list ascii) (g : groups) :
  match r with [] => True | y :: _ => p y = false end ->
  forall t prev ps n,
    Forall (fun y => p y = true) t ->
    List.length t <= n ->
    k {| before := last_read prev t; rest := r; pos := ps + List.length t |} g = Some x ->
    star_loop (run (Cls p)) true k n {| before := prev; rest := t ++ r; pos := ps |} g
    = Some x.
Proof.
  intro Hr. induction t as [|y t IH]; intros prev ps n Ft Hn Hk.
  - cbn [app List.length last_read] in *. rewrite Nat.add_0_r in Hk.
    destruct n as [|n]; [exact Hk|].
    rewrite star_loop_greedy_step.
    destruct r as [|z r]; [exact Hk|]. now rewrite run_cls_step, Hr.
  - destruct n as [|n]; [simpl in Hn; lia|].
    inversion Ft as [|? ? Py Ft']; subst.
    cbn [app]. rewrite star_loop_greedy_step, run_cls_step, Py. cbn [pos].
    replace (ps <? S ps) with true by (symmetry; apply Nat.ltb_lt; lia).
    rewrite (IH (Some y) (S ps) n Ft'); [reflexivity | simpl in Hn; lia |].
    simpl in Hk. now replace (S ps + List.length t) with (ps + S (List.length t)) by lia.
Qed.

Lemma match_quoted (prev : option ascii) (q1 q2 : ascii) (title after : list ascii)
    (ps : nat) :
  quote q1 = true -> quote q2 = true ->
  Forall (fun c => quote c = false) title -> title <> [] ->
  exists e,
    match_at quoted_text {| before := prev; rest := q1 :: title ++ q2 :: after; pos := ps |}
    = Some {| m_start := ps; m_end := e; m_groups := [(1, title)] |}.
Proof.
  intros H1 H2 Ft Hne. destruct title as [|t0 ts]; [congruence|].
  inversion Ft as [|? ? P0 Fts]; subst.
  unfold match_at, quoted_text, seqs, Plus. cbn [fold_right run].
  unfold advance at 1. cbn [rest pos before]. rewrite H1.
  unfold advance at 1. cbn [rest pos before app]. unfold negate at 1. rewrite P0. cbn [negb].
  eexists.
  apply star_greedy_all.
  - unfold negate. now rewrite H2.
  - eapply Forall_impl; [|exact Fts]. intros c Hc. unfold negate. now rewrite Hc.
  - rewrite length_app. simpl. lia.
  - unfold advance. cbn [rest pos before]. rewrite H2.
    replace (S (S ps) + List.length ts - S ps) with (S (List.length ts)) by lia.
    cbn [firstn]. rewrite firstn_app, Nat.sub_diag, firstn_all. simpl. rewrite app_nil_r.
    reflexivity.
Qed.

Lemma match_quoted_fails (prev : option ascii) (x : ascii) (l : list ascii) (ps : nat) :
  quote x = false ->
  match_at quoted_text {| before := prev; rest := x :: l; pos := ps |} = None.
Proof.
  intro Hx. unfold match_at, quoted_text, seqs. cbn [fold_right run].
  unfold advance. cbn [rest]. now rewrite Hx.
Qed.

Lemma search_quoted_skips (l : list ascii) :
  forall lead prev ps,
    Forall (fun c => quote c = false) lead -> l <> [] ->
    search_from quoted_text prev (lead ++ l) ps
    = search_from quoted_text (last_read prev lead) l (ps + List.length lead).
Proof.
  induction lead as [|x lead IH]; intros prev ps Fb Hl; simpl.
  - now rewrite Nat.add_0_r.
  - inversion Fb as [|? ? Hx Fb']; subst.
    rewrite match_quoted_fails by exact Hx.
    rewrite IH by assumption. f_equal. lia.
Qed.

Lemma search_quoted (lead title after : list ascii) (q1 q2 : ascii) :
  quote q1 = true -> quote q2 = true ->
  Forall (fun c => quote c = false) lead ->
  Forall (fun c => quote c = false) title -> title <> [] ->
  exists m,
    search quoted_text (PyStr.text (lead ++ q1 :: title ++ q2 :: after)) = Some m
    /\ group 1 m = Some (PyStr.text title).
Proof.
  intros H1 H2 Fb Ft Hne. unfold search. rewrite chars_text.
  rewrite search_quoted_skips by (assumption || discriminate).
  destruct (match_quoted (last_read None lead) q1 q2 title after
              (0 + List.length lead) H1 H2 Ft Hne) as [e He].
  cbn [search_from]. rewrite He. eexists. split; [reflexivity|]. reflexivity.
Qed.

Lemma text_eq_chars (s : string) (l : list ascii) : PyStr.chars s = l -> s = PyStr.text l.
Proof. intros <-. symmetry. apply text_chars. Qed.

(** X10. The first quoted text of the goal is the title of the issue, as it
    stands: when the goal reads [lead], a quote, [title], a quote and any
    rest, [lead] and [title] holding no quote, [create_issue] gets [title]
    as its title. The opening and the closing quote need not be the same
    character. *)
Theorem quoted_text_is_the_issue_title (lead title after : string) (q1 q2 : ascii)
    (results : list (string * string)) :
  quote q1 = true -> quote q2 = true ->
  Forall (fun c => quote c = false) (PyStr.chars lead) ->
  Forall (fun c => quote c = false) (PyStr.chars title) ->
  title <> "" ->
  let user_goal := (lead ++ String q1 (title ++ String q2 after))%string in
  issue_title user_goal = title
  /\ exists a,
       tool_args "create_issue" user_goal results = Ok a
       /\ dict_get "title" a = Some (VStr title).
Proof.
  intros H1 H2 Fb Ft Hne user_goal.
  assert (Hgoal : user_goal
                  = PyStr.text (PyStr.chars lead ++ q1 :: PyStr.chars title
                                ++ q2 :: PyStr.chars after)).
  { apply text_eq_chars. unfold user_goal. rewrite chars_append. simpl.
    now rewrite chars_append. }
  assert (Hc : PyStr.chars title <> []) by (destruct title; [congruence | discriminate]).
  destruct (search_quoted _ _ (PyStr.chars after) q1 q2 H1 H2 Fb Ft Hc) as (m & Hs & Hg).
  rewrite <- Hgoal, text_chars in *.
  assert (Ht : issue_title user_goal = title).
  { unfold issue_title. now rewrite Hs, Hg. }
  split; [exact Ht|].
  unfold tool_args. cbn [String.eqb Ascii.eqb Bool.eqb].
  pose proof (repo_or_default_unpacks
                [Alt (Lit "in") (Lit "for"); spaces; Opt true (Seq (Lit "repo") spaces)]
                user_goal) as (o1 & r1 & Hu).
  change (seqs (_ ++ _)) with repo_in_for in Hu.
  change (String.eqb "create_issue" "tavily_search") with false.
  change (String.eqb "create_issue" "get_weather") with false.
  change (String.eqb "create_issue" "create_issue") with true.
  cbv iota. rewrite Hu, Ht.
  eexists. split; [reflexivity|]. simpl.
  destruct (String.eqb_spec title ""); [congruence | reflexivity].
Qed.

Section IssueTitle.
Context {E : Env}.

(** X11. For a goal that is not empty [create_issue] never gets an empty
    title or body: the title is the extracted title, or the whole goal
    when nothing is left of the extraction. *)
Theorem create_issue_title_is_never_empty (user_goal : string)
    (results : list (string * string)) :
  user_goal <> "" ->
  exists a title body,
    tool_args "create_issue" user_goal results = Ok a
    /\ dict_get "title" a = Some (VStr title) /\ title <> ""
    /\ (title = issue_title user_goal \/ title = user_goal)
    /\ dict_get "body" a = Some (VStr body) /\ body = issue_body user_goal results
    /\ body <> "".
Proof.
  intro Hne. unfold tool_args.
  pose proof (repo_or_default_unpacks
                [Alt (Lit "in") (Lit "for"); spaces; Opt true (Seq (Lit "repo") spaces)]
                user_goal) as (o1 & r1 & Hu).
  change (seqs (_ ++ _)) with repo_in_for in Hu.
  change (String.eqb "create_issue" "tavily_search") with false.
  change (String.eqb "create_issue" "get_weather") with false.
  change (String.eqb "create_issue" "create_issue") with true.
  cbv iota. rewrite Hu.
  eexists _, _, _. split; [reflexivity|]. split; [reflexivity|].
  split; [|split; [|split; [reflexivity|split; [reflexivity|]]]].
  - destruct (String.eqb_spec (issue_title user_goal) ""); [exact Hne | assumption].
  - destruct (String.eqb_spec (issue_title user_goal) ""); auto.
  - unfold issue_body. destruct results; discriminate.
Qed.

End IssueTitle.

(** ** The planner's code fence *)

Lemma lstrip_chars_length (l : list ascii) :
  List.length (PyStr.lstrip_chars l) <= List.length l.
Proof.
  induction l as [|x l IH]; simpl; [lia|]. destruct (PyStr.isspace x); simpl; lia.
Qed.

Lemma lstrip_chars_fixed (l : list ascii) :
  PyStr.lstrip_chars l = l <->
  match l with [] => True | x :: _ => PyStr.isspace x = false end.
Proof.
  destruct l as [|x l]; simpl; [tauto|].
  destruct (PyStr.isspace x) eqn:Hx; split; intro H; try reflexivity; try discriminate.
  pose proof (lstrip_chars_length l) as L. rewrite H in L. simpl in L. lia.
Qed.

Lemma lstrip_chars_app_keep (b l : list ascii) :
  b <> [] -> PyStr.lstrip_chars b = b -> PyStr.lstrip_chars (b ++ l) = b ++ l.
Proof.
  intros Hb H. apply lstrip_chars_fixed in H. apply lstrip_chars_fixed.
  destruct b; [congruence | exact H].
Qed.

Lemma lstrip_chars_app_spaces (w l : list ascii) :
  Forall (fun c => PyStr.isspace c = true) w ->
  PyStr.lstrip_chars (w ++ l) = PyStr.lstrip_chars l.
Proof. induction 1 as [|x w Hx _ IH]; simpl; [reflexivity | now rewrite Hx]. Qed.

Lemma rstrip_chars_app_keep (l b : list ascii) :
  b <> [] -> PyStr.rstrip_chars b = b -> PyStr.rstrip_chars (l ++ b) = l ++ b.
Proof.
  unfold PyStr.rstrip_chars. intros Hb H.
  apply (f_equal (@rev ascii)) in H. rewrite rev_involutive in H.
  rewrite rev_app_distr, lstrip_chars_app_keep, <- rev_app_distr, rev_involutive; auto.
  intro Hr. apply Hb. apply (f_equal (@rev ascii)) in Hr. now rewrite rev_involutive in Hr.
Qed.

Lemma rstrip_chars_app_spaces (l w : list ascii) :
  Forall (fun c => PyStr.isspace c = true) w ->
  PyStr.rstrip_chars (l ++ w) = PyStr.rstrip_chars l.
Proof.
  intro H. unfold PyStr.rstrip_chars. rewrite rev_app_distr, lstrip_chars_app_spaces; auto.
  now apply Forall_rev.
Qed.

Lemma rstrip_chars_length (l : list ascii) :
  List.length (PyStr.rstrip_chars l) <= List.length l.
Proof.
  unfold PyStr.rstrip_chars. rewrite length_rev.
  pose proof (lstrip_chars_length (rev l)). now rewrite length_rev in H.
Qed.

Lemma lstrip_chars_same_length (l : list ascii) :
  List.length (PyStr.lstrip_chars l) = List.length l -> PyStr.lstrip_chars l = l.
Proof.
  destruct l as [|x l]; simpl; [reflexivity|].
  destruct (PyStr.isspace x); [|reflexivity].
  pose proof (lstrip_chars_length l). lia.
Qed.

(** A text that [strip] leaves alone: its two ends. *)
Lemma strip_fixed_ends (s : string) :
  PyStr.strip s = s ->
  PyStr.lstrip_chars (PyStr.chars s) = PyStr.chars s
  /\ PyStr.rstrip_chars (PyStr.chars s) = PyStr.chars s.
Proof.
  unfold PyStr.strip. intro H. apply (f_equal PyStr.chars) in H. rewrite chars_text in H.
  set (l := PyStr.chars s) in *.
  pose proof (rstrip_chars_length (PyStr.lstrip_chars l)) as L1.
  pose proof (lstrip_chars_length l) as L2. rewrite H in L1.
  assert (Hl : PyStr.lstrip_chars l = l) by (apply lstrip_chars_same_length; lia).
  split; [exact Hl|]. now rewrite Hl in H.
Qed.

Lemma strip_of_ends (l : list ascii) :
  PyStr.lstrip_chars l = l -> PyStr.rstrip_chars l = l -> PyStr.strip (PyStr.text l) = PyStr.text l.
Proof. intros H1 H2. unfold PyStr.strip. now rewrite chars_text, H1, H2. Qed.

Lemma lstrip_char_app_all (c : ascii) (f l : list ascii) :
  Forall (fun x => Ascii.eqb x c = true) f ->
  PyStr.lstrip_char c (f ++ l) = PyStr.lstrip_char c l.
Proof. induction 1 as [|x f Hx _ IH]; simpl; [reflexivity | now rewrite Hx]. Qed.

Lemma lstrip_char_keep (c x : ascii) (l : list ascii) :
  Ascii.eqb x c = false -> PyStr.lstrip_char c (x :: l) = x :: l.
Proof. intro H. simpl. now rewrite H. Qed.

Lemma strip_char_fence (x y : ascii) (l : list ascii) :
  Ascii.eqb x "`" = false -> Ascii.eqb y "`" = false ->
  PyStr.strip_char "`" (PyStr.text (fence ++ (x :: l ++ [y]) ++ fence))
  = PyStr.text (x :: l ++ [y]).
Proof.
  intros Hx Hy. unfold PyStr.strip_char. rewrite chars_text.
  rewrite lstrip_char_app_all by (repeat constructor).
  cbn [app]. rewrite lstrip_char_keep by exact Hx.
  change (x :: (l ++ [y]) ++ fence) with ((x :: l ++ [y]) ++ fence).
  rewrite rev_app_distr. rewrite lstrip_char_app_all by (repeat constructor).
  change (x :: l ++ [y]) with ((x :: l) ++ [y]). rewrite rev_app_distr. cbn [rev app].
  rewrite lstrip_char_keep by exact Hy.
  cbn [rev]. rewrite rev_app_distr, rev_involutive. reflexivity.
Qed.

Lemma letter_is_plain (c : ascii) :
  PyStr.islower (PyStr.lower_char c) = true ->
  PyStr.isspace c = false /\ Ascii.eqb c "`" = false.
Proof.
  unfold PyStr.lower_char.
  destruct (PyStr.isupper c) eqn:Hu.
  - intros _.
    assert (Hb : Ascii.eqb c "`" = false)
      by (destruct (Ascii.eqb_spec c "`"); [subst; discriminate | reflexivity]).
    unfold PyStr.isupper, PyStr.isspace in *.
    apply andb_prop in Hu. destruct Hu as [H1 H2].
    apply Nat.leb_le in H1. apply Nat.leb_le in H2.
    replace (PyStr.code c <=? 13) with false by (symmetry; apply Nat.leb_gt; lia).
    replace (PyStr.code c <=? 32) with false by (symmetry; apply Nat.leb_gt; lia).
    rewrite !andb_false_r. split; [reflexivity | exact Hb].
  - intro Hl. split; [now apply lower_not_space|].
    destruct (Ascii.eqb_spec c "`"); [subst; discriminate | reflexivity].
Qed.

Lemma json_tag (tag : string) :
  PyStr.lower tag = "json" ->
  exists c1 c2 c3 c4,
    PyStr.chars tag = [c1; c2; c3; c4]
    /\ map PyStr.lower_char [c1; c2; c3; c4] = ["j"; "s"; "o"; "n"]%char
    /\ PyStr.isspace c1 = false /\ Ascii.eqb c1 "`" = false.
Proof.
  unfold PyStr.lower. intro H. apply (f_equal PyStr.chars) in H. rewrite chars_text in H.
  destruct (PyStr.chars tag) as [|c1 [|c2 [|c3 [|c4 [|c5 l]]]]]; try discriminate.
  exists c1, c2, c3, c4. split; [reflexivity|]. split; [exact H|].
  apply letter_is_plain. simpl in H. inversion H as [[H1 H2 H3 H4]]. now rewrite H1.
Qed.

Lemma chars_cat_fenced (tag body : string) :
  PyStr.chars (cat ["```"; tag; nl; body; nl; "```"])
  = fence ++ (PyStr.chars tag ++ ["010"%char] ++ PyStr.chars body ++ ["010"%char]) ++ fence.
Proof.
  rewrite !cat_cons. unfold cat. cbn [String.concat].
  rewrite !chars_append. rewrite <- !app_assoc. reflexivity.
Qed.

Lemma strip_fenced (middle : list ascii) :
  PyStr.strip (PyStr.text (fence ++ middle ++ fence)) = PyStr.text (fence ++ middle ++ fence).
Proof.
  apply strip_of_ends.
  - apply lstrip_chars_app_keep; [discriminate | reflexivity].
  - rewrite app_assoc. apply rstrip_chars_app_keep; [discriminate | reflexivity].
Qed.

Lemma startswith_fence (l : list ascii) :
  PyStr.startswith (PyStr.text (fence ++ l)) "```" = true.
Proof. unfold PyStr.startswith. rewrite chars_text. apply prefix_chars_app. Qed.

Section Fence.
Variable body : string.
Hypothesis body_stripped : PyStr.strip body = body.
Hypothesis body_not_empty : body <> "".

Lemma body_chars :
  PyStr.chars body <> []
  /\ PyStr.lstrip_chars (PyStr.chars body) = PyStr.chars body
  /\ PyStr.rstrip_chars (PyStr.chars body) = PyStr.chars body.
Proof.
  split; [|now apply strip_fixed_ends].
  destruct body; [congruence | discriminate].
Qed.

Lemma strip_newline_body_newline :
  PyStr.strip (PyStr.text (["010"%char] ++ PyStr.chars body ++ ["010"%char])) = body.
Proof.
  destruct body_chars as (Hne & Hl & Hr).
  unfold PyStr.strip. rewrite chars_text.
  rewrite lstrip_chars_app_spaces by (repeat constructor).
  rewrite lstrip_chars_app_keep by assumption.
  rewrite rstrip_chars_app_spaces by (repeat constructor).
  rewrite Hr. apply text_chars.
Qed.

Lemma strip_newline_body :
  PyStr.strip (PyStr.text ("010"%char :: PyStr.chars body)) = body.
Proof.
  destruct body_chars as (Hne & Hl & Hr).
  unfold PyStr.strip. rewrite chars_text.
  change ("010"%char :: PyStr.chars body) with (["010"%char] ++ PyStr.chars body).
  rewrite lstrip_chars_app_spaces by (repeat constructor).
  rewrite Hl, Hr. apply text_chars.
Qed.

Lemma sanitize_tagged (tag : string) :
  PyStr.lower tag = "json" ->
  sanitize (cat ["```"; tag; nl; body; nl; "```"]) = body.
Proof.
  intro Ht. destruct (json_tag tag Ht) as (c1 & c2 & c3 & c4 & Hc & Hlow & Hs & Hb).
  destruct body_chars as (Hne & Hl & Hr).
  unfold sanitize.
  rewrite <- (text_chars (cat _)), chars_cat_fenced, Hc.
  rewrite strip_fenced, startswith_fence.
  change ([c1; c2; c3; c4] ++ ["010"%char] ++ PyStr.chars body ++ ["010"%char])
    with (c1 :: ([c2; c3; c4] ++ ["010"%char] ++ PyStr.chars body) ++ ["010"%char]).
  rewrite strip_char_fence by (exact Hb || reflexivity).
  assert (Hstrip : PyStr.strip (PyStr.text (c1 :: ([c2; c3; c4] ++ ["010"%char] ++ PyStr.chars body)
                                            ++ ["010"%char]))
                   = PyStr.text ([c1; c2; c3; c4] ++ "010"%char :: PyStr.chars body)).
  { unfold PyStr.strip. rewrite chars_text. cbn [PyStr.lstrip_chars]. rewrite Hs.
    change (c1 :: ([c2; c3; c4] ++ ["010"%char] ++ PyStr.chars body) ++ ["010"%char])
      with (([c1; c2; c3; c4] ++ ["010"%char] ++ PyStr.chars body) ++ ["010"%char]).
    rewrite rstrip_chars_app_spaces by (repeat constructor).
    rewrite app_assoc. rewrite rstrip_chars_app_keep by assumption.
    now rewrite <- app_assoc. }
  rewrite Hstrip.
  assert (Hstart : PyStr.startswith
                     (PyStr.lower (PyStr.text ([c1; c2; c3; c4] ++ "010"%char :: PyStr.chars body))) "json"
                   = true).
  { unfold PyStr.startswith, PyStr.lower. rewrite !chars_text, map_app, Hlow.
    apply (prefix_chars_app ["j"; "s"; "o"; "n"]%char). }
  rewrite Hstart. unfold PyStr.drop. rewrite chars_text. cbn [skipn app].
  apply strip_newline_body.
Qed.

Lemma sanitize_untagged :
  PyStr.startswith (PyStr.lower body) "json" = false ->
  sanitize (cat ["```"; nl; body; nl; "```"]) = body.
Proof.
  intro Hj. unfold sanitize.
  replace (cat ["```"; nl; body; nl; "```"]) with (cat ["```"; ""; nl; body; nl; "```"])
    by reflexivity.
  rewrite <- (text_chars (cat _)), chars_cat_fenced.
  rewrite strip_fenced, startswith_fence.
  change (PyStr.chars "" ++ ["010"%char] ++ PyStr.chars body ++ ["010"%char])
    with ("010"%char :: PyStr.chars body ++ ["010"%char]).
  rewrite strip_char_fence by reflexivity.
  change ("010"%char :: PyStr.chars body ++ ["010"%char]) with (["010"%char] ++ PyStr.chars body ++ ["010"%char]).
  rewrite strip_newline_body_newline, Hj. reflexivity.
Qed.

Lemma sanitize_plain :
  PyStr.startswith body "```" = false -> sanitize body = body.
Proof. intro H. unfold sanitize. now rewrite body_stripped, H. Qed.

End Fence.

Lemma lstrip_chars_idempotent (l : list ascii) :
  PyStr.lstrip_chars (PyStr.lstrip_chars l) = PyStr.lstrip_chars l.
Proof.
  induction l as [|x l IH]; simpl; [reflexivity|].
  destruct (PyStr.isspace x) eqn:Hx; [exact IH|]. simpl. now rewrite Hx.
Qed.

Lemma lstrip_chars_suffix (l : list ascii) : exists w, l = w ++ PyStr.lstrip_chars l.
Proof.
  induction l as [|x l [w IH]]; simpl; [now exists []|].
  destruct (PyStr.isspace x); [|now exists []].
  exists (x :: w). simpl. now f_equal.
Qed.

Lemma rstrip_chars_prefix (l : list ascii) : exists w, l = PyStr.rstrip_chars l ++ w.
Proof.
  unfold PyStr.rstrip_chars. destruct (lstrip_chars_suffix (rev l)) as [w H].
  exists (rev w). apply (f_equal (@rev ascii)) in H.
  now rewrite rev_involutive, rev_app_distr in H.
Qed.

Lemma strip_idempotent (s : string) : PyStr.strip (PyStr.strip s) = PyStr.strip s.
Proof.
  unfold PyStr.strip at 2 3. set (m := PyStr.lstrip_chars (PyStr.chars s)).
  apply strip_of_ends.
  - apply lstrip_chars_fixed.
    destruct (PyStr.rstrip_chars m) as [|x u] eqn:Hr; [exact I|].
    destruct (rstrip_chars_prefix m) as [w Hw]. rewrite Hr in Hw.
    pose proof (lstrip_chars_idempotent (PyStr.chars s)) as Hm. fold m in Hm.
    apply lstrip_chars_fixed in Hm. rewrite Hw in Hm. exact Hm.
  - unfold PyStr.rstrip_chars. now rewrite rev_involutive, lstrip_chars_idempotent.
Qed.

(** X12. [sanitize] gives back the text inside a code fence: for a body
    without blanks around it, the fenced text with the tag json in any
    letter case, and the fenced text without a tag unless the body itself
    starts with json, are both read as the body; a body that does not
    start with a fence is left alone. What [sanitize] returns never has
    blanks around it. *)
Theorem sanitize_removes_the_fence (tag body : string) :
  PyStr.strip body = body -> body <> "" ->
  (PyStr.lower tag = "json" -> sanitize (cat ["```"; tag; nl; body; nl; "```"]) = body)
  /\ (PyStr.startswith (PyStr.lower body) "json" = false ->
      sanitize (cat ["```"; nl; body; nl; "```"]) = body)
  /\ (PyStr.startswith body "```" = false -> sanitize body = body)
  /\ (forall raw_plan, PyStr.strip (sanitize raw_plan) = sanitize raw_plan).
Proof.
  intros Hs Hne. split; [|split; [|split]].
  - now apply sanitize_tagged.
  - now apply sanitize_untagged.
  - now apply sanitize_plain.
  - intro raw_plan. unfold sanitize.
    destruct (PyStr.startswith (PyStr.strip raw_plan) "```"); [|apply strip_idempotent].
    destruct (PyStr.startswith _ "json"); apply strip_idempotent.
Qed.

(** ** The tool runner and the allow-list *)

Lemma ascii_compare_trans (a b c : ascii) :
  Ascii.compare a b = Lt -> Ascii.compare b c = Lt -> Ascii.compare a c = Lt.
Proof.
  unfold Ascii.compare. rewrite !N.compare_lt_iff. lia.
Qed.

Lemma ascii_compare_eq (a b : ascii) : Ascii.compare a b = Eq -> a = b.
Proof.
  unfold Ascii.compare. intro H. apply N.compare_eq in H.
  rewrite <- (ascii_N_embedding a), <- (ascii_N_embedding b). now f_equal.
Qed.

Lemma string_compare_trans (a : string) :
  forall b c, String.compare a b = Lt -> String.compare b c = Lt -> String.compare a c = Lt.
Proof.
  induction a as [|x a IH]; intros [|y b] [|z c]; simpl; try discriminate; auto.
  destruct (Ascii.compare x y) eqn:Hxy; try discriminate.
  - apply ascii_compare_eq in Hxy. subst y.
    destruct (Ascii.compare x z); try discriminate; auto. apply IH.
  - intros _. destruct (Ascii.compare y z) eqn:Hyz; try discriminate.
    + apply ascii_compare_eq in Hyz. subst z. now rewrite Hxy.
    + intros _. now rewrite (ascii_compare_trans _ _ _ Hxy Hyz).
Qed.

Lemma ltb_trans (a b c : string) :
  String.ltb a b = true -> String.ltb b c = true -> String.ltb a c = true.
Proof.
  unfold String.ltb. intros H1 H2.
  destruct (String.compare a b) eqn:Hab; try discriminate.
  destruct (String.compare b c) eqn:Hbc; try discriminate.
  now rewrite (string_compare_trans _ _ _ Hab Hbc).
Qed.

Lemma ltb_irrefl (a : string) : String.ltb a a = false.
Proof.
  unfold String.ltb. destruct (String.compare a a) eqn:H; try reflexivity.
  pose proof (String.compare_antisym a a) as A. rewrite H in A. discriminate.
Qed.

Lemma ltb_total (a b : string) :
  String.ltb a b = false -> a <> b -> String.ltb b a = true.
Proof.
  unfold String.ltb. intros H Hne. rewrite (String.compare_antisym b a).
  destruct (String.compare a b) eqn:Hab; try discriminate; try reflexivity.
  apply String.compare_eq_iff in Hab. contradiction.
Qed.

(** [sorted] *)
Lemma in_insert_sorted (x y : string) (l : list string) :
  In y (insert_sorted x l) <-> y = x \/ In y l.
Proof.
  induction l as [|z l IH]; simpl; [intuition congruence|].
  destruct (String.ltb x z); simpl; [intuition congruence|].
  rewrite IH. intuition congruence.
Qed.

Lemma in_fold_insert (l : list string) :
  forall acc y,
    In y (fold_left (fun acc x => insert_sorted x acc) l acc) <-> In y l \/ In y acc.
Proof.
  induction l as [|x l IH]; intros acc y; simpl; [tauto|].
  rewrite IH, in_insert_sorted. intuition congruence.
Qed.

Lemma in_sorted (y : string) (l : list string) : In y (sorted l) <-> In y l.
Proof. unfold sorted. rewrite in_fold_insert. simpl. tauto. Qed.

Lemma insert_sorted_ascending (x : string) (l : list string) :
  StronglySorted before_in_order l -> ~ In x l ->
  StronglySorted before_in_order (insert_sorted x l).
Proof.
  induction 1 as [|z l Hl IH Hz]; intro Hx; simpl.
  - repeat constructor.
  - destruct (String.ltb x z) eqn:Hxz.
    + constructor; [now constructor|]. constructor; [exact Hxz|].
      eapply Forall_impl; [|exact Hz]. intros a Ha. unfold before_in_order in *.
      now apply (ltb_trans x z a).
    + constructor; [apply IH; simpl in Hx; tauto|].
      apply Forall_forall. intros a Ha. apply in_insert_sorted in Ha.
      destruct Ha as [->|Ha].
      * apply ltb_total; [exact Hxz | simpl in Hx; intuition congruence].
      * rewrite Forall_forall in Hz. now apply Hz.
Qed.

Lemma fold_insert_ascending (l : list string) :
  NoDup l ->
  forall acc,
    StronglySorted before_in_order acc -> (forall x, In x l -> ~ In x acc) ->
    StronglySorted before_in_order (fold_left (fun acc x => insert_sorted x acc) l acc).
Proof.
  induction 1 as [|x l Hx _ IH]; intros acc Hacc Hfresh; simpl; [exact Hacc|].
  apply IH.
  - apply insert_sorted_ascending; [exact Hacc|]. apply Hfresh. now left.
  - intros y Hy Hin. apply in_insert_sorted in Hin. destruct Hin as [->|Hin].
    + contradiction.
    + apply (Hfresh y); [now right | exact Hin].
Qed.

Lemma sorted_ascending (l : list string) :
  NoDup l -> StronglySorted before_in_order (sorted l).
Proof.
  intro H. unfold sorted. apply fold_insert_ascending; [exact H | constructor | auto].
Qed.

Lemma ascending_NoDup (l : list string) : StronglySorted before_in_order l -> NoDup l.
Proof.
  induction 1 as [|x l _ IH Hx]; constructor; [|exact IH].
  intro Hin. rewrite Forall_forall in Hx. specialize (Hx x Hin).
  unfold before_in_order in Hx. now rewrite ltb_irrefl in Hx.
Qed.

Section Runner.
Context {E : Env}.

Lemma init_snoc (tools : list Tool) (t : Tool) :
  by_name (ToolRunner_init (tools ++ [t]))
  = if String.eqb (name t) "" then by_name (ToolRunner_init tools)
    else dict_set (name t) t (by_name (ToolRunner_init tools)).
Proof. unfold ToolRunner_init. simpl. now rewrite fold_left_app. Qed.

Lemma init_lookup (tools : list Tool) (tool_name : string) :
  dict_get tool_name (by_name (ToolRunner_init tools))
  = if String.eqb tool_name "" then None
    else find (fun t => String.eqb (name t) tool_name) (rev tools).
Proof.
  revert tool_name. induction tools as [|t tools IH] using rev_ind; intro tool_name.
  - simpl. now destruct (String.eqb tool_name "").
  - rewrite init_snoc, rev_app_distr. cbn [rev app find].
    destruct (String.eqb_spec (name t) "") as [Ht|Ht].
    + rewrite IH. destruct (String.eqb_spec tool_name "") as [->|Hn]; [reflexivity|].
      destruct (String.eqb_spec (name t) tool_name); [congruence | reflexivity].
    + rewrite dict_get_set, IH.
      destruct (String.eqb_spec tool_name (name t)) as [->|Hne].
      * rewrite String.eqb_refl.
        destruct (String.eqb_spec (name t) ""); [contradiction | reflexivity].
      * destruct (String.eqb_spec (name t) tool_name); [congruence | reflexivity].
Qed.

Lemma find_last (pre post : list Tool) (t : Tool) :
  (forall u, In u post -> name u <> name t) ->
  find (fun u => String.eqb (name u) (name t)) (rev (pre ++ t :: post)) = Some t.
Proof.
  intro H. rewrite rev_app_distr. simpl. rewrite <- app_assoc. simpl.
  induction post as [|u post IH] using rev_ind.
  - simpl. now rewrite String.eqb_refl.
  - rewrite rev_app_distr. simpl.
    destruct (String.eqb_spec (name u) (name t)) as [Hu|Hu].
    + exfalso. apply (H u); [apply in_or_app; right; now left | exact Hu].
    + apply IH. intros v Hv. apply H. apply in_or_app. now left.
Qed.

Lemma runner_lookup_some (tools : list Tool) (tool_name : string) (tool : Tool) :
  dict_get tool_name (by_name (ToolRunner_init tools)) = Some tool ->
  In tool tools /\ name tool = tool_name /\ tool_name <> "".
Proof.
  intro H. rewrite init_lookup in H.
  destruct (String.eqb_spec tool_name "") as [|Hn]; [discriminate|].
  apply find_some in H. destruct H as [Hin Hname].
  apply String.eqb_eq in Hname. apply in_rev in Hin. auto.
Qed.

Lemma runner_lookup_none (tools : list Tool) (tool_name : string) :
  dict_get tool_name (by_name (ToolRunner_init tools)) = None
  <-> tool_name = "" \/ ~ In tool_name (map name tools).
Proof.
  rewrite init_lookup.
  destruct (String.eqb_spec tool_name "") as [->|Hn]; [tauto|].
  split.
  - intro H. right. intro Hin. apply in_map_iff in Hin. destruct Hin as (t & Ht & Hin).
    apply in_rev in Hin. pose proof (find_none _ _ H t Hin) as Hf. simpl in Hf.
    subst. now rewrite String.eqb_refl in Hf.
  - intros [H|H]; [contradiction|].
    destruct (find _ (rev tools)) as [t|] eqn:Hf; [|reflexivity].
    apply find_some in Hf. destruct Hf as [Hin Hname].
    apply String.eqb_eq in Hname. apply in_rev in Hin.
    exfalso. apply H. subst. now apply in_map.
Qed.

Lemma runner_keys_NoDup (tools : list Tool) :
  NoDup (dict_keys (by_name (ToolRunner_init tools))).
Proof.
  induction tools as [|t tools IH] using rev_ind; [constructor|].
  rewrite init_snoc. destruct (String.eqb (name t) ""); [exact IH|].
  rewrite dict_keys_set. destruct (dict_has (name t) _) eqn:Hh; [exact IH|].
  apply NoDup_app; [exact IH | repeat constructor; simpl; tauto |].
  intros x Hx [<-|[]]. apply dict_has_iff in Hx. congruence.
Qed.

(** X13. [ToolRunner.__init__] keeps one tool for each name that is not
    empty: of several tools with the same name the last one, and none for
    the empty name. A look-up gives a tool of that name or nothing. *)
Theorem runner_keeps_the_last_tool_of_a_name (tools : list Tool) :
  (forall tool_name tool,
     dict_get tool_name (by_name (ToolRunner_init tools)) = Some tool ->
     In tool tools /\ name tool = tool_name /\ tool_name <> "")
  /\ (forall pre tool post,
        tools = pre ++ tool :: post -> name tool <> "" ->
        (forall later, In later post -> name later <> name tool) ->
        dict_get (name tool) (by_name (ToolRunner_init tools)) = Some tool)
  /\ (forall tool_name,
        dict_get tool_name (by_name (ToolRunner_init tools)) = None
        <-> tool_name = "" \/ ~ In tool_name (map name tools))
  /\ NoDup (dict_keys (by_name (ToolRunner_init tools))).
Proof.
  split; [|split; [|split]].
  - apply runner_lookup_some.
  - intros pre tool post -> Hn Hlater. rewrite init_lookup.
    destruct (String.eqb_spec (name tool) ""); [contradiction|].
    now apply find_last.
  - apply runner_lookup_none.
  - apply runner_keys_NoDup.
Qed.

Lemma in_get_tool_names (tools : list Tool) (tool_name : string) :
  In tool_name (get_tool_names tools) <-> In tool_name (map name tools).
Proof. unfold get_tool_names. now rewrite in_sorted, in_dedup. Qed.

Lemma in_list_tools (tools : list Tool) (tool_name : string) :
  In tool_name (list_tools (ToolRunner_init tools))
  <-> In tool_name (map name tools) /\ tool_name <> "".
Proof.
  unfold list_tools. rewrite in_sorted, <- dict_has_iff. unfold dict_has.
  destruct (dict_get tool_name _) as [t|] eqn:H.
  - apply runner_lookup_some in H. destruct H as (Hin & Hname & Hne).
    split; [|reflexivity]. intros _. split; [|exact Hne]. subst. now apply in_map.
  - apply runner_lookup_none in H. split; [discriminate|]. tauto.
Qed.

Lemma ascending_filter (f : string -> bool) (l : list string) :
  StronglySorted before_in_order l -> StronglySorted before_in_order (filter f l).
Proof.
  induction 1 as [|x l _ IH Hx]; simpl; [constructor|].
  destruct (f x); [|exact IH]. constructor; [exact IH|].
  rewrite Forall_forall in *. intros y Hy. apply filter_In in Hy. now apply Hx.
Qed.

Lemma ascending_unique (l1 : list string) :
  forall l2,
    StronglySorted before_in_order l1 -> StronglySorted before_in_order l2 ->
    (forall x, In x l1 <-> In x l2) -> l1 = l2.
Proof.
  induction l1 as [|a l1 IH]; intros l2 S1 S2 Hin.
  - destruct l2 as [|b l2]; [reflexivity|]. exfalso. apply (Hin b). now left.
  - destruct l2 as [|b l2]; [exfalso; apply (Hin a); now left|].
    inversion S1 as [|? ? S1' F1]; subst. inversion S2 as [|? ? S2' F2]; subst.
    rewrite Forall_forall in F1, F2.
    assert (a = b).
    { destruct (proj1 (Hin a) (or_introl eq_refl)) as [Hb|Hb]; [now symmetry|].
      destruct (proj2 (Hin b) (or_introl eq_refl)) as [Ha|Ha]; [exact Ha|].
      apply F2 in Hb. apply F1 in Ha. unfold before_in_order in *.
      pose proof (ltb_trans _ _ _ Ha Hb) as T. now rewrite ltb_irrefl in T. }
    subst b. f_equal. apply IH; [assumption | assumption |].
    intro x. split; intro Hx.
    + destruct (proj1 (Hin x) (or_intror Hx)) as [<-|H]; [|exact H].
      apply F1 in Hx. unfold before_in_order in Hx. now rewrite ltb_irrefl in Hx.
    + destruct (proj2 (Hin x) (or_intror Hx)) as [<-|H]; [|exact H].
      apply F2 in Hx. unfold before_in_order in Hx. now rewrite ltb_irrefl in Hx.
Qed.

Lemma get_tool_names_ascending (tools : list Tool) :
  StronglySorted before_in_order (get_tool_names tools).
Proof. apply sorted_ascending, NoDup_dedup. Qed.

Lemma list_tools_ascending (tools : list Tool) :
  StronglySorted before_in_order (list_tools (ToolRunner_init tools)).
Proof. apply sorted_ascending, runner_keys_NoDup. Qed.

(** X14. [get_tool_names] lists each name of the tools once, in strictly
    ascending order; so it depends on the set of the names only, not on
    the order or the repetitions of the tools. *)
Theorem tool_names_are_sorted (tools : list Tool) :
  StronglySorted before_in_order (get_tool_names tools)
  /\ NoDup (get_tool_names tools)
  /\ (forall tool_name,
        In tool_name (get_tool_names tools) <-> In tool_name (map name tools))
  /\ (forall other,
        (forall tool_name, In tool_name (map name other) <-> In tool_name (map name tools)) ->
        get_tool_names other = get_tool_names tools).
Proof.
  split; [apply get_tool_names_ascending|].
  split; [apply ascending_NoDup, get_tool_names_ascending|].
  split; [apply in_get_tool_names|].
  intros other H. apply ascending_unique; try apply get_tool_names_ascending.
  intro x. now rewrite !in_get_tool_names.
Qed.

(** X15. The allow-list of the gate and the runner agree but for the empty
    name: [list_tools] is [get_tool_names] without the empty name, every
    allowed name that is not empty is known to the runner, and a tool
    with an empty name is allowed by the gate and unknown to the runner. *)
Theorem allowed_names_and_the_runner (tools : list Tool) :
  list_tools (ToolRunner_init tools)
  = filter (fun tool_name => negb (String.eqb tool_name "")) (get_tool_names tools)
  /\ (forall tool_name,
        In tool_name (get_tool_names tools) -> tool_name <> "" ->
        exists tool,
          dict_get tool_name (by_name (ToolRunner_init tools)) = Some tool
          /\ In tool tools /\ name tool = tool_name)
  /\ (In "" (map name tools) ->
      In "" (get_tool_names tools)
      /\ dict_get "" (by_name (ToolRunner_init tools)) = None).
Proof.
  split; [|split].
  - apply ascending_unique.
    + apply list_tools_ascending.
    + apply ascending_filter, get_tool_names_ascending.
    + intro x. rewrite in_list_tools, filter_In, in_get_tool_names.
      destruct (String.eqb_spec x ""); simpl; intuition congruence.
  - intros tool_name Hin Hne. apply in_get_tool_names in Hin.
    destruct (dict_get tool_name (by_name (ToolRunner_init tools))) as [tool|] eqn:H.
    + exists tool. split; [reflexivity|]. apply runner_lookup_some in H. tauto.
    + apply runner_lookup_none in H. tauto.
  - intro H. split; [now apply in_get_tool_names|].
    apply runner_lookup_none. now left.
Qed.

Lemma call_unknown (runner : ToolRunner) (tool_name : string) (a : args) (st : State) :
  dict_get tool_name (by_name runner) = None ->
  call runner tool_name a st
  = (Raise (KeyError (cat ["Tool '"; tool_name; "' not found. Available: ";
                           repr_list (list_tools runner)])),
     log_call {| call_tool := tool_name; call_args := a;
                 call_result :=
                   Raise (KeyError (cat ["Tool '"; tool_name; "' not found. Available: ";
                                         repr_list (list_tools runner)])) |} st).
Proof. intro H. unfold call, call_body. now rewrite H. Qed.

(** X16. A tool name that the runner does not know invokes nothing:
    [call] raises [KeyError] with the list of the known tools, the world
    is as before, and [execute_plan_tools] stores \x22Error: \x22 followed by
    the [repr] of that message, which is how [str] reads a [KeyError]. *)
Theorem unknown_tool_is_reported_not_invoked (runner : ToolRunner)
    (user_goal : string) (results : list (string * string)) (tool_name : string)
    (st : State) :
  dict_get tool_name (by_name runner) = None ->
  let message := cat ["Tool '"; tool_name; "' not found. Available: ";
                      repr_list (list_tools runner)] in
  exists a st',
    tool_args tool_name user_goal results = Ok a
    /\ call runner tool_name a st = (Raise (KeyError message), st')
    /\ world st' = world st
    /\ execute_tool runner user_goal results tool_name st
       = (Ok (dict_set tool_name (cat ["Error: "; py_repr message]) results), st').
Proof.
  intros H message.
  destruct (tool_args_total tool_name user_goal results) as [a Ha].
  exists a. eexists. split; [exact Ha|].
  split; [apply call_unknown; exact H|]. split; [reflexivity|].
  unfold execute_tool, try_except, bind, of_result. rewrite Ha.
  rewrite (call_unknown _ _ _ _ H). reflexivity.
Qed.

(** X17. For [get_weather] the tool is not invoked on the arguments of the
    call: it receives the one key \x22location\x22, a dict of the extracted city,
    an empty state and the country \x22US\x22; the city is never empty. *)
Theorem weather_tool_receives_a_location (runner : ToolRunner) (user_goal : string)
    (results : list (string * string)) (tool : Tool)
    (f : args -> World -> result string * World) (st : State) :
  dict_get "get_weather" (by_name runner) = Some tool ->
  ainvoke tool = Some f ->
  let location :=
    [("location", VDict [("city", VStr (extract_city user_goal));
                         ("state", VStr ""); ("country", VStr "US")])] in
  extract_city user_goal <> ""
  /\ execute_tool runner user_goal results "get_weather" st
     = (Ok (dict_set "get_weather" (entry_of (fst (f location (world st)))) results),
        log_call {| call_tool := "get_weather";
                    call_args := [("city", VStr (extract_city user_goal))];
                    call_result := fst (f location (world st)) |}
          (with_world st (snd (f location (world st))))).
Proof.
  intros Hget Hf location. split; [apply extract_city_not_empty|].
  unfold execute_tool, try_except, bind, of_result, call, call_body, tool_args.
  cbn [String.eqb Ascii.eqb Bool.eqb dict_get]. rewrite Hget, Hf.
  unfold external. fold location.
  destruct (f location (world st)) as [[text|e] w]; reflexivity.
Qed.

Lemma contains_empty (s : string) : PyStr.contains "" s = true.
Proof. unfold PyStr.contains. simpl. now destruct (PyStr.chars s). Qed.

(** X18. [filter_tools] keeps, in their order, the tools whose name holds
    one of the texts of [allow]: with an empty [allow] none, with the empty
    text in [allow] all of them; filtering twice is filtering once. *)
Theorem filter_tools_selects_by_substring (tools : list Tool) (allow : list string) :
  (forall t, In t (filter_tools tools allow)
             <-> In t tools /\ exists a, In a allow /\ PyStr.contains a (name t) = true)
  /\ filter_tools (filter_tools tools allow) allow = filter_tools tools allow
  /\ filter_tools tools [] = []
  /\ (In "" allow -> filter_tools tools allow = tools)
  /\ (forall more, filter_tools (tools ++ more) allow
                   = filter_tools tools allow ++ filter_tools more allow)
  /\ List.length (filter_tools tools allow) <= List.length tools.
Proof.
  unfold filter_tools. split; [|split; [|split; [|split; [|split]]]].
  - intro t. rewrite filter_In, existsb_exists. tauto.
  - rewrite filter_filter_and. apply filter_ext. intro t. apply andb_diag.
  - induction tools; simpl; auto.
  - intro H. apply filter_all. intro t. apply existsb_exists.
    exists "". split; [exact H | apply contains_empty].
  - intro more. apply filter_app.
  - apply filter_length_le.
Qed.

End Runner.

(** ** The judge and the metrics file, whatever comes back *)

Section JudgeFacts.
Context {E : Env}.

Lemma judge_run_cases goal plan final_answer trace (st : State) :
  let prompt := judge_prompt goal plan final_answer trace in
  (exists r w, judge_run goal plan final_answer trace st = (r, asked st [prompt] w)
               /\ forall score, r = Ok score -> scores_in_range score)
  \/ (exists raw r w,
        judge_run goal plan final_answer trace st = (r, asked st [prompt; fix_prompt raw] w)
        /\ JudgeScore_model_validate_json raw = Raise (ValidationError "JudgeScore" raw)
        /\ forall score, r = Ok score -> scores_in_range score).
Proof.
  intro prompt. unfold judge_run, bind. rewrite invoke_llm_spec. fold prompt.
  destruct (llm_invoke prompt (world st)) as [[raw|e] w]; cbn [fst snd].
  - destruct (validate_judge_cases raw) as [(score & Hv & _ & Hr)|[Hv _]]; rewrite Hv.
    + left. exists (Ok score), w. split; [reflexivity|].
      intros s Hs. now inversion Hs; subst.
    + right. exists raw. rewrite invoke_llm_spec, asked_twice.
      change (world (asked st [prompt] w)) with w.
      destruct (llm_invoke (fix_prompt raw) w) as [[raw2|e2] w2]; cbn [fst snd].
      * eexists _, w2. split; [reflexivity|]. split; [exact Hv|].
        unfold of_result. intros s Hs.
        destruct (validate_judge_cases raw2) as [(score & Hv2 & _ & Hr2)|[Hv2 _]];
          rewrite Hv2 in Hs; inversion Hs; subst. exact Hr2.
      * eexists _, w2. split; [reflexivity|]. split; [exact Hv|]. discriminate.
  - left. exists (Raise e), w. split; [reflexivity | discriminate].
Qed.

(** X19. Whatever the model answers or raises, [judge_run] sends one prompt
    or two, the second one only after a response that failed validation;
    it calls no tool and leaves the metrics file alone; a score it
    returns has its three marks between 0 and 5. *)
Theorem judge_run_asks_at_most_twice (goal : string) (plan : schemas.TaskPlan)
    (final_answer : string) (trace : option string) (st : State) :
  let prompt := judge_prompt goal plan final_answer trace in
  let outcome := judge_run goal plan final_answer trace st in
  (prompts (snd outcome) = prompts st ++ [prompt]
   \/ exists raw,
        prompts (snd outcome) = prompts st ++ [prompt; fix_prompt raw]
        /\ JudgeScore_model_validate_json raw = Raise (ValidationError "JudgeScore" raw))
  /\ calls (snd outcome) = calls st
  /\ storage (snd outcome) = storage st
  /\ (forall score, fst outcome = Ok score -> scores_in_range score).
Proof.
  intros prompt outcome. unfold outcome.
  destruct (judge_run_cases goal plan final_answer trace st)
    as [(r & w & H & Hr)|(raw & r & w & H & Hv & Hr)]; fold prompt in H; rewrite H;
    cbn [fst snd asked prompts calls storage].
  - split; [now left|]. auto.
  - split; [right; exists raw; split; [reflexivity | exact Hv]|]. auto.
Qed.

End JudgeFacts.

Section LoadFacts.
Context {E : Env}.

Lemma load_lines_content (lines : list string) :
  load_lines lines = load_lines (filter not_blank lines).
Proof.
  induction lines as [|line rest IH]; simpl; [reflexivity|].
  unfold not_blank at 1.
  destruct (String.eqb (PyStr.strip line) "") eqn:Hb; simpl; [exact IH|].
  rewrite Hb, IH. reflexivity.
Qed.

Lemma load_lines_ok (lines : list string) :
  forall entries,
    load_lines lines = Ok entries
    <-> map json_loads (filter not_blank lines) = map Ok entries.
Proof.
  induction lines as [|line rest IH]; intro entries; simpl.
  - split; intro H.
    + inversion H. reflexivity.
    + destruct entries; [reflexivity | discriminate].
  - unfold not_blank at 1.
    destruct (String.eqb (PyStr.strip line) "") eqn:Hb; simpl; [apply IH|].
    destruct (json_loads line) as [entry|e] eqn:Hl.
    + destruct (load_lines rest) as [loaded|e] eqn:Hr.
      * split; intro H.
        -- inversion H; subst. simpl. f_equal. now apply IH.
        -- destruct entries as [|e0 entries]; [discriminate|]. simpl in H.
           inversion H; subst. f_equal. f_equal.
           assert (Ok loaded = Ok entries) as Heq by (now apply IH). now inversion Heq.
      * split; intro H; [discriminate|].
        destruct entries as [|e0 entries]; [discriminate|]. simpl in H.
        inversion H; subst. assert (Raise e = Ok entries) as Heq by (now apply IH).
        discriminate.
    + split; intro H; [discriminate|].
      destruct entries; simpl in H; [discriminate | inversion H].
Qed.

Lemma load_lines_raise (lines : list string) :
  forall e,
    load_lines lines = Raise e
    <-> exists pre line post loaded,
          filter not_blank lines = pre ++ line :: post
          /\ map json_loads pre = map Ok loaded
          /\ json_loads line = Raise e.
Proof.
  induction lines as [|line rest IH]; intro e; simpl.
  - split; [discriminate|]. intros (pre & l & post & loaded & H & _).
    destruct pre; discriminate.
  - unfold not_blank at 1.
    destruct (String.eqb (PyStr.strip line) "") eqn:Hb; simpl; [apply IH|].
    destruct (json_loads line) as [entry|e1] eqn:Hl.
    + destruct (load_lines rest) as [loaded|e2] eqn:Hr.
      * split; [discriminate|].
        intros (pre & l & post & ld & H & Hpre & Hbad).
        destruct pre as [|p pre]; simpl in H; inversion H; subst; [congruence|].
        destruct ld as [|d ld]; [discriminate|]. simpl in Hpre. inversion Hpre.
        assert (Ok loaded = Raise e) as Heq
          by (apply IH; exists pre, l, post, ld; auto).
        discriminate.
      * split.
        -- intro H. inversion H; subst.
           destruct (proj1 (IH e) eq_refl) as (pre & l & post & ld & H1 & H2 & H3).
           exists (line :: pre), l, post, (entry :: ld). simpl.
           rewrite H1, H2, Hl. auto.
        -- intros (pre & l & post & ld & H & Hpre & Hbad).
           destruct pre as [|p pre]; simpl in H; inversion H; subst; [congruence|].
           destruct ld as [|d ld]; [discriminate|]. simpl in Hpre. inversion Hpre.
           apply IH. exists pre, l, post, ld. auto.
    + split.
      * intro H. inversion H; subst. exists [], line, (filter not_blank rest), [].
        auto.
      * intros (pre & l & post & ld & H & Hpre & Hbad).
        destruct pre as [|p pre]; simpl in H; inversion H; subst; [congruence|].
        destruct ld as [|d ld]; [discriminate|]. simpl in Hpre. inversion Hpre. congruence.
Qed.

(** X20. [load_all] reads all or nothing: a missing file gives no entry;
    blank lines are skipped; the result is the decoded lines in the order
    of the file when every other line decodes, and otherwise the
    exception of the first line that does not. It never changes the
    state. *)
Theorem load_all_reads_every_line_or_fails (st : State) :
  (storage st = None -> load_all st = (Ok [], st))
  /\ (forall content,
        storage st = Some content ->
        let lines := filter not_blank (file_lines content) in
        snd (load_all st) = st
        /\ (forall entries,
              fst (load_all st) = Ok entries <-> map json_loads lines = map Ok entries)
        /\ (forall e,
              fst (load_all st) = Raise e
              <-> exists pre line post loaded,
                    lines = pre ++ line :: post
                    /\ map json_loads pre = map Ok loaded
                    /\ json_loads line = Raise e)).
Proof.
  split.
  - intro H. unfold load_all. now rewrite H.
  - intros content H lines. unfold load_all. rewrite H. cbn [fst snd].
    split; [reflexivity|]. split.
    + apply load_lines_ok.
    + apply load_lines_raise.
Qed.

Lemma load_after_log (entries old : list metrics.MetricEntry) (st : State) :
  Forall round_trips entries ->
  complete_lines (content_of (storage st)) ->
  load_all st = (Ok old, st) ->
  exists st',
    log_each entries st = (Ok tt, st')
    /\ load_all st' = (Ok (old ++ entries), st').
Proof.
  intros Hall Hc Hold.
  destruct (log_each_spec entries st) as (st' & Hr & Hs & _).
  exists st'. split; [exact Hr|].
  assert (Hlines : load_lines (file_lines (content_of (storage st))) = Ok old).
  { unfold load_all in Hold. destruct (storage st); simpl.
    - now inversion Hold.
    - inversion Hold. reflexivity. }
  unfold load_all. rewrite Hs. destruct entries as [|e es].
  - rewrite app_nil_r. destruct (storage st); simpl in *; now rewrite ?Hlines.
  - now rewrite (load_after_lines (e :: es) Hall _ old Hc Hlines).
Qed.

(** X27. After [log] of some entries, [get_stats] is computed on the
    entries that were in the file followed by the new ones. It does not
    give the error dict then, and in a summary that comes back
    [total_runs] is the number of both, and the breakdown and the trend are
    those of the old entries followed by the new ones. *)
Theorem logged_entries_are_counted (entries old : list metrics.MetricEntry) (st : State) :
  Forall round_trips entries -> entries <> [] ->
  complete_lines (content_of (storage st)) ->
  load_all st = (Ok old, st) ->
  exists st',
    log_each entries st = (Ok tt, st')
    /\ get_stats None st' = (metrics.get_stats_from (old ++ entries) None, st')
    /\ (forall error,
          metrics.get_stats_from (old ++ entries) None = Ok (metrics.stats_error error) ->
          False)
    /\ (forall s,
          metrics.get_stats_from (old ++ entries) None = Ok (metrics.stats_summary s) ->
          metrics.total_runs s = Z.of_nat (List.length old + List.length entries)
          /\ metrics.goal_type_breakdown s = metrics._goal_type_breakdown (old ++ entries)
          /\ metrics._calculate_trend (old ++ entries) 5 = Ok (metrics.recent_trend s)).
Proof.
  intros Hall Hne Hc Hold.
  destruct (load_after_log entries old st Hall Hc Hold) as (st' & Hlog & Hload).
  assert (Hboth : old ++ entries <> []) by (destruct old; [exact Hne | discriminate]).
  exists st'. split; [exact Hlog|].
  split; [unfold get_stats, bind; rewrite Hload; reflexivity|].
  split.
  - intros error H.
    destruct (get_stats_from_cases (old ++ entries) None)
      as [[Hl Hs]|[Hl [(s & Hs & _)|[msg Hs]]]]; rewrite Hs in H; try discriminate.
    now apply Hboth.
  - intros s Hs. destruct (get_stats_from_summary _ _ _ Hs) as (_ & Ht & Hb & Htrend).
    cbn [metrics.last_entries] in *. now rewrite Ht, length_app.
Qed.
End LoadFacts.

(** ** A run as a whole *)

Section RunFacts.
Context {E : Env}.

Lemma record_run_value user_goal start_time task_plan tool_results raw_exec
    execution_succeeded execution_errors score (st : State) :
  exists execution_time now st',
    record_run user_goal start_time task_plan tool_results raw_exec
      execution_succeeded execution_errors score st
    = (Ok (returned_result user_goal task_plan tool_results score execution_time
             raw_exec execution_succeeded execution_errors), st')
    /\ storage st'
       = appended (storage st)
           (json_dumps (logged_entry user_goal task_plan score execution_time
                          execution_succeeded execution_errors now) ++ nl)
    /\ calls st' = calls st /\ prompts st' = prompts st.
Proof.
  unfold record_run, bind, clock, external, log, append_text, ret, with_world.
  destruct (time_time (world st)) as [end_time w1]. simpl.
  destruct (now_isoformat w1) as [now w2]. simpl.
  exists (PyNum.fsub end_time start_time), now. eexists.
  split; [reflexivity|]. simpl. unfold appended. repeat split; reflexivity.
Qed.

(** How a run can end. *)
Lemma run_outcomes user_goal tools (st : State) r st' :
  run_orchestration user_goal tools st = (r, st') ->
  (exists e, r = Raise e /\ calls st' = calls st /\ prompts st' = prompts st
             /\ storage st' = storage st)
  \/ exists start_time task_plan tool_results st3 raw_exec ok errs st4 r5 st5,
       dispatched user_goal tools st start_time task_plan tool_results st3
       /\ run_executor (exec_description task_plan tool_results user_goal) st3
          = (Ok (raw_exec, ok, errs), st4)
       /\ judge_run user_goal task_plan raw_exec None st4 = (r5, st5)
       /\ match r5 with
          | Raise e => r = Raise e /\ st' = st5
          | Ok score =>
              exists execution_time now,
                r = Ok (returned_result user_goal task_plan tool_results score
                          execution_time raw_exec ok errs)
                /\ storage st'
                   = appended (storage st5)
                       (json_dumps (logged_entry user_goal task_plan score execution_time
                                      ok errs now) ++ nl)
                /\ calls st' = calls st5 /\ prompts st' = prompts st5
          end.
Proof.
  intro H.
  destruct (time_time (world st)) as [start_time w1] eqn:Ht.
  destruct (planner_kickoff
              (plan_description (PyStr.join ", " (get_tool_names tools)) user_goal) w1)
    as [[raw|e1] w2] eqn:Hp.
  2: { rewrite (run_stopped_by_planner _ _ _ _ _ _ _ Ht Hp) in H.
       inversion H; subst. left. exists e1. auto. }
  destruct (parse_plan (sanitize raw)) as [task_plan|e1] eqn:Hparse.
  2: { rewrite (run_stopped_by_parse _ _ _ _ _ _ _ _ Ht Hp Hparse) in H.
       inversion H; subst. left. exists e1. auto. }
  assert (Hplan : planned user_goal tools st start_time task_plan (with_world st w2))
    by (exists w1, raw, w2; auto).
  destruct (validate_tools task_plan (get_tool_names tools)) as [[]|e1] eqn:Hv.
  2: { rewrite (run_stopped_by_gate _ _ _ _ _ _ _ Hplan Hv) in H.
       inversion H; subst. left. exists e1. auto. }
  destruct (execute_plan_tools_spec task_plan (ToolRunner_init tools) user_goal
              (with_world st w2))
    as (results & new & st3 & Hrun & _).
  assert (Hd : dispatched user_goal tools st start_time task_plan results st3)
    by (exists (with_world st w2); auto).
  destruct (run_executor (exec_description task_plan results user_goal) st3)
    as [[[[raw_exec ok] errs]|e1] st4] eqn:Hexec.
  2: { rewrite run_executor_spec in Hexec.
       destruct (executor_kickoff _ (world st3)) as [[a|e2] w]; discriminate. }
  right.
  destruct (judge_run user_goal task_plan raw_exec None st4) as [r5 st5] eqn:Hj.
  exists start_time, task_plan, results, st3, raw_exec, ok, errs, st4, r5, st5.
  split; [exact Hd|]. split; [exact Hexec|]. split; [exact Hj|].
  rewrite (run_from_executor _ _ _ _ _ _ _ Hd) in H.
  rewrite (bind_ok _ _ _ _ _ Hexec) in H. cbv beta iota in H.
  destruct r5 as [score|e].
  - rewrite (bind_ok _ _ _ _ _ Hj) in H.
    destruct (record_run_value user_goal start_time task_plan results raw_exec ok errs
                score st5) as (t & now & st6 & Hr & Hs & Hc & Hq).
    rewrite Hr in H. inversion H; subst. exists t, now. auto.
  - rewrite (bind_raise _ _ _ _ _ Hj) in H. inversion H; subst. auto.
Qed.

Lemma parse_plan_steps (raw : string) (task_plan : schemas.TaskPlan) :
  parse_plan raw = Ok task_plan -> schemas.steps task_plan <> [].
Proof.
  unfold parse_plan, TaskPlan_model_validate_json.
  destruct (TaskPlan_fields raw) as [plan|]; [|discriminate].
  destruct (schemas.steps plan) as [|s l] eqn:Hs; [discriminate|].
  intro H. inversion H; subst. rewrite Hs. discriminate.
Qed.

Lemma validated_tools_are_loaded (task_plan : schemas.TaskPlan) (tools : list Tool) :
  validate_tools task_plan (get_tool_names tools) = Ok tt ->
  forall tool, In tool (plan_tools task_plan) -> In tool (map name tools).
Proof.
  unfold validate_tools. intros H tool Hin.
  destruct (validate_steps_cases task_plan (get_tool_names tools) (schemas.steps task_plan))
    as [[Hall _]|(pre & step & post & b & t & a & _ & _ & _ & _ & _ & Hr)];
    [|rewrite Hr in H; discriminate].
  unfold plan_tools in Hin. apply in_concat in Hin. destruct Hin as (l & Hl & Hin).
  apply in_map_iff in Hl. destruct Hl as (step & <- & Hstep).
  rewrite Forall_forall in Hall. specialize (Hall step Hstep).
  rewrite Forall_forall in Hall. apply in_get_tool_names. now apply Hall.
Qed.

Lemma dispatched_facts user_goal tools st start_time task_plan tool_results st3 :
  dispatched user_goal tools st start_time task_plan tool_results st3 ->
  schemas.steps task_plan <> []
  /\ (forall tool, In tool (plan_tools task_plan) -> In tool (map name tools))
  /\ dict_keys tool_results = dedup (plan_tools task_plan)
  /\ storage st3 = storage st /\ prompts st3 = prompts st
  /\ exists new, calls st3 = calls st ++ new
                 /\ map call_tool new = dedup (plan_tools task_plan).
Proof.
  intros (st2 & (w1 & raw & w2 & _ & _ & Hparse & ->) & Hv & Hx).
  destruct (execute_plan_tools_spec task_plan (ToolRunner_init tools) user_goal
              (with_world st w2))
    as (results & new & st3' & Hrun & (Hc & Hp & Hs) & Hnames & Hkeys & Hnew).
  rewrite Hx in Hrun. inversion Hrun; subst results st3'.
  split; [eapply parse_plan_steps; exact Hparse|].
  split; [now apply validated_tools_are_loaded|].
  split; [exact Hkeys|]. split; [exact Hs|]. split; [exact Hp|].
  exists new. auto.
Qed.

Lemma run_executor_facts (description : string) (st : State) raw_exec ok errs st4 :
  run_executor description st = (Ok (raw_exec, ok, errs), st4) ->
  calls st4 = calls st /\ prompts st4 = prompts st /\ storage st4 = storage st
  /\ (ok = true <-> errs = [])
  /\ (ok = false ->
      exists msg, errs = [msg] /\ raw_exec = cat ["Execution failed: "; msg]).
Proof.
  rewrite run_executor_spec.
  destruct (executor_kickoff description (world st)) as [[a|e] w]; intro H;
    inversion H; subst; simpl; repeat split; auto; try discriminate.
  intros _. eauto.
Qed.

(** C10. In every run that returns, and so has logged its entry, the
    entry's [completed] and [errors] are those of the result and tell of
    the executor alone: when the executor gave an answer they are [True]
    and the empty list, when it raised [e] they are [False] and the one
    text [str(e)], whatever the tools did. A tool call that raised appears
    only as its "Error: ..." text in the tool results, and when every tool
    call raised, every tool result is such a text. *)
Theorem tool_failures_stay_out_of_the_entry (user_goal : string) (tools : list Tool)
    (st : State) (res : execution.ExecutionResult) (st' : State) :
  run_orchestration user_goal tools st = (Ok res, st') ->
  exists start_time task_plan tool_results st3 synthesis w4 entry new,
    dispatched user_goal tools st start_time task_plan tool_results st3
    /\ executor_kickoff (exec_description task_plan tool_results user_goal) (world st3)
       = (synthesis, w4)
    /\ storage st' = appended (storage st) (json_dumps entry ++ nl)
    /\ metrics.completed entry = execution.completed res
    /\ metrics.errors entry = execution.errors res
    /\ match synthesis with
       | Ok answer =>
           metrics.completed entry = true /\ metrics.errors entry = []
           /\ execution.final_answer res = answer
       | Raise e =>
           metrics.completed entry = false /\ metrics.errors entry = [str_exn e]
           /\ execution.final_answer res = cat ["Execution failed: "; str_exn e]
       end
    /\ execution.tool_results (execution.outputs res) = tool_results
    /\ calls st' = calls st ++ new
    /\ map call_tool new = dict_keys tool_results
    /\ (forall c e, In c new -> call_result c = Raise e ->
          dict_get (call_tool c) tool_results = Some (cat ["Error: "; str_exn e]))
    /\ ((forall c, In c new -> exists e, call_result c = Raise e) ->
        forall tool_name text, dict_get tool_name tool_results = Some text ->
          exists e, text = cat ["Error: "; str_exn e]).
Proof.
  intro H.
  destruct (run_outcomes _ _ _ _ _ H)
    as [(e & He & _)|(t0 & task_plan & results & st3 & raw_exec & ok & errs & st4 & r5 & st5
                      & Hd & Hexec & Hj & Hend)]; [discriminate|].
  destruct r5 as [score|e]; [|destruct Hend; discriminate].
  destruct Hend as (t & now & Hres & Hs & Hc & _). inversion Hres; subst res. clear Hres.
  destruct (dispatched_keeps _ _ _ _ _ _ _ Hd) as (Hs3 & new & Hcalls & Hkeys & Hnew).
  destruct (judge_run_keeps _ _ _ _ _ _ _ Hj) as [Hs5 Hc5].
  destruct (run_executor_facts _ _ _ _ _ _ Hexec) as (Hc4 & _ & Hs4 & _).
  rewrite run_executor_spec in Hexec.
  destruct (executor_kickoff (exec_description task_plan results user_goal) (world st3))
    as [synthesis w4] eqn:Hk.
  exists t0, task_plan, results, st3, synthesis, w4,
    (logged_entry user_goal task_plan score t ok errs now), new.
  split; [exact Hd|]. split; [exact Hk|].
  split; [now rewrite Hs, Hs5, Hs4, Hs3|].
  split; [reflexivity|]. split; [reflexivity|].
  split; [destruct synthesis; inversion Hexec; subst; cbn; auto|].
  split; [reflexivity|].
  split; [now rewrite Hc, Hc5, Hc4|].
  split; [now symmetry|].
  split.
  - intros c e Hin Hraise. rewrite (Hnew c Hin), Hraise. reflexivity.
  - intros Hall tool_name text Hget.
    assert (Hin : In tool_name (dict_keys results)).
    { apply dict_has_iff. unfold dict_has. now rewrite Hget. }
    rewrite Hkeys in Hin. apply in_map_iff in Hin. destruct Hin as (c & <- & Hin).
    destruct (Hall c Hin) as (e & Hraise). exists e.
    rewrite (Hnew c Hin), Hraise in Hget. inversion Hget. reflexivity.
Qed.

(** X21. What a run that returns has done. The plan has at least one
    step and names loaded tools only; the keys of the tool results are
    the tools of the plan, each once; the marks of the judge are between
    0 and 5; [completed] holds exactly when [errors] is empty, and
    otherwise the answer is \x22Execution failed: \x22 followed by the one
    error; one line was appended to the metrics file, for an entry that
    agrees with the result, its [tools_used] being the keys of the tool
    results in the order that the set gives them; and the judge was asked
    about the answer that is returned, without a trace, at most twice. *)
Theorem a_finished_run_is_consistent (user_goal : string) (tools : list Tool)
    (st : State) (res : execution.ExecutionResult) (st' : State) :
  run_orchestration user_goal tools st = (Ok res, st') ->
  let plan := execution.plan (execution.outputs res) in
  let tool_results := execution.tool_results (execution.outputs res) in
  execution.goal res = user_goal
  /\ schemas.steps plan <> []
  /\ (forall tool, In tool (plan_tools plan) -> In tool (map name tools))
  /\ dict_keys tool_results = dedup (plan_tools plan)
  /\ scores_in_range (execution.judge_score (execution.outputs res))
  /\ (execution.completed res = true <-> execution.errors res = [])
  /\ (execution.completed res = false ->
      exists msg, execution.errors res = [msg]
                  /\ execution.final_answer res = cat ["Execution failed: "; msg])
  /\ exists entry,
       storage st' = appended (storage st) (json_dumps entry ++ nl)
       /\ metrics.goal entry = user_goal
       /\ metrics.goal_type entry = metrics.infer_goal_type user_goal
       /\ metrics.success_score entry
          = judge.success (execution.judge_score (execution.outputs res))
       /\ in_range entry
       /\ metrics.completed entry = execution.completed res
       /\ metrics.errors entry = execution.errors res
       /\ Permutation (metrics.tools_used entry) (dict_keys tool_results)
       /\ NoDup (metrics.tools_used entry)
       /\ metrics.execution_time_seconds entry
          = execution.execution_time (execution.outputs res)
       /\ exists sent,
            prompts st'
            = prompts st
              ++ judge_prompt user_goal plan (execution.final_answer res) None :: sent
            /\ List.length sent <= 1.
Proof.
  intros H plan tool_results.
  destruct (run_outcomes _ _ _ _ _ H)
    as [(e & He & _)|(t0 & task_plan & results & st3 & raw_exec & ok & errs & st4 & r5 & st5
                      & Hd & Hexec & Hj & Hend)]; [discriminate|].
  destruct r5 as [score|e]; [|destruct Hend; discriminate].
  destruct Hend as (t & now & Hres & Hs & _ & Hp). inversion Hres; subst res. clear Hres.
  destruct (dispatched_facts _ _ _ _ _ _ _ Hd) as (Hsteps & Hloaded & Hkeys & Hs3 & Hp3 & _).
  destruct (run_executor_facts _ _ _ _ _ _ Hexec) as (_ & Hp4 & Hs4 & Hok & Hfail).
  destruct (judge_run_keeps _ _ _ _ _ _ _ Hj) as [Hs5 _].
  assert (Hjudge : scores_in_range score
                   /\ exists sent,
                        prompts st5
                        = prompts st4 ++ judge_prompt user_goal task_plan raw_exec None :: sent
                        /\ List.length sent <= 1).
  { destruct (judge_run_cases user_goal task_plan raw_exec None st4)
      as [(r & w & Hr & Hsc)|(raw & r & w & Hr & _ & Hsc)];
      rewrite Hj in Hr; inversion Hr; subst; (split; [now apply Hsc|]);
      eexists; (split; [reflexivity | simpl; lia]). }
  destruct Hjudge as (Hrange & sent & Hp5 & Hlen).
  unfold plan, tool_results. cbn.
  repeat (split; [assumption || reflexivity|]).
  exists (logged_entry user_goal task_plan score t ok errs now).
  rewrite Hs, Hs5, Hs4, Hs3. cbn.
  assert (Hset : Permutation (list_set (plan_tools task_plan)) (dict_keys results))
    by (rewrite Hkeys; apply list_set_elements).
  repeat (split; [reflexivity || exact Hset || apply Hrange|]).
  split.
  { apply (Permutation_NoDup (Permutation_sym (list_set_elements _))), NoDup_dedup. }
  split; [reflexivity|].
  exists sent. rewrite Hp, Hp5, Hp4, Hp3. auto.
Qed.

(** X22. However a run ends, it has called each tool at most once and
    loaded tools only, it has sent the judge at most two prompts, and the
    metrics file is as before or, when the run returns, one line longer. *)
Theorem a_run_calls_each_tool_once (user_goal : string) (tools : list Tool) (st : State) :
  let outcome := run_orchestration user_goal tools st in
  exists new sent,
    calls (snd outcome) = calls st ++ new
    /\ NoDup (map call_tool new)
    /\ (forall c, In c new -> In (call_tool c) (map name tools))
    /\ prompts (snd outcome) = prompts st ++ sent
    /\ List.length sent <= 2
    /\ (storage (snd outcome) = storage st
        \/ exists entry res,
             fst outcome = Ok res
             /\ storage (snd outcome) = appended (storage st) (json_dumps entry ++ nl)).
Proof.
  intro outcome. unfold outcome.
  destruct (run_orchestration user_goal tools st) as [r st'] eqn:H. cbn [fst snd].
  destruct (run_outcomes _ _ _ _ _ H)
    as [(e & He & Hc & Hp & Hs)|(t0 & task_plan & results & st3 & raw_exec & ok & errs & st4
                                & r5 & st5 & Hd & Hexec & Hj & Hend)].
  - exists [], []. rewrite Hc, Hp, !app_nil_r. repeat split; auto; try constructor.
    intros c [].
  - destruct (dispatched_facts _ _ _ _ _ _ _ Hd)
      as (_ & Hloaded & _ & Hs3 & Hp3 & new & Hc3 & Hnames).
    destruct (run_executor_facts _ _ _ _ _ _ Hexec) as (Hc4 & Hp4 & Hs4 & _).
    destruct (judge_run_keeps _ _ _ _ _ _ _ Hj) as [Hs5 Hc5].
    assert (Hsent : exists sent, prompts st5 = prompts st4 ++ sent /\ List.length sent <= 2).
    { destruct (judge_run_cases user_goal task_plan raw_exec None st4)
        as [(r0 & w & Hr & _)|(raw & r0 & w & Hr & _)];
        rewrite Hj in Hr; inversion Hr; subst; eexists; split; try reflexivity; simpl; lia. }
    destruct Hsent as (sent & Hp5 & Hlen).
    exists new, sent.
    assert (Hnd : NoDup (map call_tool new)) by (rewrite Hnames; apply NoDup_dedup).
    assert (Hin : forall c, In c new -> In (call_tool c) (map name tools)).
    { intros c Hc. apply Hloaded. apply (in_dedup _ (plan_tools task_plan)).
      rewrite <- Hnames. now apply in_map. }
    destruct r5 as [score|e].
    + destruct Hend as (t & now & Hres & Hs & Hc & Hp).
      rewrite Hc, Hc5, Hc4, Hc3, Hp, Hp5, Hp4, Hp3, Hs, Hs5, Hs4, Hs3.
      repeat split; auto. right. eauto.
    + destruct Hend as [-> ->].
      rewrite Hc5, Hc4, Hc3, Hp5, Hp4, Hp3, Hs5, Hs4, Hs3. repeat split; auto.
Qed.

End RunFacts.

(** ** The command shell *)

Section CliFacts.
Context {E : Env}.

Lemma read_command_cases (line : string) :
  let user_input := PyStr.strip line in
  (user_input = "" /\ read_command line = Ok Skip)
  \/ (user_input <> "" /\ PyStr.lower user_input = "exit" /\ read_command line = Ok Exit)
  \/ (user_input <> "" /\ PyStr.lower user_input = "help" /\ read_command line = Ok Help)
  \/ (user_input <> "" /\ PyStr.lower user_input = "clear" /\ read_command line = Ok Clear)
  \/ (user_input <> "" /\ is_metrics_command line = true
      /\ read_command line
         = match metrics_argument (PyStr.split user_input) with
           | Ok last_n => Ok (Metrics last_n)
           | Raise e => Raise e
           end)
  \/ (user_input <> "" /\ is_metrics_command line = false
      /\ ~ In (PyStr.lower user_input) ["exit"; "help"; "clear"]
      /\ read_command line = Ok (Run user_input)).
Proof.
  intro user_input. unfold read_command, is_metrics_command. fold user_input.
  destruct (String.eqb_spec user_input "") as [H0|H0]; [left; auto|]. right.
  destruct (String.eqb_spec (PyStr.lower user_input) "exit") as [H1|H1]; [left; auto|]. right.
  destruct (String.eqb_spec (PyStr.lower user_input) "help") as [H2|H2]; [left; auto|]. right.
  destruct (String.eqb_spec (PyStr.lower user_input) "clear") as [H3|H3]; [left; auto|]. right.
  destruct (PyStr.startswith (PyStr.lower user_input) "metrics") eqn:H4; [left; auto|]. right.
  repeat split; auto. simpl. intuition congruence.
Qed.

(** X23. The shell runs a line as a goal only when it is not a command:
    the goal is the line without the blanks around it, it is not empty,
    it is none of exit, help and clear in any letter case, and it does
    not start with metrics in any letter case. *)
Theorem only_plain_requests_are_run (line user_input : string) :
  read_command line = Ok (Run user_input) ->
  user_input = PyStr.strip line
  /\ user_input <> ""
  /\ PyStr.strip user_input = user_input
  /\ is_metrics_command line = false
  /\ ~ In (PyStr.lower user_input) ["exit"; "help"; "clear"].
Proof.
  intro H.
  destruct (read_command_cases line)
    as [[_ Hr]|[(_ & _ & Hr)|[(_ & _ & Hr)|[(_ & _ & Hr)|[(_ & _ & Hr)|(Hne & Hm & Hn & Hr)]]]]];
    rewrite Hr in H; try discriminate.
  - destruct (metrics_argument _); discriminate.
  - inversion H; subst. repeat split; auto. apply strip_idempotent.
Qed.

Lemma int_of_digits_not_negative (s : string) : (0 <= int_of_digits s)%Z.
Proof.
  unfold int_of_digits.
  assert (H : forall l n, (0 <= n)%Z ->
            (0 <= fold_left (fun n c => 10 * n + Z.of_nat (PyStr.code c - 48)) l n)%Z).
  { induction l as [|c l IH]; intros n Hn; cbn [fold_left]; [exact Hn|]. apply IH. lia. }
  apply H. lia.
Qed.

Lemma metrics_argument_not_negative (parts : list string) (n : Z) :
  metrics_argument parts = Ok (Some n) -> (0 <= n)%Z.
Proof.
  unfold metrics_argument. destruct parts as [|p0 [|part rest]]; try discriminate.
  destruct (PyStr.isdigit_str part); [|discriminate].
  unfold int_of_str. destruct (4300 <? PyStr.len part); [discriminate|].
  intro H. inversion H. apply int_of_digits_not_negative.
Qed.

(** X24. The shell never asks [get_stats] for a negative [last_n]: the
    number after metrics counts only when it is made of digits. So from
    the shell the entries counted are always the last ones of the file,
    and \x22No metrics available\x22 means that the file holds no entry. *)
Theorem the_shell_never_asks_for_a_negative_window (line : string) (last_n : option Z) :
  read_command line = Ok (Metrics last_n) ->
  is_metrics_command line = true
  /\ (forall n, last_n = Some n -> (0 <= n)%Z)
  /\ (forall entries,
        metrics.get_stats_from entries last_n
        = Ok (metrics.stats_error "No metrics available")
        <-> entries = [])
  /\ (forall entries,
        exists k, metrics.last_entries entries last_n = skipn k entries).
Proof.
  intro H.
  destruct (read_command_cases line)
    as [[_ Hr]|[(_ & _ & Hr)|[(_ & _ & Hr)|[(_ & _ & Hr)|[(_ & Hm & Hr)|(_ & _ & _ & Hr)]]]]];
    rewrite Hr in H; try discriminate.
  destruct (metrics_argument _) as [arg|e] eqn:Ha; [|discriminate].
  inversion H; subst arg. clear H.
  assert (Hpos : forall n, last_n = Some n -> (0 <= n)%Z).
  { intros n ->. eapply metrics_argument_not_negative. exact Ha. }
  split; [exact Hm|]. split; [exact Hpos|]. split.
  - intro entries.
    destruct (get_stats_from_cases entries last_n)
      as [[Hl Hs]|[Hl [(s & Hs & _)|[msg Hs]]]];
      rewrite Hs; rewrite last_entries_nil in Hl.
    + split; [|reflexivity]. intros _.
      destruct Hl as [Hl|(n & Hn & Hlt & _)]; [exact Hl|].
      specialize (Hpos n Hn). lia.
    + split; [discriminate|]. intro He. exfalso. apply Hl. now left.
    + split; [discriminate|]. intro He. exfalso. apply Hl. now left.
  - intro entries. destruct last_n as [n|]; [|now exists 0].
    cbn [metrics.last_entries]. destruct (Z.eqb_spec n 0); [now exists 0|].
    eexists. apply py_slice_last. specialize (Hpos n eq_refl). lia.
Qed.

Lemma get_stats_keeps (last_n : option Z) (st : State) :
  snd (get_stats last_n st) = st.
Proof.
  unfold get_stats, bind, load_all, of_result.
  destruct (storage st) as [content|]; [|reflexivity].
  now destruct (load_lines (file_lines content)).
Qed.

Lemma run_storage_grows user_goal tools (st : State) :
  exists more,
    content_of (storage (snd (run_orchestration user_goal tools st)))
    = (content_of (storage st) ++ more)%string.
Proof.
  destruct (run_orchestration user_goal tools st) as [r st'] eqn:H. cbn [snd].
  destruct (run_outcomes _ _ _ _ _ H)
    as [(e & He & Hc & Hp & Hs)|(t0 & task_plan & results & st3 & raw_exec & ok & errs & st4
                                & r5 & st5 & Hd & Hexec & Hj & Hend)].
  - exists "". now rewrite Hs, append_nil_r.
  - destruct (dispatched_facts _ _ _ _ _ _ _ Hd) as (_ & _ & _ & Hs3 & _).
    destruct (run_executor_facts _ _ _ _ _ _ Hexec) as (_ & _ & Hs4 & _).
    destruct (judge_run_keeps _ _ _ _ _ _ _ Hj) as [Hs5 _].
    destruct r5 as [score|e].
    + destruct Hend as (t & now & _ & Hs & _). rewrite Hs, Hs5, Hs4, Hs3.
      eexists. unfold appended. destruct (storage st); simpl; reflexivity.
    + destruct Hend as [_ ->]. exists "". now rewrite Hs5, Hs4, Hs3, append_nil_r.
Qed.

Lemma main_loop_run (tools : list Tool) (line user_input : string) (rest : list string)
    (st : State) :
  read_command line = Ok (Run user_input) ->
  main_loop tools (line :: rest) st
  = main_loop tools rest (snd (run_orchestration user_input tools st)).
Proof.
  intro H. cbn [main_loop]. rewrite H. unfold bind, try_except, ret.
  now destruct (run_orchestration user_input tools st) as [[res|e] st1].
Qed.

Lemma main_loop_metrics (tools : list Tool) (line : string) (last_n : option Z)
    (rest : list string) (st : State) :
  read_command line = Ok (Metrics last_n) ->
  main_loop tools (line :: rest) st
  = match fst (get_stats last_n st) with
    | Ok _ => main_loop tools rest st
    | Raise e => (Raise e, st)
    end.
Proof.
  intro H. cbn [main_loop]. rewrite H. unfold bind.
  pose proof (get_stats_keeps last_n st) as K.
  destruct (get_stats last_n st) as [[s|e] st1]; simpl in *; now subst.
Qed.

(** X25. No failure of a run ends the shell: over lines none of which is
    the metrics command, the loop of [main] ends without an exception,
    whatever the planner, the tools, the executor and the judge do. *)
Theorem the_shell_survives_failed_runs (tools : list Tool) (lines : list string) :
  Forall (fun line => is_metrics_command line = false) lines ->
  forall st, exists st', main_loop tools lines st = (Ok tt, st').
Proof.
  induction 1 as [|line rest Hline _ IH]; intro st.
  - exists st. reflexivity.
  - destruct (read_command_cases line)
      as [[_ Hr]|[(_ & _ & Hr)|[(_ & _ & Hr)|[(_ & _ & Hr)|[(_ & Hm & _)|(_ & _ & _ & Hr)]]]]].
    + cbn [main_loop]. rewrite Hr. apply IH.
    + cbn [main_loop]. rewrite Hr. eexists. reflexivity.
    + cbn [main_loop]. rewrite Hr. apply IH.
    + cbn [main_loop]. rewrite Hr. apply IH.
    + congruence.
    + rewrite (main_loop_run _ _ _ _ _ Hr). apply IH.
Qed.

(** X26. The shell only ever appends to the metrics file: after any lines
    of input, what the file held at the start is still the beginning of
    what it holds. *)
Theorem the_shell_only_appends_to_the_metrics (tools : list Tool) (lines : list string) :
  forall st,
    exists more,
      content_of (storage (snd (main_loop tools lines st)))
      = (content_of (storage st) ++ more)%string.
Proof.
  induction lines as [|line rest IH]; intro st.
  - exists "". simpl. now rewrite append_nil_r.
  - destruct (read_command line) as [[| | | |last_n|user_input]|e] eqn:Hr.
    + cbn [main_loop]. rewrite Hr. apply IH.
    + cbn [main_loop]. rewrite Hr. exists "". simpl. now rewrite append_nil_r.
    + cbn [main_loop]. rewrite Hr. apply IH.
    + cbn [main_loop]. rewrite Hr. apply IH.
    + rewrite (main_loop_metrics _ _ _ _ _ Hr).
      destruct (fst (get_stats last_n st)); [apply IH|].
      exists "". simpl. now rewrite append_nil_r.
    + rewrite (main_loop_run _ _ _ _ _ Hr).
      destruct (IH (snd (run_orchestration user_input tools st))) as [more2 H2].
      destruct (run_storage_grows user_input tools st) as [more1 H1].
      exists (more1 ++ more2)%string. now rewrite H2, H1, append_assoc.
    + cbn [main_loop]. rewrite Hr. exists "". simpl. now rewrite append_nil_r.
Qed.

End CliFacts.

(* ------------------------------------------------------------------ *)
(** ** The city after in or for *)

Lemma run_chars_step {R : Type} (l : list ascii) :
  forall (prev : option ascii) (more : list ascii) (ps : nat) (g : groups)
         (k : cursor -> groups -> option R),
    run (seqs (map Chr l)) {| before := prev; rest := l ++ more; pos := ps |} g k
    = k {| before := last_read prev l; rest := more; pos := ps + List.length l |} g.
Proof.
  induction l as [|x l IH]; intros prev more ps g k.
  - simpl. now rewrite Nat.add_0_r.
  - cbn [map seqs fold_right app]. change (fold_right Seq Eps (map Chr l)) with (seqs (map Chr l)).
    cbn [run]. unfold Chr at 1. rewrite run_cls_step, Ascii.eqb_refl.
    rewrite IH. cbn [last_read List.length]. f_equal. f_equal. lia.
Qed.

Lemma run_seq {R : Type} (r1 r2 : regex) c g (k : cursor -> groups -> option R) :
  run (Seq r1 r2) c g k = run r1 c g (fun c' g' => run r2 c' g' k).
Proof. reflexivity. Qed.

Lemma run_star {R : Type} (greedy : bool) (r : regex) c g
    (k : cursor -> groups -> option R) :
  run (Star greedy r) c g k = star_loop (run r) greedy k (S (List.length (rest c))) c g.
Proof. reflexivity. Qed.

Lemma run_grp {R : Type} (i : nat) (r : regex) c g (k : cursor -> groups -> option R) :
  run (Grp i r) c g k
  = run r c g (fun c' g' => k c' ((i, firstn (pos c' - pos c) (rest c)) :: g')).
Proof. reflexivity. Qed.

Lemma star_loop_lazy_stop {R : Type}
    (body : cursor -> groups -> (cursor -> groups -> option R) -> option R)
    (k : cursor -> groups -> option R) (n : nat) (c : cursor) (g : groups) (x : R) :
  k c g = Some x -> star_loop body false k n c g = Some x.
Proof. intro H. destruct n; simpl; now rewrite H. Qed.

(** What may follow the city: the end, a question mark or a comma. *)
Lemma city_tail {R : Type} (tail more : list ascii) (prev : option ascii) (ps : nat)
    (g : groups) (f : cursor -> groups -> R) :
  tail = [] \/ tail = "?"%char :: more \/ tail = ","%char :: more ->
  exists c',
    run (alts [Seq (Plus true (Cls space)) (Lit "weather"); Eol; Chr "?"; Chr ","])
      {| before := prev; rest := tail; pos := ps |} g (fun c g' => Some (f c g'))
    = Some (f c' g).
Proof.
  intros [->|[->| ->]]; eexists.
  - reflexivity.
  - cbn [alts]. cbn [run]. unfold Plus. rewrite run_seq, run_cls_step.
    change (space "?"%char) with false. cbv iota.
    replace (at_end _) with false by (unfold at_end; cbn [rest]; now destruct more).
    unfold Chr at 1. rewrite run_cls_step. reflexivity.
  - cbn [alts]. cbn [run]. unfold Plus. rewrite run_seq, run_cls_step.
    change (space ","%char) with false. cbv iota.
    replace (at_end _) with false by (unfold at_end; cbn [rest]; now destruct more).
    unfold Chr at 1. rewrite run_cls_step. change (Ascii.eqb "?" ",")%char with false.
    cbv iota. unfold Chr at 1. rewrite run_cls_step. reflexivity.
Qed.

Lemma city_tail_head (tail more : list ascii) :
  tail = [] \/ tail = "?"%char :: more \/ tail = ","%char :: more ->
  match tail with [] => True | y :: _ => a_z y = false end.
Proof. intros [->|[->| ->]]; simpl; auto. Qed.


Lemma run_alt {R : Type} (r1 r2 : regex) c g (k : cursor -> groups -> option R) :
  run (Alt r1 r2) c g k
  = match run r1 c g k with Some x => Some x | None => run r2 c g k end.
Proof. reflexivity. Qed.

Lemma run_wordb {R : Type} c g (k : cursor -> groups -> option R) :
  run WordB c g k = if at_boundary c then k c g else None.
Proof. reflexivity. Qed.

Lemma seqs_cons (r : regex) (l : list regex) : seqs (r :: l) = Seq r (seqs l).
Proof. reflexivity. Qed.

(** A literal fails where the text does not begin with it. *)
Lemma run_chars_mismatch {R : Type} (p : list ascii) :
  forall (l : list ascii) (prev : option ascii) (ps : nat) (g : groups)
         (k : cursor -> groups -> option R),
    PyStr.prefix_chars p l = false ->
    run (seqs (map Chr p)) {| before := prev; rest := l; pos := ps |} g k = None.
Proof.
  induction p as [|y p IH]; intros l prev ps g k H; [discriminate|].
  cbn [map]. rewrite seqs_cons, run_seq. unfold Chr at 1.
  destruct l as [|x l]; [reflexivity|].
  rewrite run_cls_step. cbn [PyStr.prefix_chars] in H.
  destruct (Ascii.eqb y x); [|reflexivity]. now apply IH.
Qed.

Lemma city_match_fails (prev : option ascii) (l : list ascii) (ps : nat) :
  PyStr.prefix_chars (PyStr.chars "in") l = false ->
  PyStr.prefix_chars (PyStr.chars "for") l = false ->
  match_at city_after_in_for {| before := prev; rest := l; pos := ps |} = None.
Proof.
  intros Hi Hf. unfold match_at, city_after_in_for.
  rewrite seqs_cons, run_seq, run_wordb.
  destruct (at_boundary _); [|reflexivity].
  rewrite seqs_cons, run_seq, run_alt. unfold Lit.
  now rewrite !run_chars_mismatch.
Qed.

Lemma search_from_skips (r : regex) (l : list ascii) :
  forall (lead : list ascii) (prev : option ascii) (ps : nat),
    (forall a x b prev' ps', lead = a ++ x :: b ->
       match_at r {| before := prev'; rest := x :: b ++ l; pos := ps' |} = None) ->
    search_from r prev (lead ++ l) ps
    = search_from r (last_read prev lead) l (ps + List.length lead).
Proof.
  induction lead as [|x lead IH]; intros prev ps Hfail.
  - cbn [app last_read List.length]. now rewrite Nat.add_0_r.
  - cbn [app search_from]. rewrite (Hfail [] x lead prev ps eq_refl).
    rewrite IH.
    + cbn [last_read List.length]. f_equal. lia.
    + intros a y b prev' ps' ->. apply (Hfail (x :: a) y b). reflexivity.
Qed.

(** A word without a space that begins [b], a space and more, begins [b]. *)
Lemma prefix_chars_before_space (p : list ascii) :
  Forall (fun c => Ascii.eqb c " " = false) p ->
  forall b l, PyStr.prefix_chars p (b ++ " "%char :: l) = true ->
              PyStr.prefix_chars p b = true.
Proof.
  induction 1 as [|y p Hy _ IH]; intros b l H; [now destruct b|].
  destruct b as [|x b]; cbn [app PyStr.prefix_chars] in *.
  - now rewrite Hy in H.
  - apply andb_prop in H. destruct H as [-> H]. now apply (IH b l).
Qed.

Lemma infix_chars_suffix (p a b : list ascii) :
  PyStr.infix_chars p (a ++ b) = false -> PyStr.prefix_chars p b = false.
Proof.
  induction a as [|x a IH]; cbn [app]; intro H.
  - destruct b; cbn [PyStr.infix_chars] in H; now apply orb_false_elim in H.
  - cbn [PyStr.infix_chars] in H. apply orb_false_elim in H. now apply IH.
Qed.

Lemma absent_word_never_begins (p lead a b l : list ascii) :
  Forall (fun c => Ascii.eqb c " " = false) p ->
  PyStr.infix_chars p lead = false -> lead = a ++ b ->
  PyStr.prefix_chars p (b ++ " "%char :: l) = false.
Proof.
  intros Hp Hlead ->.
  destruct (PyStr.prefix_chars p (b ++ " "%char :: l)) eqn:H; [|reflexivity].
  apply (prefix_chars_before_space p Hp) in H.
  now rewrite (infix_chars_suffix p a b Hlead) in H.
Qed.

(** The rest of the first pattern after its keyword: spaces, the city and
    what closes it. *)
Lemma city_follows (start : nat) (w tail more : list ascii) (x : ascii)
    (prev : option ascii) (ps : nat) :
  a_z x = true -> Forall (fun c => a_z c = true) w ->
  tail = [] \/ tail = "?"%char :: more \/ tail = ","%char :: more ->
  exists m,
    run (seqs [ Plus true (Cls space);
                Grp 1 (Seq (Plus true (Cls a_z))
                           (Star false (Seq (Plus true (Cls space)) (Plus true (Cls a_z)))));
                alts [ Seq (Plus true (Cls space)) (Lit "weather"); Eol; Chr "?"; Chr "," ] ])
      {| before := prev; rest := " "%char :: x :: w ++ tail; pos := ps |} []
      (fun c' g => Some {| m_start := start; m_end := pos c'; m_groups := g |})
    = Some m
    /\ group 1 m = Some (PyStr.text (x :: w)).
Proof.
  intros Hx Hw Htail.
  destruct (city_tail tail more (last_read (Some x) w)
              (S (S ps + 0) + List.length w) [(1, x :: w)]
              (fun c g' => {| m_start := start; m_end := pos c; m_groups := g' |})
              Htail) as [c' Hc'].
  eexists. split; [|shelve].
  rewrite seqs_cons, run_seq. unfold Plus at 1. rewrite run_seq, run_cls_step.
  change (space " "%char) with true. cbv iota.
  rewrite run_star. cbn [rest].
  apply (star_greedy_all space _ _ (x :: w ++ tail) []
           (lower_not_space x Hx) [] (Some " "%char) (S ps)).
  - constructor.
  - simpl. lia.
  - cbn [last_read List.length].
    rewrite seqs_cons, run_seq, run_grp, run_seq.
    unfold Plus at 1. rewrite run_seq, run_cls_step, Hx.
    rewrite run_star. cbn [rest].
    apply (star_greedy_all a_z _ _ tail _ (city_tail_head tail more Htail) w).
    + exact Hw.
    + rewrite length_app. lia.
    + apply star_loop_lazy_stop. cbn [pos rest].
      replace (S (S ps + 0) + List.length w - (S ps + 0))
        with (S (List.length w)) by lia.
      cbn [firstn]. rewrite firstn_app, Nat.sub_diag, firstn_all. cbn [firstn].
      rewrite app_nil_r, seqs_cons, run_seq.
      change (seqs []) with Eps.
      exact Hc'.
  Unshelve. reflexivity.
Qed.

Lemma city_match (kw : string) (w tail more : list ascii) (x : ascii) (ps : nat) :
  kw = "in" \/ kw = "for" ->
  a_z x = true -> Forall (fun c => a_z c = true) w ->
  tail = [] \/ tail = "?"%char :: more \/ tail = ","%char :: more ->
  exists m,
    match_at city_after_in_for
      {| before := Some " "%char;
         rest := PyStr.chars kw ++ " "%char :: x :: w ++ tail; pos := ps |}
    = Some m
    /\ group 1 m = Some (PyStr.text (x :: w)).
Proof.
  intros Hkw Hx Hw Htail.
  unfold match_at, city_after_in_for.
  rewrite seqs_cons, run_seq, run_wordb.
  replace (at_boundary _) with true by (now destruct Hkw as [-> | ->]).
  rewrite seqs_cons, run_seq, run_alt. unfold Lit. cbn [pos].
  destruct Hkw as [-> | ->].
  - rewrite run_chars_step. cbv beta.
    destruct (city_follows ps w tail more x
                (last_read (Some " "%char) (PyStr.chars "in"))
                (ps + List.length (PyStr.chars "in")) Hx Hw Htail) as (m & Hm & Hg).
    exists m. unfold Lit in Hm. now rewrite Hm.
  - rewrite (run_chars_mismatch (PyStr.chars "in")) by reflexivity.
    rewrite run_chars_step. cbv beta.
    destruct (city_follows ps w tail more x
                (last_read (Some " "%char) (PyStr.chars "for"))
                (ps + List.length (PyStr.chars "for")) Hx Hw Htail) as (m & Hm & Hg).
    exists m. unfold Lit in Hm. now rewrite Hm.
Qed.

Lemma search_from_here (r : regex) (prev : option ascii) (l : list ascii) (p : nat)
    (m : match_obj) :
  match_at r {| before := prev; rest := l; pos := p |} = Some m ->
  search_from r prev l p = Some m.
Proof. intro H. destruct l; simpl; now rewrite H. Qed.

Lemma letter_lower (c : ascii) :
  PyStr.islower c || PyStr.isupper c = true -> a_z (PyStr.lower_char c) = true.
Proof.
  unfold a_z, PyStr.lower_char. intro H.
  destruct (PyStr.isupper c) eqn:Hu.
  - unfold PyStr.isupper, PyStr.islower, PyStr.code in *.
    apply andb_prop in Hu. destruct Hu as [H1 H2].
    apply Nat.leb_le in H1, H2.
    rewrite nat_ascii_embedding by lia.
    apply andb_true_intro. split; apply Nat.leb_le; lia.
  - now rewrite orb_false_r in H.
Qed.

Lemma chars_lower (s : string) :
  PyStr.chars (PyStr.lower s) = map PyStr.lower_char (PyStr.chars s).
Proof. unfold PyStr.lower. apply chars_text. Qed.

Lemma lstrip_chars_plain (l : list ascii) :
  match l with [] => True | x :: _ => PyStr.isspace x = false end ->
  PyStr.lstrip_chars l = l.
Proof. destruct l as [|x l]; [reflexivity|]. simpl. now intros ->. Qed.

Lemma strip_letters (l : list ascii) :
  Forall (fun c => a_z c = true) l -> PyStr.strip (PyStr.text l) = PyStr.text l.
Proof.
  intro H. apply strip_of_ends.
  - apply lstrip_chars_plain. destruct H as [|x l Hx _]; [exact I|].
    now apply lower_not_space.
  - unfold PyStr.rstrip_chars. rewrite lstrip_chars_plain; [apply rev_involutive|].
    apply Forall_rev in H. destruct H as [|x l' Hx _]; [exact I|].
    now apply lower_not_space.
Qed.

(** X29. A goal that reads [lead], a space, the word in or for, a space,
    [city] and [tail] gives the city in title case: when [lead] holds
    neither \x22in\x22 nor \x22for\x22 in any letter case, [city] is one word of
    ASCII letters, and [tail] is empty or begins with a question mark or a
    comma, [extract_city] returns [city.lower().title()]. *)
Theorem city_after_in_is_found (lead kw city tail : string) :
  kw = "in" \/ kw = "for" ->
  PyStr.contains "in" (PyStr.lower lead) = false ->
  PyStr.contains "for" (PyStr.lower lead) = false ->
  city <> "" ->
  Forall (fun c => PyStr.islower c || PyStr.isupper c = true) (PyStr.chars city) ->
  tail = "" \/ (exists more, tail = String "?" more \/ tail = String "," more) ->
  extract_city (lead ++ " " ++ kw ++ " " ++ city ++ tail)
  = PyStr.title (PyStr.lower city).
Proof.
  intros Hkw Hin Hfor Hcity Hletters Htail.
  assert (Hw : Forall (fun c => a_z c = true) (PyStr.chars (PyStr.lower city))).
  { rewrite chars_lower. apply Forall_map.
    eapply Forall_impl; [|exact Hletters]. intros c Hc. now apply letter_lower. }
  assert (Hne : PyStr.chars (PyStr.lower city) <> []).
  { rewrite chars_lower. destruct city; [congruence | discriminate]. }
  assert (Ht : exists more,
             PyStr.chars (PyStr.lower tail) = []
             \/ PyStr.chars (PyStr.lower tail) = "?"%char :: more
             \/ PyStr.chars (PyStr.lower tail) = ","%char :: more).
  { destruct Htail as [-> | [more [-> | ->]]].
    - exists []. now left.
    - exists (map PyStr.lower_char (PyStr.chars more)). right. left. apply chars_lower.
    - exists (map PyStr.lower_char (PyStr.chars more)). right. right. apply chars_lower. }
  destruct Ht as [more Ht].
  assert (Hk : PyStr.lower kw = kw) by (now destruct Hkw as [-> | ->]).
  unfold extract_city. cbv zeta.
  rewrite !lower_append, Hk. change (PyStr.lower " ") with " "%string.
  unfold titled_group at 1, search.
  rewrite !chars_append. change (PyStr.chars " ") with [" "%char].
  unfold PyStr.contains in Hin, Hfor.
  set (L := PyStr.chars (PyStr.lower lead)) in *.
  destruct (PyStr.chars (PyStr.lower city)) as [|x w] eqn:Hc; [congruence|].
  inversion Hw as [|? ? Hx Hw']; subst.
  set (T := PyStr.chars (PyStr.lower tail)) in *.
  cbn [app].
  rewrite search_from_skips.
  2: { intros a y b prev' ps' Hl. apply city_match_fails.
       - apply (absent_word_never_begins _ L a (y :: b)); auto.
         repeat constructor.
       - apply (absent_word_never_begins _ L a (y :: b)); auto.
         repeat constructor. }
  cbn [search_from].
  rewrite city_match_fails by reflexivity.
  destruct (city_match kw w T more x (S (0 + List.length L)) Hkw Hx Hw' Ht)
    as (m & Hm & Hg).
  rewrite (search_from_here _ _ _ _ m Hm), Hg.
  rewrite strip_letters by (now constructor).
  f_equal. rewrite <- Hc. unfold PyStr.lower at 1. now rewrite chars_text, <- chars_lower, text_chars.
Qed.

(* ------------------------------------------------------------------ *)
(** ** The results that feed the later calls *)

Section FlowFacts.
Context {E : Env}.

Lemma execute_tool_call (runner : ToolRunner) (user_goal : string)
    (results : list (string * string)) (tool_name : string) (st : State) :
  exists c st',
    execute_tool runner user_goal results tool_name st
    = (Ok (results_after results [c]), st')
    /\ call_tool c = tool_name
    /\ tool_args tool_name user_goal results = Ok (call_args c)
    /\ calls st' = calls st ++ [c].
Proof.
  destruct (execute_tool_spec runner user_goal results tool_name st)
    as (a & r & st' & Ha & Hc & Hx).
  destruct (call_logged runner tool_name a st) as (r' & st'' & Hc' & Hcalls & _).
  rewrite Hc in Hc'. inversion Hc'; subst r' st''.
  exists {| call_tool := tool_name; call_args := a; call_result := r |}, st'.
  split; [exact Hx|]. auto.
Qed.

Lemma execute_step_tools_replay (runner : ToolRunner) (user_goal : string)
    (tool_names : list string) :
  forall (results : list (string * string)) (st : State),
  exists new st',
    execute_step_tools runner user_goal tool_names results st
    = (Ok (results_after results new), st')
    /\ calls st' = calls st ++ new
    /\ forall pre c post,
         new = pre ++ c :: post ->
         tool_args (call_tool c) user_goal (results_after results pre) = Ok (call_args c)
         /\ dict_has (call_tool c) (results_after results pre) = false.
Proof.
  induction tool_names as [|tool_name rest IH]; intros results st.
  - exists [], st. split; [reflexivity|]. split; [now rewrite app_nil_r|].
    intros pre c post H. destruct pre; discriminate.
  - cbn [execute_step_tools]. destruct (dict_has tool_name results) eqn:Hhas.
    + apply IH.
    + destruct (execute_tool_call runner user_goal results tool_name st)
        as (c0 & st1 & Hx & Hname & Hargs & Hcalls).
      destruct (IH (results_after results [c0]) st1) as (new & st' & Hrun & Hc & Hflow).
      exists (c0 :: new), st'.
      rewrite (bind_ok _ _ _ _ _ Hx). split; [exact Hrun|].
      split; [rewrite Hc, Hcalls, <- app_assoc; reflexivity|].
      intros pre c post Hsplit. destruct pre as [|p pre]; simpl in Hsplit.
      * inversion Hsplit as [[Hc0 Hnew]]. rewrite <- Hc0.
        cbn [results_after fold_left]. rewrite Hname. auto.
      * inversion Hsplit as [[Hc0 Hnew]]. rewrite <- Hc0. apply (Hflow pre c post Hnew).
Qed.

Lemma create_issue_body (user_goal : string) (results : list (string * string)) (a : args) :
  tool_args "create_issue" user_goal results = Ok a ->
  dict_get "body" a = Some (VStr (issue_body user_goal results)).
Proof.
  unfold tool_args.
  change (String.eqb "create_issue" "tavily_search") with false.
  change (String.eqb "create_issue" "get_weather") with false.
  change (String.eqb "create_issue" "create_issue") with true.
  cbv iota. destruct (unpack_owner_repo _) as [[owner repo]|e]; [|discriminate].
  intro H. inversion H. reflexivity.
Qed.

(** X28. [execute_plan_tools] always returns, and its result is the
    dictionary that the calls it made fill in their order. Each call is for
    a tool that has no result yet, and its arguments are those that
    [tool_args] builds from the goal and the results of the calls before
    it; the body of a [create_issue] call is [issue_body] of those
    results. *)
Theorem arguments_follow_the_earlier_results (plan : schemas.TaskPlan)
    (runner : ToolRunner) (user_goal : string) (st : State) :
  exists new st',
    execute_plan_tools plan runner user_goal st = (Ok (results_after [] new), st')
    /\ calls st' = calls st ++ new
    /\ forall pre c post,
         new = pre ++ c :: post ->
         tool_args (call_tool c) user_goal (results_after [] pre) = Ok (call_args c)
         /\ dict_has (call_tool c) (results_after [] pre) = false
         /\ (call_tool c = "create_issue" ->
             dict_get "body" (call_args c)
             = Some (VStr (issue_body user_goal (results_after [] pre)))).
Proof.
  unfold execute_plan_tools.
  destruct (execute_step_tools_replay runner user_goal
              (concat (map schemas.tools (schemas.steps plan))) [] st)
    as (new & st' & Hrun & Hc & Hflow).
  exists new, st'. rewrite execute_steps_flat. split; [exact Hrun|]. split; [exact Hc|].
  intros pre c post Hsplit. destruct (Hflow pre c post Hsplit) as [Hargs Hfresh].
  split; [exact Hargs|]. split; [exact Hfresh|].
  intro Hname. rewrite Hname in Hargs. now apply create_issue_body.
Qed.

End FlowFacts.

(* ================================================================== *)
(** * The theorems at work on examples *)

(** Rule (d) on "nyc". *)
Lemma extract_city_rule_order_witness : extract_city "nyc" = "New York".
Proof.
  apply (proj1 (proj2 (proj2 (proj2 (proj1 extract_city_rule_order "nyc")))));
    vm_compute; reflexivity.
Defined.

(** Ten runs, the judge's score falling from 5 to 1. *)
Lemma calculate_trend_classification_witness :
  metrics._calculate_trend (map demo.scored [5; 5; 5; 5; 5; 1; 1; 1; 1; 1]%Z) 5
  = Ok "declining".
Proof.
  apply (proj1 (proj2 (proj1 (proj2
           (calculate_trend_classification
              (map demo.scored [5; 5; 5; 5; 5; 1; 1; 1; 1; 1]%Z)))
           ltac:(simpl; lia)
           ltac:(repeat constructor; unfold in_range; simpl; lia)))).
  vm_compute. reflexivity.
Defined.

(** A result of 2001 characters. *)
Lemma stored_result_has_no_marker_witness :
  stored demo.long_text = PyStr.text (repeat "a"%char 2000)
  /\ stored demo.long_text <> (PyStr.take 2000 demo.long_text ++ truncation_marker)%string.
Proof.
  destruct (proj2 (stored_result_has_no_marker demo.long_text)
              ltac:(vm_compute; reflexivity)) as (Htake & _ & Hmarker).
  split; [|exact Hmarker].
  rewrite Htake. vm_compute. reflexivity.
Defined.

(** A stored result is never longer than 2000 characters, so the body of an
    issue never marks it as truncated. *)
Lemma stored_is_short (result_str : string) : PyStr.len (stored result_str) <= 2000.
Proof.
  unfold stored. destruct (2000 <? PyStr.len result_str) eqn:H.
  - rewrite len_take. lia.
  - now apply Nat.ltb_ge.
Qed.

Lemma issue_section_of_stored (tool_name result_str : string) :
  String.eqb tool_name "create_issue" = false ->
  issue_section (tool_name, stored result_str)
  = cat [ "### Results from `"; tool_name; "`"; nl; nl;
          "```"; nl; stored result_str; nl; "```"; nl; nl ].
Proof.
  intro Hname. unfold issue_section. rewrite Hname.
  replace (2000 <? PyStr.len (stored result_str)) with false; [reflexivity|].
  symmetry. apply Nat.ltb_ge. apply stored_is_short.
Qed.

(** The same result through [execute_plan_tools], and through the body of
    an issue, where the marker does follow the first 2000 characters. *)
Example long_result_in_the_pipeline :
  (exists st',
     execute_plan_tools demo.weather_twice (ToolRunner_init demo.tools) "Weather in Paris"
       (demo.start [Ok demo.long_text; Ok "news"])
     = (Ok [("get_weather", PyStr.text (repeat "a"%char 2000)); ("tavily_search", "news")],
        st'))
  /\ issue_section ("get_weather", demo.long_text)
     = cat [ "### Results from `get_weather`"; nl; nl; "```"; nl;
             PyStr.text (repeat "a"%char 2000); nl; nl; "... (truncated)"; nl;
             "```"; nl; nl ].
Proof.
  split.
  - eexists. vm_compute. reflexivity.
  - vm_compute. reflexivity.
Qed.

Lemma dispatch_first_wins_witness :
  exists results results1 st1 st',
    execute_plan_tools demo.weather_twice (ToolRunner_init demo.tools) "Weather in Paris"
      (demo.start [Ok "sunny"; Ok "news"; Ok "rain"]) = (Ok results, st')
    /\ execute_steps (ToolRunner_init demo.tools) "Weather in Paris"
         (demo.steps_of 1 ["get_weather"; "tavily_search"]) []
         (demo.start [Ok "sunny"; Ok "news"; Ok "rain"]) = (Ok results1, st1)
    /\ map call_tool (calls st') = ["get_weather"; "tavily_search"]
    /\ dict_keys results = ["get_weather"; "tavily_search"]
    /\ dict_get "get_weather" results1 = Some "sunny"
    /\ dict_get "get_weather" results = Some "sunny".
Proof.
  destruct (dispatch_first_wins demo.weather_twice (ToolRunner_init demo.tools)
              "Weather in Paris" (demo.start [Ok "sunny"; Ok "news"; Ok "rain"]))
    as (results & new & st' & Hrun & Hcalls & Hnames & _ & Hkeys & _ & Hlater).
  destruct (Hlater (demo.steps_of 1 ["get_weather"; "tavily_search"])
                   (demo.steps_of 3 ["get_weather"]) eq_refl)
    as (results1 & st1 & new1 & new2 & Hpre & _ & _ & _ & _ & Hkeep).
  exists results, results1, st1, st'.
  split; [exact Hrun|]. split; [exact Hpre|].
  split; [simpl in Hcalls; rewrite Hcalls; exact Hnames|]. split; [exact Hkeys|].
  assert (H1 : dict_get "get_weather" results1 = Some "sunny").
  { assert (Hfst : fst (execute_steps (ToolRunner_init demo.tools) "Weather in Paris"
                          (demo.steps_of 1 ["get_weather"; "tavily_search"]) []
                          (demo.start [Ok "sunny"; Ok "news"; Ok "rain"]))
                   = Ok [("get_weather", "sunny"); ("tavily_search", "news")])
      by (vm_compute; reflexivity).
    rewrite Hpre in Hfst. simpl in Hfst. injection Hfst as ->. reflexivity. }
  split; [exact H1 | exact (Hkeep _ _ H1)].
Defined.

Lemma tool_failure_is_isolated_witness :
  exists results st',
    execute_plan_tools demo.weather_twice (ToolRunner_init demo.tools) "Weather in Paris"
      (demo.start [Raise (Exception "down"); Ok "news"]) = (Ok results, st')
    /\ map call_tool (calls st') = ["get_weather"; "tavily_search"]
    /\ dict_get "get_weather" results = Some "Error: down"
    /\ dict_get "tavily_search" results = Some "news".
Proof.
  destruct (tool_failure_is_isolated demo.weather_twice (ToolRunner_init demo.tools)
              "Weather in Paris" (demo.start [Raise (Exception "down"); Ok "news"]))
    as (results & new & st' & Hrun & Hcalls & Hnames & Herr & _).
  exists results, st'. simpl in Hcalls.
  split; [exact Hrun|]. split; [rewrite Hcalls; exact Hnames|].
  assert (Hfst : fst (execute_plan_tools demo.weather_twice (ToolRunner_init demo.tools)
                        "Weather in Paris"
                        (demo.start [Raise (Exception "down"); Ok "news"]))
                 = Ok [("get_weather", "Error: down"); ("tavily_search", "news")])
    by (vm_compute; reflexivity).
  assert (Hsnd : calls (snd (execute_plan_tools demo.weather_twice
                               (ToolRunner_init demo.tools) "Weather in Paris"
                               (demo.start [Raise (Exception "down"); Ok "news"])))
                 = [ {| call_tool := "get_weather";
                        call_args := [("city", VStr "Paris")];
                        call_result := Raise (Exception "down") |};
                     {| call_tool := "tavily_search";
                        call_args := [("query", VStr "Weather in Paris");
                                      ("max_results", VInt 10)];
                        call_result := Ok "news" |} ])
    by (vm_compute; reflexivity).
  rewrite Hrun in Hfst, Hsnd. simpl in Hfst, Hsnd. rewrite Hcalls in Hsnd.
  injection Hfst as Hresults.
  split.
  - apply (Herr {| call_tool := "get_weather";
                   call_args := [("city", VStr "Paris")];
                   call_result := Raise (Exception "down") |}
                (Exception "down")); [|reflexivity].
    rewrite Hsnd. now left.
  - rewrite Hresults. reflexivity.
Defined.


(** The planner names a tool that is not loaded; or only loaded tools. *)
Lemma tool_validation_is_a_hard_gate_witness :
  (exists e st2,
     run_orchestration "Weather in Paris" demo.tools
       (demo.start [Ok "plan: get_weather browser"; Ok "sunny"]) = (Raise e, st2)
     /\ calls st2 = []
     /\ storage st2 = None)
  /\ validate_tools demo.weather_twice (get_tool_names demo.tools) = Ok tt
  /\ (exists tool_results new st3,
        dispatched "Weather in Paris" demo.tools
          (demo.start [Ok "plan: get_weather"; Ok "sunny"]) (S754_zero false)
          (demo.plan_of ["get_weather"]) tool_results st3
        /\ calls st3 = new
        /\ map call_tool new = ["get_weather"]).
Proof.
  split; [|split].
  - eexists _, _.
    eapply (proj1 (proj2 (proj2
              (tool_validation_is_a_hard_gate
                 (demo.plan_of ["get_weather"; "browser"])
                 (get_tool_names demo.tools))))
            "Weather in Paris" demo.tools
            (demo.start [Ok "plan: get_weather browser"; Ok "sunny"])
            (S754_zero false)).
    + reflexivity.
    + exists [Ok "plan: get_weather browser"; Ok "sunny"],
             "plan: get_weather browser", [Ok "sunny"].
      repeat split; vm_compute; reflexivity.
    + vm_compute. reflexivity.
  - apply (proj1 (tool_validation_is_a_hard_gate demo.weather_twice
                    (get_tool_names demo.tools))).
    intros step tool Hstep Htool. vm_compute in Hstep.
    destruct Hstep as [<-|[<-|[<-|[]]]]; vm_compute in Htool;
      destruct Htool as [<-|[]]; vm_compute; auto.
  - apply (proj2 (proj2 (proj2
             (tool_validation_is_a_hard_gate (demo.plan_of ["get_weather"])
                (get_tool_names demo.tools))))
           "Weather in Paris" demo.tools
           (demo.start [Ok "plan: get_weather"; Ok "sunny"]) (S754_zero false)
           (demo.state [Ok "sunny"] [] [] None)).
    + reflexivity.
    + exists [Ok "plan: get_weather"; Ok "sunny"], "plan: get_weather", [Ok "sunny"].
      repeat split; vm_compute; reflexivity.
    + vm_compute. reflexivity.
Defined.

(** The executor fails and the judge scores the failure text; the plan
    text does not parse; the judge's model answers "bad" and "999". *)
Lemma fatal_errors_write_no_metric_witness :
  (exists res entry st',
     run_orchestration "Weather in Paris" demo.tools
       (demo.start [Ok "plan: get_weather"; Ok "sunny"; Raise (Exception "boom"); Ok "345"])
     = (Ok res, st')
     /\ storage st' = appended None (json_dumps entry ++ nl)
     /\ metrics.completed entry = false
     /\ metrics.errors entry = ["boom"]
     /\ execution.completed res = false
     /\ execution.errors res = ["boom"])
  /\ (exists e st',
        run_orchestration "Weather in Paris" demo.tools (demo.start [Ok "no plan"])
        = (Raise e, st')
        /\ storage st' = None)
  /\ (exists st',
        run_orchestration "Weather in Paris" demo.tools
          (demo.start [Ok "plan: get_weather"; Ok "sunny"; Ok "It is sunny.";
                       Ok "bad"; Ok "999"])
        = (Raise (ValidationError "JudgeScore" "999"), st')
        /\ storage st' = None).
Proof.
  split; [|split].
  - eapply (proj2 (proj2 (proj2 (proj2
              (fatal_errors_write_no_metric (E := demo.env) "Weather in Paris" demo.tools
                 (demo.start [Ok "plan: get_weather"; Ok "sunny";
                              Raise (Exception "boom"); Ok "345"])))))
            (S754_zero false) (demo.plan_of ["get_weather"])
            [("get_weather", "sunny")]
            (demo.state [Raise (Exception "boom"); Ok "345"]
               [ {| call_tool := "get_weather";
                    call_args := [("city", VStr "Paris")];
                    call_result := Ok "sunny" |} ] [] None)
            (Exception "boom") [Ok "345"]).
    + eexists. split; [|split].
      * exists [Ok "plan: get_weather"; Ok "sunny"; Raise (Exception "boom"); Ok "345"],
               "plan: get_weather",
               [Ok "sunny"; Raise (Exception "boom"); Ok "345"].
        repeat split; vm_compute; reflexivity.
      * vm_compute. reflexivity.
      * vm_compute. reflexivity.
    + reflexivity.
    + vm_compute. reflexivity.
  - apply (proj1 (proj2
             (fatal_errors_write_no_metric (E := demo.env) "Weather in Paris" demo.tools
                (demo.start [Ok "no plan"])))
           (S754_zero false) [Ok "no plan"] "no plan" []
           (ValidationError "TaskPlan" "no plan"));
      vm_compute; reflexivity.
  - apply (proj1 (proj2 (proj2 (proj2
             (fatal_errors_write_no_metric (E := demo.env) "Weather in Paris" demo.tools
                (demo.start [Ok "plan: get_weather"; Ok "sunny"; Ok "It is sunny.";
                             Ok "bad"; Ok "999"])))))
           (S754_zero false) (demo.plan_of ["get_weather"])
           [("get_weather", "sunny")]
           (demo.state [Ok "It is sunny."; Ok "bad"; Ok "999"]
              [ {| call_tool := "get_weather";
                   call_args := [("city", VStr "Paris")];
                   call_result := Ok "sunny" |} ] [] None)
           "It is sunny." true []
           (demo.state [Ok "bad"; Ok "999"]
              [ {| call_tool := "get_weather";
                   call_args := [("city", VStr "Paris")];
                   call_result := Ok "sunny" |} ] [] None)
           "bad" [Ok "999"] (ValidationError "JudgeScore" "bad") "999" []
           (ValidationError "JudgeScore" "999")).
    + eexists. split; [|split].
      * exists [Ok "plan: get_weather"; Ok "sunny"; Ok "It is sunny."; Ok "bad"; Ok "999"],
               "plan: get_weather",
               [Ok "sunny"; Ok "It is sunny."; Ok "bad"; Ok "999"].
        repeat split; vm_compute; reflexivity.
      * vm_compute. reflexivity.
      * vm_compute. reflexivity.
    + vm_compute. reflexivity.
    + reflexivity.
    + reflexivity.
    + reflexivity.
    + reflexivity.
Defined.

(** The only tool fails; the executor answers and the judge scores. *)
Lemma tool_failures_stay_out_of_the_entry_witness :
  exists res entry st',
    run_orchestration "Find the news" demo.tools
      (demo.start [Ok "plan: tavily_search"; Raise (Exception "down");
                   Ok "No news found."; Ok "245"])
    = (Ok res, st')
    /\ storage st' = appended None (json_dumps entry ++ nl)
    /\ metrics.completed entry = true
    /\ metrics.errors entry = []
    /\ execution.tool_results (execution.outputs res) = [("tavily_search", "Error: down")].
Proof.
  destruct (run_orchestration "Find the news" demo.tools
              (demo.start [Ok "plan: tavily_search"; Raise (Exception "down");
                           Ok "No news found."; Ok "245"]))
    as [r st'] eqn:Hrun.
  assert (Hr : exists res, r = Ok res
                 /\ execution.completed res = true /\ execution.errors res = []
                 /\ execution.tool_results (execution.outputs res)
                    = [("tavily_search", "Error: down")]).
  { apply (f_equal fst) in Hrun. cbn [fst] in Hrun. rewrite <- Hrun.
    eexists. split; [vm_compute; reflexivity|]. repeat split. }
  destruct Hr as (res & -> & Hc & He & Ht).
  destruct (tool_failures_stay_out_of_the_entry (E := demo.env) _ _ _ _ _ Hrun)
    as (_ & _ & results & _ & _ & _ & entry & _ & _ & _ & Hs & Hec & Hee & _).
  exists res, entry, st'. split; [reflexivity|]. split; [exact Hs|].
  split; [now rewrite Hec|]. split; [now rewrite Hee | exact Ht].
Defined.


(** Three runs, the last two counted. *)
Lemma get_stats_last_n_witness :
  exists s,
    metrics.get_stats_from (map demo.scored [5; 4; 3]%Z) (Some 2%Z)
    = Ok (metrics.stats_summary s)
    /\ metrics.total_runs s = 2%Z
    /\ PyNum.sum (map snd (metrics.goal_type_breakdown s)) = 2%Z.
Proof.
  assert (Hex : exists s,
            metrics.get_stats_from (map demo.scored [5; 4; 3]%Z) (Some 2%Z)
            = Ok (metrics.stats_summary s))
    by (eexists; vm_compute; reflexivity).
  destruct Hex as [s Hs]. exists s. split; [exact Hs|].
  destruct (get_stats_last_n (map demo.scored [5; 4; 3]%Z) 2 ltac:(lia) ltac:(discriminate))
    as (_ & _ & _ & H).
  destruct (H s Hs) as [Ht Hb]. split; [exact Ht | now rewrite Hb].
Defined.

(** [last_n = -1] on three runs counts the second and the third. *)
Lemma get_stats_negative_last_n_witness :
  metrics.get_stats_from (map demo.scored [5; 4; 3]%Z) (Some (-1)%Z)
  = metrics.get_stats_from (map demo.scored [4; 3]%Z) None.
Proof.
  exact (proj1 (get_stats_negative_last_n (map demo.scored [5; 4; 3]%Z) (-1) ltac:(lia))).
Defined.

(** Twelve runs with a falling score: the last five alone show no trend. *)
Lemma get_stats_trend_window_witness :
  exists s,
    metrics.get_stats_from (map demo.scored [0; 0; 5; 5; 5; 5; 5; 1; 1; 1; 1; 1]%Z)
      (Some 5%Z)
    = Ok (metrics.stats_summary s)
    /\ metrics.recent_trend s = "insufficient_data"
    /\ metrics._calculate_trend
         (map demo.scored [0; 0; 5; 5; 5; 5; 5; 1; 1; 1; 1; 1]%Z) 5
       = Ok "declining".
Proof.
  assert (Hex : exists s,
            metrics.get_stats_from
              (map demo.scored [0; 0; 5; 5; 5; 5; 5; 1; 1; 1; 1; 1]%Z) (Some 5%Z)
            = Ok (metrics.stats_summary s))
    by (eexists; vm_compute; reflexivity).
  destruct Hex as [s Hs]. exists s. split; [exact Hs|]. split.
  - exact (proj1 (get_stats_trend_window _ 5 s ltac:(lia) Hs) ltac:(lia)).
  - vm_compute. reflexivity.
Defined.

(** Two old runs before the ten that count. *)
Lemma trend_uses_last_entries_witness :
  metrics._calculate_trend
    (map demo.scored [0; 0]%Z ++ map demo.scored [5; 5; 5; 5; 5; 1; 1; 1; 1; 1]%Z) 5
  = Ok "declining".
Proof.
  rewrite (trend_uses_last_entries (map demo.scored [0; 0]%Z)
             (map demo.scored [5; 5; 5; 5; 5; 1; 1; 1; 1; 1]%Z) 5
             ltac:(lia) ltac:(reflexivity)).
  vm_compute. reflexivity.
Defined.

Lemma weather_words_win_witness :
  metrics.infer_goal_type "Search GitHub for the FORECAST of repo issues" = "weather".
Proof.
  apply (weather_words_win "Search GitHub for the " "FORECAST" " of repo issues").
  vm_compute. auto.
Defined.

(** An apostrophe opens the first quoted text. *)
Lemma quoted_text_is_the_issue_title_witness :
  issue_title "Create an issue in a/b about the user's login 'bug'" = "s login ".
Proof.
  destruct (quoted_text_is_the_issue_title
              "Create an issue in a/b about the user" "s login " "bug'" "'" "'" []
              eq_refl eq_refl
              ltac:(repeat constructor) ltac:(repeat constructor) ltac:(discriminate))
    as [H _].
  exact H.
Defined.

Lemma create_issue_title_is_never_empty_witness :
  exists a title,
    tool_args "create_issue" "Create an issue in repo a/b" [] = Ok a
    /\ dict_get "title" a = Some (VStr title)
    /\ title <> "".
Proof.
  destruct (create_issue_title_is_never_empty "Create an issue in repo a/b" []
              ltac:(discriminate))
    as (a & title & body & Ha & Ht & Hne & _).
  exists a, title. auto.
Defined.

Lemma sanitize_removes_the_fence_witness :
  sanitize (cat ["```"; "JSON"; nl; "plan: get_weather"; nl; "```"]) = "plan: get_weather".
Proof.
  apply (proj1 (sanitize_removes_the_fence "JSON" "plan: get_weather"
                  ltac:(vm_compute; reflexivity) ltac:(discriminate))).
  vm_compute. reflexivity.
Defined.

Lemma unknown_tool_is_reported_not_invoked_witness :
  exists st',
    execute_tool (ToolRunner_init demo.tools) "Find the news" [] "browser"
      (demo.start [Ok "unused"])
    = (Ok [("browser",
            "Error: 'Tool 'browser' not found. Available: ['get_weather', 'tavily_search']'")],
       st')
    /\ world st' = [Ok "unused"].
Proof.
  destruct (unknown_tool_is_reported_not_invoked (ToolRunner_init demo.tools)
              "Find the news" [] "browser" (demo.start [Ok "unused"])
              ltac:(vm_compute; reflexivity))
    as (a & st' & _ & _ & Hw & Hexec).
  exists st'. split; [|exact Hw]. rewrite Hexec. vm_compute. reflexivity.
Defined.

Lemma weather_tool_receives_a_location_witness :
  fst (execute_tool (ToolRunner_init [demo.station]) "What is the weather in Paris?" []
         "get_weather" (demo.start []))
  = Ok [("get_weather", "Paris")].
Proof.
  destruct (weather_tool_receives_a_location (ToolRunner_init [demo.station])
              "What is the weather in Paris?" [] demo.station demo.echo_city
              (demo.start []) eq_refl eq_refl)
    as [_ H].
  rewrite H. vm_compute. reflexivity.
Defined.

Lemma a_finished_run_is_consistent_witness :
  exists res st',
    run_orchestration "Find the news" demo.tools
      (demo.start [Ok "plan: tavily_search"; Ok "news"; Ok "Here is the news."; Ok "455"])
    = (Ok res, st')
    /\ dict_keys (execution.tool_results (execution.outputs res))
       = dedup (plan_tools (execution.plan (execution.outputs res)))
    /\ scores_in_range (execution.judge_score (execution.outputs res))
    /\ (execution.completed res = true <-> execution.errors res = [])
    /\ exists entry,
         storage st' = appended None (json_dumps entry ++ nl) /\ in_range entry.
Proof.
  assert (Hex : exists res st',
            run_orchestration "Find the news" demo.tools
              (demo.start [Ok "plan: tavily_search"; Ok "news"; Ok "Here is the news.";
                           Ok "455"])
            = (Ok res, st'))
    by (eexists _, _; vm_compute; reflexivity).
  destruct Hex as (res & st' & H). exists res, st'. split; [exact H|].
  destruct (a_finished_run_is_consistent (E := demo.env) _ _ _ _ _ H)
    as (_ & _ & _ & Hkeys & Hrange & Hok & _ & entry & Hs & _ & _ & _ & Hin & _).
  split; [exact Hkeys|]. split; [exact Hrange|]. split; [exact Hok|].
  exists entry. split; [exact Hs | exact Hin].
Defined.

Lemma only_plain_requests_are_run_witness :
  PyStr.strip "  Weather in Paris " = "Weather in Paris"
  /\ is_metrics_command "  Weather in Paris " = false.
Proof.
  destruct (only_plain_requests_are_run "  Weather in Paris " "Weather in Paris"
              ltac:(vm_compute; reflexivity))
    as (Hs & _ & _ & Hm & _).
  split; [symmetry; exact Hs | exact Hm].
Defined.

(** A number with a sign is no number for the shell. *)
Lemma the_shell_never_asks_for_a_negative_window_witness :
  read_command "metrics -3" = Ok (Metrics None)
  /\ is_metrics_command "metrics -3" = true
  /\ (forall entries,
        metrics.get_stats_from entries None = Ok (metrics.stats_error "No metrics available")
        <-> entries = []).
Proof.
  assert (H : read_command "metrics -3" = Ok (Metrics None)) by (vm_compute; reflexivity).
  destruct (the_shell_never_asks_for_a_negative_window "metrics -3" None H)
    as (Hm & _ & Hempty & _).
  split; [exact H|]. split; [exact Hm | exact Hempty].
Defined.

(** The planner is down for the first goal and names an unknown tool for
    the second. *)
Lemma the_shell_survives_failed_runs_witness :
  exists st',
    main_loop demo.tools ["Weather in Paris"; "  "; "help"; "Find the news"; "exit"; "more"]
      (demo.start [Raise (Exception "planner down"); Ok "plan: browser"])
    = (Ok tt, st').
Proof.
  apply (the_shell_survives_failed_runs (E := demo.env) demo.tools
           ["Weather in Paris"; "  "; "help"; "Find the news"; "exit"; "more"]).
  repeat constructor.
Defined.

(** Two entries logged to a new file. *)
Lemma logged_entries_are_counted_witness :
  exists st' s,
    log_each [demo.first_entry; demo.second_entry] (demo.start []) = (Ok tt, st')
    /\ get_stats None st' = (Ok (metrics.stats_summary s), st')
    /\ metrics.total_runs s = 2%Z.
Proof.
  assert (Hall : Forall round_trips [demo.first_entry; demo.second_entry]).
  { repeat constructor; try (vm_compute; discriminate);
      apply Forall_forall; intros c Hc; vm_compute in Hc;
      repeat (destruct Hc as [<-|Hc]; [reflexivity|]); destruct Hc. }
  destruct (logged_entries_are_counted [demo.first_entry; demo.second_entry] []
              (demo.start []) Hall ltac:(discriminate) (or_introl eq_refl) eq_refl)
    as (st' & Hlog & Hstats & _ & Hsum).
  assert (Hex : exists s,
            metrics.get_stats_from ([] ++ [demo.first_entry; demo.second_entry]) None
            = Ok (metrics.stats_summary s))
    by (eexists; vm_compute; reflexivity).
  destruct Hex as [s Hs]. exists st', s. split; [exact Hlog|].
  split; [now rewrite Hstats, Hs|]. exact (proj1 (Hsum s Hs)).
Defined.

(** A question about Paris, in capitals. *)
Lemma city_after_in_is_found_witness :
  extract_city "What is the weather in PARIS?" = "Paris".
Proof.
  apply (city_after_in_is_found "What is the weather" "in" "PARIS" "?").
  - now left.
  - reflexivity.
  - reflexivity.
  - discriminate.
  - repeat constructor.
  - right. exists "". now left.
Defined.
